(** * jenkins-report: failure classification and the build walk

    A shallow embedding of [jenkins-report.py].  The script walks a Jenkins
    job's builds backwards from the last completed one, keeps the builds of a
    time window, matches the console output of the failed ones against the
    causes of [causes.yaml] and prints a table.

    Python values are modelled as follows.
    - [str] is [string]; [int] is [Z]; a naive [datetime] is [Z], the
      microseconds from 1970-01-01 00:00:00 on its own calendar.
    - a [dict] that is iterated ([causes], [build_statuses]) is an association
      list in insertion order; [set] is stdpp's [gset].
    - the Jenkins server, the two YAML files and the clock are a [world] that
      the functions read; every remote call, file read and print is recorded
      in a trace, and an uncaught exception is the outcome [Raise].
    - the [re] module is an interface ([PyRe]); [ReFragment] decides a search
      for a fragment of the pattern syntax on ASCII texts and hands every
      other search to the rest of the module, a parameter.
    - [datetime.fromtimestamp], which depends on the time zone of the
      machine, is part of the [world]. *)

From Stdlib Require Import ZArith String Ascii List Bool Lia.
From stdpp Require Import base gmap strings list pretty sorting.

Import ListNotations.
Open Scope string_scope.
Open Scope list_scope.
Open Scope Z_scope.

(** ** Python's [re] module *)

(** [re.search(pattern, string, flags)] returns a match object, returns
    [None], or raises [re.error] when the pattern does not compile. *)
Inductive re_flags := NOFLAGS | DOTALL.

Inductive re_outcome := ReMatch | ReNone | ReError.

Class PyRe := { re_search : string -> string -> re_flags -> re_outcome }.

Module ReFragment.

(** Patterns built from ordinary characters, [.], [*], [+], [?], [|],
    groups and backslash-escaped punctuation. [Nul] (no string at all) is
    not written by any pattern; derivatives produce it. *)
Inductive regex :=
| Nul
| Eps
| Chr (c : ascii)
| Dot
| Cat (r1 r2 : regex)
| Alt (r1 r2 : regex)
| Star (r : regex).

Definition newline : ascii := "010"%char.

(** What [.] accepts: every character with [re.DOTALL], every character
    but a newline without it. *)
Definition dot_accepts (fl : re_flags) (c : ascii) : bool :=
  match fl with
  | DOTALL => true
  | NOFLAGS => negb (Ascii.eqb c newline)
  end.



Fixpoint nullable (r : regex) : bool :=
  match r with
  | Nul | Chr _ | Dot => false
  | Eps | Star _ => true
  | Cat r1 r2 => nullable r1 && nullable r2
  | Alt r1 r2 => nullable r1 || nullable r2
  end.

Fixpoint deriv (fl : re_flags) (c : ascii) (r : regex) : regex :=
  match r with
  | Nul | Eps => Nul
  | Chr d => if Ascii.eqb c d then Eps else Nul
  | Dot => if dot_accepts fl c then Eps else Nul
  | Cat r1 r2 =>
      if nullable r1
      then Alt (Cat (deriv fl c r1) r2) (deriv fl c r2)
      else Cat (deriv fl c r1) r2
  | Alt r1 r2 => Alt (deriv fl c r1) (deriv fl c r2)
  | Star r1 => Cat (deriv fl c r1) (Star r1)
  end.


(** Does some prefix of [s] match [r]? *)
Fixpoint match_here (fl : re_flags) (r : regex) (s : string) : bool :=
  nullable r ||
  match s with
  | "" => false
  | String c s' => match_here fl (deriv fl c r) s'
  end.

(** Does a match start at some position of [s]? *)
Fixpoint scan (fl : re_flags) (r : regex) (s : string) : bool :=
  match_here fl r s ||
  match s with
  | "" => false
  | String _ s' => scan fl r s'
  end.

(** *** Reading a pattern *)

Inductive compiled :=
| Compiled (r : regex)
| BadPattern      (* CPython's parser raises [re.error] *)
| Unsupported.    (* syntax outside the fragment *)

(** One nesting level of the pattern being read: the alternatives already
    closed by [|], the sequence read since, and its last item, which a
    repetition operator applies to ([true] once it has been repeated). *)
Record frame := {
  alts : option regex;
  items : regex;
  last : option (regex * bool)
}.

Definition empty_frame : frame :=
  {| alts := None; items := Eps; last := None |}.

Definition sequence (f : frame) : regex :=
  match last f with
  | None => items f
  | Some (r, _) => Cat (items f) r
  end.

Definition close_frame (f : frame) : regex :=
  match alts f with
  | None => sequence f
  | Some a => Alt a (sequence f)
  end.

Definition push_item (r : regex) (f : frame) : frame :=
  {| alts := alts f; items := sequence f; last := Some (r, false) |}.

Definition next_alternative (f : frame) : frame :=
  {| alts := Some (close_frame f); items := Eps; last := None |}.

Definition is_meta (c : ascii) : bool :=
  existsb (Ascii.eqb c)
    ["."; "*"; "+"; "?"; "|"; "("; ")"; "["; "]"; "{"; "}"; "^"; "$"; "\"]%char.

Definition is_ascii (c : ascii) : bool := (nat_of_ascii c <? 128)%nat.

Inductive repeat_op := ZeroOrMore | OneOrMore | ZeroOrOne.

Definition repeated (op : repeat_op) (r : regex) : regex :=
  match op with
  | ZeroOrMore => Star r
  | OneOrMore => Cat r (Star r)
  | ZeroOrOne => Alt r Eps
  end.

Definition repeat_of (c : ascii) : option repeat_op :=
  if Ascii.eqb c "*" then Some ZeroOrMore
  else if Ascii.eqb c "+" then Some OneOrMore
  else if Ascii.eqb c "?" then Some ZeroOrOne
  else None.

(** The pattern is read left to right; [f] is the innermost open group and
    [stack] the groups around it. A repetition with nothing before it
    ("nothing to repeat"), a [)] with no open group, a pattern that ends
    inside a group or on a backslash are the errors CPython reports. A
    repetition operator right after another one (lazy and possessive
    forms), [(?...)], character sets, counted repetitions, anchors,
    escapes of letters and digits and non-ASCII characters are left out. *)
Fixpoint read (p : string) (f : frame) (stack : list frame) : compiled :=
  match p with
  | "" => match stack with
          | [] => Compiled (close_frame f)
          | _ :: _ => BadPattern
          end
  | String c p' =>
      match repeat_of c with
      | Some op =>
          match last f with
          | None => BadPattern
          | Some (_, true) => Unsupported
          | Some (r, false) =>
              read p' {| alts := alts f; items := items f;
                         last := Some (repeated op r, true) |} stack
          end
      | None =>
          if Ascii.eqb c "." then read p' (push_item Dot f) stack
          else if Ascii.eqb c "|" then read p' (next_alternative f) stack
          else if Ascii.eqb c "(" then
            match p' with
            | String "?" _ => Unsupported
            | _ => read p' empty_frame (f :: stack)
            end
          else if Ascii.eqb c ")" then
            match stack with
            | [] => BadPattern
            | g :: stack' => read p' (push_item (close_frame f) g) stack'
            end
          else if Ascii.eqb c "\" then
            match p' with
            | "" => BadPattern
            | String d p'' =>
                if is_meta d then read p'' (push_item (Chr d) f) stack
                else Unsupported
            end
          else if is_meta c || negb (is_ascii c) then Unsupported
          else read p' (push_item (Chr c) f) stack
      end
  end.

Definition compile (pattern : string) : compiled :=
  read pattern empty_frame [].

Fixpoint ascii_text (s : string) : bool :=
  match s with
  | "" => true
  | String c s' => is_ascii c && ascii_text s'
  end.

(** [re.search] where the fragment decides it: a pattern of the fragment on
    an ASCII text, and a pattern that CPython's parser refuses. Every other
    search is [other]'s, the part of [re] that is not modelled. *)
Definition search (other : string -> string -> re_flags -> re_outcome)
    (pattern text : string) (fl : re_flags) : re_outcome :=
  match compile pattern with
  | Compiled r =>
      if ascii_text text
      then if scan fl r text then ReMatch else ReNone
      else other pattern text fl
  | BadPattern => ReError
  | Unsupported => other pattern text fl
  end.

(** Stands for the searches not modelled where none is made. *)
Definition refuse (pattern text : string) (fl : re_flags) : re_outcome :=
  ReError.

End ReFragment.

(** [re], with [other] for the searches the fragment does not decide. *)
Definition re_with (other : string -> string -> re_flags -> re_outcome)
  : PyRe := {| re_search := ReFragment.search other |}.

(** The instance of the sample runs. Their patterns are in the fragment or
    invalid and their texts ASCII, so that no search is handed on
    ([sample_runs_any_re]). *)
Definition re_fragment : PyRe := re_with ReFragment.refuse.


(** ** Exceptions, outcomes and the trace *)

Inductive exn :=
| JenkinsException      (* python-jenkins: no such job, build or console *)
| FileNotFoundError
| YAMLError
| re_error (pattern : string)
| KeyError (key : string)
| SystemExit (code : Z)
| OverflowError
| OSError
| ValueError_year.      (* ValueError: year out of range *)

(** [Unfinished] is the embedding's own: the bounded loop of
    [display_builds_for_job] stopped at its bound. *)
Inductive outcome (A : Type) :=
| Ok (a : A)
| Raise (e : exn)
| Unfinished.
Arguments Ok {A} a.
Arguments Raise {A} e.
Arguments Unfinished {A}.

(** ** The catalog of causes ([causes.yaml]) *)

Record bug := { bug_url : option string }.

Record cause_data := {
  re : option (list string);
  text : option (list string);
  bug_data : option bug
}.

Definition catalog := list (string * cause_data).

(** ** The Jenkins server *)

(** A build as [get_build_info] returns it. The server sends [timestamp] in
    milliseconds since the epoch; the script's [get_build_info] replaces it
    by a [datetime]. *)
Record build_info := {
  timestamp : Z;
  result : string;
  url : string;
  displayName : option string
}.

(** One job: the number of its last completed build ([None] for JSON
    [null]), its builds and their console texts. Jenkins numbers builds from
    1; a number with no entry is a build that does not exist (any more). *)
Record job := {
  lastCompletedBuild : option Z;
  builds : gmap positive build_info;
  consoles : gmap positive string
}.

Inductive yaml_file (A : Type) :=
| Missing
| Malformed
| Loaded (data : A).
Arguments Missing {A}.
Arguments Malformed {A}.
Arguments Loaded {A} data.

(** The exceptions of [datetime.fromtimestamp]: [OverflowError],
    [OSError], and [ValueError] for a year out of range. *)
Inductive date_exn := DateOverflowError | DateOSError | DateValueError.

Definition exn_of_date (e : date_exn) : exn :=
  match e with
  | DateOverflowError => OverflowError
  | DateOSError => OSError
  | DateValueError => ValueError_year
  end.

(** What a run reads: the clock ([datetime.now()], a naive local time),
    [$HOME] ([None] when it is not set), [~/.jenkins.yaml] (the keys of the
    dict it parses to, and the server its url points to), [causes.yaml], and
    [datetime.fromtimestamp(ms / 1000)], the naive local time of a server
    timestamp: it depends on the time zone, need not grow with [ms], and
    raises out of range. *)
Record world := {
  now : Z;
  home : option string;
  jenkins_yaml : yaml_file (gmap string job);
  settings_keys : list string;
  causes_yaml : yaml_file catalog;
  fromtimestamp_ms : Z -> date_exn + Z
}.

Inductive cell := CStr (s : string) | CInt (n : Z).

Inductive event :=
| OpenFile (path : string)
| GetJobInfo (job_name : string)
| GetBuildInfo (job_name : string) (number : Z)
| GetBuildConsoleOutput (job_name : string) (number : Z)
| Print (line : string)
| PrintTable (rows : list (list cell)).

(** The script's mutable state: the global [server], the [lru_cache] of
    [get_causes], and what it has done so far. *)
Record state := {
  server : option (gmap string job);
  causes_cache : option catalog;
  trace : list event
}.

Definition initial_state : state :=
  {| server := None; causes_cache := None; trace := [] |}.

Definition M (A : Type) : Type := state -> outcome A * state.

#[global] Instance M_ret : MRet M := fun A a st => (Ok a, st).

#[global] Instance M_bind : MBind M := fun A B k m st =>
  match m st with
  | (Ok a, st') => k a st'
  | (Raise e, st') => (Raise e, st')
  | (Unfinished, st') => (Unfinished, st')
  end.

Definition raise {A} (e : exn) : M A := fun st => (Raise e, st).

Definition unfinished {A} : M A := fun st => (Unfinished, st).

(** [st] after the calls [evs]. *)
Definition add_events (st : state) (evs : list event) : state :=
  {| server := server st; causes_cache := causes_cache st;
     trace := trace st ++ evs |}.

Definition log (e : event) : M unit := fun st => (Ok tt, add_events st [e]).

Definition get_state : M state := fun st => (Ok st, st).

Definition set_server (s : gmap string job) : M unit := fun st =>
  (Ok tt, {| server := Some s; causes_cache := causes_cache st;
             trace := trace st |}).

Definition set_causes_cache (c : catalog) : M unit := fun st =>
  (Ok tt, {| server := server st; causes_cache := Some c;
             trace := trace st |}).

Definition lift {A} (o : outcome A) : M A := fun st => (o, st).

(** A library call that returns or raises. *)
Definition lib {A} (r : exn + A) : M A := fun st =>
  match r with
  | inl e => (Raise e, st)
  | inr a => (Ok a, st)
  end.

Definition lib_date {A} (r : date_exn + A) : M A := fun st =>
  match r with
  | inl e => (Raise (exn_of_date e), st)
  | inr a => (Ok a, st)
  end.

(** ** Values the script builds *)

(** [get_build_fail_cause] returns the empty string for a successful build
    and a list of cause names otherwise. *)
Inductive cause_info_t :=
| EmptyStr
| CauseList (names : list string).

(** Iterating over it: the empty string has no element. *)
Definition cause_names (c : cause_info_t) : list string :=
  match c with
  | EmptyStr => []
  | CauseList l => l
  end.

Record build_status := {
  bs_job_name : string;
  bs_build_info : build_info;
  bs_build_number : Z;
  bs_cause_info : cause_info_t
}.

(** [d[k] = v] on an insertion-ordered dict. *)
Fixpoint dict_set {V} (k : string) (v : V) (d : list (string * V))
  : list (string * V) :=
  match d with
  | [] => [(k, v)]
  | (k', v') :: d' =>
      if String.eqb k k' then (k, v) :: d' else (k', v') :: dict_set k v d'
  end.

Fixpoint dict_get {V} (k : string) (d : list (string * V)) : option V :=
  match d with
  | [] => None
  | (k', v) :: d' => if String.eqb k k' then Some v else dict_get k d'
  end.

(** [sep.join(l)] *)
Fixpoint join (sep : string) (l : list string) : string :=
  match l with
  | [] => ""
  | [s] => s
  | s :: l' => s +:+ sep +:+ join sep l'
  end.

(** A line break. *)
Definition nl : string := String ReFragment.newline "".

(** [s in output] for two strings. *)
Fixpoint startswith (s output : string) : bool :=
  match s, output with
  | "", _ => true
  | String _ _, "" => false
  | String a s', String b output' => Ascii.eqb a b && startswith s' output'
  end.

Fixpoint str_in (s output : string) : bool :=
  startswith s output ||
  match output with
  | "" => false
  | String _ output' => str_in s output'
  end.

(** ** Dates *)

(** [datetime.min] and [datetime.max]: the first instant of year 1 and the
    last of year 9999. *)
Definition datetime_min : Z := -62135596800000000.

Definition datetime_max : Z := 253402300799999999.

(** [datetime.timedelta(hours=h)], in microseconds: [OverflowError] when
    it is more than 999999999 days either way. *)
Definition timedelta_hours (h : Z) : exn + Z :=
  let days := h / 24 in
  if (-999999999 <=? days) && (days <=? 999999999)
  then inr (h * 3600000000)
  else inl OverflowError.

(** [d - delta] on a [datetime]: [OverflowError] when the result is not a
    date of the years 1 to 9999. *)
Definition datetime_sub (d delta : Z) : exn + Z :=
  let r := d - delta in
  if (datetime_min <=? r) && (r <=? datetime_max)
  then inr r
  else inl OverflowError.

(** [build_info['timestamp'] = d] *)
Definition with_timestamp (b : build_info) (d : Z) : build_info :=
  {| timestamp := d; result := result b; url := url b;
     displayName := displayName b |}.

Section Script.

Context {R : PyRe}.
Variable w : world.

(** *** [search_for_cause], the loops *)

(** [for reg_exp in cause_data.get('re')]: every pattern is searched, a
    match appends the cause's name. *)
Fixpoint search_regexes (cause_name output : string) (regs : list string)
    (failure_reasons : list string) : outcome (list string) :=
  match regs with
  | [] => Ok failure_reasons
  | reg_exp :: regs' =>
      match re_search reg_exp output DOTALL with
      | ReError => Raise (re_error reg_exp)
      | ReMatch =>
          search_regexes cause_name output regs'
            (failure_reasons ++ [cause_name])
      | ReNone => search_regexes cause_name output regs' failure_reasons
      end
  end.

(** [for search_str in cause_data.get('text')] *)
Fixpoint search_texts (cause_name output : string) (strs : list string)
    (failure_reasons : list string) : list string :=
  match strs with
  | [] => failure_reasons
  | search_str :: strs' =>
      search_texts cause_name output strs'
        (if str_in search_str output
         then failure_reasons ++ [cause_name]
         else failure_reasons)
  end.

(** [if cause_data.get(key)]: a missing key and an empty list are falsy. *)
Definition truthy (l : option (list string)) : option (list string) :=
  match l with
  | Some (_ :: _) => l
  | _ => None
  end.

(** The body of [for cause_name, cause_data in causes.items()]. *)
Definition search_cause (output : string) (entry : string * cause_data)
    (failure_reasons : list string) : outcome (list string) :=
  let (cause_name, data) := entry in
  let after_re :=
    match truthy (re data) with
    | Some regs => search_regexes cause_name output regs failure_reasons
    | None => Ok failure_reasons
    end in
  match after_re with
  | Ok failure_reasons' =>
      match truthy (text data) with
      | Some strs => Ok (search_texts cause_name output strs failure_reasons')
      | None => Ok failure_reasons'
      end
  | other => other
  end.

Fixpoint search_causes (output : string) (causes : catalog)
    (failure_reasons : list string) : outcome (list string) :=
  match causes with
  | [] => Ok failure_reasons
  | entry :: causes' =>
      match search_cause output entry failure_reasons with
      | Ok failure_reasons' => search_causes output causes' failure_reasons'
      | other => other
      end
  end.

(** [list(set(failure_reasons))]. The order of a Python set is not
    specified; [elements] fixes one. *)
Definition list_set (l : list string) : list string :=
  elements (list_to_set l : gset string).

(** Lines 48 and 51-60 of [search_for_cause], on a console text and a
    catalog already fetched. *)
Definition classify (output : string) (causes : catalog)
  : outcome (list string) :=
  match search_causes output causes [] with
  | Ok failure_reasons => Ok (list_set failure_reasons)
  | other => other
  end.

(** *** The collaborators *)

Definition JENKINS_SETTINGS_FILE (home : string) : string :=
  home +:+ "/.jenkins.yaml".

(** [os.environ['HOME']] *)
Definition environ_HOME : M string :=
  match home w with
  | Some h => mret h
  | None => raise (KeyError "HOME")
  end.

Definition get_connection_settings : M (gmap string job) :=
  h ← environ_HOME;
  let config_file := JENKINS_SETTINGS_FILE h in
  log (OpenFile config_file);;
  match jenkins_yaml w with
  | Loaded data => mret data
  | Malformed => raise YAMLError
  | Missing =>
      log (Print "Jenkins config file not found");;
      log (Print ("Please create " +:+ config_file));;
      log (Print (nl +:+ "Example Contents:"));;
      log (Print "username: <username>");;
      log (Print "password: <password>");;
      log (Print "url: http://10.245.162.58:8080");;
      raise (SystemExit 1)
  end.

(** [connection_settings[key]] *)
Definition settings_item (key : string) : M unit :=
  if existsb (String.eqb key) (settings_keys w) then mret tt
  else raise (KeyError key).

(** The arguments of [jenkins.Jenkins] are evaluated in the order they are
    written; creating the object makes no call to the server. *)
Definition get_server : M (gmap string job) :=
  st ← get_state;
  match server st with
  | Some s => mret s
  | None =>
      connection_settings ← get_connection_settings;
      settings_item "url";;
      settings_item "username";;
      settings_item "password";;
      set_server connection_settings;;
      mret connection_settings
  end.

(** [functools.lru_cache]: the first successful load is kept; an exception
    is not cached. *)
Definition get_causes : M catalog :=
  st ← get_state;
  match causes_cache st with
  | Some data => mret data
  | None =>
      let causes_file := "causes.yaml" in
      log (OpenFile causes_file);;
      match causes_yaml w with
      | Loaded data => set_causes_cache data;; mret data
      | Malformed => raise YAMLError
      | Missing => raise FileNotFoundError
      end
  end.

(** The three calls of python-jenkins the script makes. *)
Definition jenkins_get_job_info (s : gmap string job) (job_name : string)
  : M job :=
  log (GetJobInfo job_name);;
  match s !! job_name with
  | Some j => mret j
  | None => raise JenkinsException
  end.

Definition job_build (j : job) (number : Z) : option build_info :=
  match number with
  | Zpos p => builds j !! p
  | _ => None
  end.

Definition job_console (j : job) (number : Z) : option string :=
  match number with
  | Zpos p => consoles j !! p
  | _ => None
  end.

Definition server_build (s : gmap string job) (job_name : string)
    (number : Z) : option build_info :=
  match s !! job_name with
  | Some j => job_build j number
  | None => None
  end.

Definition server_console (s : gmap string job) (job_name : string)
    (number : Z) : option string :=
  match s !! job_name with
  | Some j => job_console j number
  | None => None
  end.

Definition jenkins_get_build_info (s : gmap string job)
    (job_name : string) (number : Z) : M build_info :=
  log (GetBuildInfo job_name number);;
  match server_build s job_name number with
  | Some b => mret b
  | None => raise JenkinsException
  end.

Definition jenkins_get_build_console_output (s : gmap string job)
    (job_name : string) (number : Z) : M string :=
  log (GetBuildConsoleOutput job_name number);;
  match server_console s job_name number with
  | Some output => mret output
  | None => raise JenkinsException
  end.

(** *** The script's functions *)

Definition search_for_cause (job_name : string) (number : Z)
  : M (list string) :=
  s ← get_server;
  output ← jenkins_get_build_console_output s job_name number;
  causes ← get_causes;
  lift (classify output causes).

Definition get_build_info (job_name : string) (build_number : Z)
  : M build_info :=
  s ← get_server;
  build_info ← jenkins_get_build_info s job_name build_number;
  started ← lib_date (fromtimestamp_ms w (timestamp build_info));
  mret (with_timestamp build_info started).

Definition is_build_included (build_info : build_info)
    (min_start_time : Z) (include_success : bool) : bool :=
  if timestamp build_info <? min_start_time then false
  else if String.eqb (result build_info) "SUCCESS" && negb include_success
  then false
  else true.

Definition get_build_fail_cause (build_info : build_info)
    (job_name : string) (build_number : Z) : M cause_info_t :=
  if String.eqb (result build_info) "SUCCESS" then mret EmptyStr
  else
    cause_info ← search_for_cause job_name build_number;
    mret (CauseList cause_info).

(** [[causes[c].get('bug_data', {}).get('url', '') for c in cause_info]] *)
Fixpoint bug_urls_of (causes : catalog) (cause_info : list string)
  : outcome (list string) :=
  match cause_info with
  | [] => Ok []
  | c :: rest =>
      match dict_get c causes with
      | None => Raise (KeyError c)
      | Some data =>
          let bug_url :=
            match bug_data data with
            | Some b => default "" (bug_url b)
            | None => ""
            end in
          match bug_urls_of causes rest with
          | Ok urls => Ok (bug_url :: urls)
          | other => other
          end
      end
  end.

Definition header : list cell :=
  [CStr "Job Name"; CStr "Build No."; CStr "Status"; CStr "Cause";
   CStr "Bug URL(s)"; CStr "Build URL"; CStr "Build Info"].

Definition row_of (build_data : build_status) (bug_urls : list string)
  : list cell :=
  [CStr (bs_job_name build_data);
   CInt (bs_build_number build_data);
   CStr (result (bs_build_info build_data));
   CStr (join nl (cause_names (bs_cause_info build_data)));
   CStr (join nl bug_urls);
   CStr (url (bs_build_info build_data));
   CStr (default "" (displayName (bs_build_info build_data)))].

(** [for build_data in build_statuses.values()] *)
Fixpoint summary_rows (causes : catalog) (values : list build_status)
    (rows : list (list cell)) : outcome (list (list cell)) :=
  match values with
  | [] => Ok rows
  | build_data :: values' =>
      match bug_urls_of causes (cause_names (bs_cause_info build_data)) with
      | Ok bug_urls =>
          summary_rows causes values' (rows ++ [row_of build_data bug_urls])
      | Raise e => Raise e
      | Unfinished => Unfinished
      end
  end.

(** The table is printed as its rows; drawing it is [texttable]'s. *)
Definition display_build_summary
    (build_statuses : list (string * build_status)) : M unit :=
  causes ← get_causes;
  rows ← lift (summary_rows causes (build_statuses.*2) [header]);
  log (PrintTable rows).

(** ['{}_{}'.format(job_name, build_number)] *)
Definition status_key (job_name : string) (build_number : Z) : string :=
  job_name +:+ "_" +:+ pretty build_number.

(** The [if is_build_included(...)] block of the loop body: the build is
    classified and stored under its key, or [build_statuses] is left as
    it is. *)
Definition record_build (job_name : string) (min_start_time : Z)
    (include_success : bool) (build_info : build_info) (build_number : Z)
    (build_statuses : list (string * build_status))
  : M (list (string * build_status)) :=
  if is_build_included build_info min_start_time include_success then
    cause_info ← get_build_fail_cause build_info job_name build_number;
    mret (dict_set (status_key job_name build_number)
            {| bs_job_name := job_name;
               bs_build_info := build_info;
               bs_build_number := build_number;
               bs_cause_info := cause_info |}
            build_statuses)
  else mret build_statuses.

(** The [while job_time > min_start_time] loop; [fuel] bounds the number
    of iterations. *)
Fixpoint walk (fuel : nat) (job_name : string) (min_start_time : Z)
    (include_success : bool) (job_time : Z) (build_number : Z)
    (build_statuses : list (string * build_status))
  : M (list (string * build_status)) :=
  if job_time >? min_start_time then
    match fuel with
    | O => unfinished
    | S fuel' =>
        build_info ← get_build_info job_name build_number;
        let job_time := timestamp build_info in
        build_statuses ←
          record_build job_name min_start_time include_success build_info
            build_number build_statuses;
        walk fuel' job_name min_start_time include_success job_time
          (build_number - 1) build_statuses
    end
  else mret build_statuses.

(** Every iteration needs a build that exists, and builds are numbered
    from 1: [build_number] iterations and the one that fails are enough. *)
Definition walk_bound (build_number : Z) : nat :=
  S (Z.to_nat build_number).

Definition display_builds_for_job (job_name : string) (hours_ago : Z)
    (include_success : bool) : M unit :=
  let now := now w in
  delta ← lib (timedelta_hours hours_ago);
  min_start_time ← lib (datetime_sub now delta);
  s ← get_server;
  job_info ← jenkins_get_job_info s job_name;
  match lastCompletedBuild job_info with
  | None => mret tt
  | Some build_number =>
      let job_time := now in
      build_statuses ←
        walk (walk_bound build_number) job_name min_start_time
          include_success job_time build_number [];
      display_build_summary build_statuses
  end.

End Script.

(** ** Predicates used to state the properties *)

(** [s] occurs in [output], character for character. *)
Definition occurs (s output : string) : Prop :=
  exists pre post, output = pre +:+ s +:+ post.

Section Rules.

Context {R : PyRe}.

(** One of the cause's rules fires on [output]. *)
Definition regex_fires (output : string) (data : cause_data) : Prop :=
  exists regs pat,
    re data = Some regs /\ pat ∈ regs /\
    re_search pat output DOTALL = ReMatch.

Definition literal_fires (output : string) (data : cause_data) : Prop :=
  exists strs s, text data = Some strs /\ s ∈ strs /\ occurs s output.

Definition rule_fires (output : string) (data : cause_data) : Prop :=
  regex_fires output data \/ literal_fires output data.

(** [re.search] raises on [pat], a pattern of the cause. *)
Definition pattern_raises (output : string) (data : cause_data)
    (pat : string) : Prop :=
  exists regs,
    re data = Some regs /\ pat ∈ regs /\
    re_search pat output DOTALL = ReError.

(** No pattern of the catalog makes [re.search] raise. *)
Definition patterns_compile (output : string) (causes : catalog) : Prop :=
  forall name data pat,
    (name, data) ∈ causes -> ~ pattern_raises output data pat.

End Rules.

(** The build numbers fetched, in the order of the trace. *)
Fixpoint visited (tr : list event) : list Z :=
  match tr with
  | [] => []
  | GetBuildInfo _ number :: tr' => number :: visited tr'
  | _ :: tr' => visited tr'
  end.

(** [len] numbers downwards from [n]: [n; n - 1; ...]. *)
Fixpoint countdown (len : nat) (n : Z) : list Z :=
  match len with
  | O => []
  | S len' => n :: countdown len' (n - 1)
  end.

(** A fetch of a build's metadata or of its console text. *)
Definition is_build_or_log_fetch (e : event) : bool :=
  match e with
  | GetBuildInfo _ _ | GetBuildConsoleOutput _ _ => true
  | GetJobInfo _ | OpenFile _ | Print _ | PrintTable _ => false
  end.

Definition is_print_table (e : event) : bool :=
  match e with
  | PrintTable _ => true
  | _ => false
  end.

(** The events of a classification: the console fetch and the catalog. *)
Definition is_classify_event (e : event) : bool :=
  match e with
  | GetBuildConsoleOutput _ _ | OpenFile _ => true
  | _ => false
  end.

(** The exception a call ends with on the server [srv], when it fails. The
    only file opened once the server is known is [causes.yaml]. *)
Definition event_exn (w : world) (srv : gmap string job) (e : event)
  : option exn :=
  match e with
  | GetJobInfo job_name =>
      match srv !! job_name with
      | Some _ => None
      | None => Some JenkinsException
      end
  | GetBuildInfo job_name number =>
      match server_build srv job_name number with
      | Some _ => None
      | None => Some JenkinsException
      end
  | GetBuildConsoleOutput job_name number =>
      match server_console srv job_name number with
      | Some _ => None
      | None => Some JenkinsException
      end
  | OpenFile _ =>
      match causes_yaml w with
      | Loaded _ => None
      | Malformed => Some YAMLError
      | Missing => Some FileNotFoundError
      end
  | Print _ | PrintTable _ => None
  end.

(** A failing call is the last one, and its exception is the outcome. *)
Definition failing_call_ends {A} (w : world) (srv : gmap string job)
    (evs : list event) (o : outcome A) : Prop :=
  forall e x, e ∈ evs -> event_exn w srv e = Some x ->
    o = Raise x /\ exists evs0, evs = evs0 ++ [e].

(** The cache of [get_causes] is left alone, or filled from the file. *)
Definition cache_step (w : world) (st st' : state) : Prop :=
  causes_cache st' = causes_cache st \/
  exists data, causes_yaml w = Loaded data /\ causes_cache st' = Some data.

(** What a run from a state with the server [srv] known does: it keeps the
    server, extends the trace by [evs], and stops at a failing call. *)
Definition runs_to {A} (w : world) (srv : gmap string job) (st : state)
    (r : outcome A * state) (evs : list event) : Prop :=
  server r.2 = Some srv /\
  cache_step w st r.2 /\
  trace r.2 = trace st ++ evs /\
  failing_call_ends w srv evs r.1.

Definition reported_with_empty_cause (tr : list event) (number : Z) : Prop :=
  exists rows row,
    PrintTable rows ∈ tr /\ row ∈ rows /\
    row !! 1%nat = Some (CInt number) /\ row !! 3%nat = Some (CStr "").

Definition report_printed (tr : list event) : Prop :=
  exists rows, PrintTable rows ∈ tr.

(** A run that comes to an end, all of whose calls satisfy [P]. *)
Definition run_spec {A} (w : world) (srv : gmap string job)
    (P : event -> bool) (st : state) (r : outcome A * state) : Prop :=
  r.1 <> Unfinished /\
  exists evs, runs_to w srv st r evs /\ Forall (fun e => P e = true) evs.

(** The events of the loop of [display_builds_for_job]. *)
Definition is_walk_event (e : event) : bool :=
  match e with
  | GetBuildInfo _ _ | GetBuildConsoleOutput _ _ | OpenFile _ => true
  | _ => false
  end.

(** The state once the server is known and the job was asked for. *)
Definition connected_state (h : string) (srv : gmap string job)
    (job_name : string) : state :=
  {| server := Some srv; causes_cache := None;
     trace := [OpenFile (JENKINS_SETTINGS_FILE h); GetJobInfo job_name] |}.

(** Line 230: [now - datetime.timedelta(hours=hours_ago)]. *)
Definition min_start_time_of (w : world) (hours_ago : Z) : exn + Z :=
  match timedelta_hours hours_ago with
  | inr delta => datetime_sub (now w) delta
  | inl e => inl e
  end.

(** The parsed settings hold the keys [get_server] reads. *)
Definition has_keys (w : world) : bool :=
  forallb (fun key => existsb (String.eqb key) (settings_keys w))
    ["url"; "username"; "password"].

(** [get_build_info] of a build of the server: the build with its start
    time converted, when the conversion raises nothing. *)
Definition converted (w : world) (b : build_info) : option build_info :=
  match fromtimestamp_ms w (timestamp b) with
  | inr d => Some (with_timestamp b d)
  | inl _ => None
  end.

(** ** Statements about whole runs *)

Section RunStatements.

Context {R : PyRe}.
Variable w : world.

Definition run (job_name : string) (hours_ago : Z) (include_success : bool)
  : outcome unit * state :=
  display_builds_for_job w job_name hours_ago include_success initial_state.

(** The cutoff of a run: [min_start_time], when line 230 raises nothing. *)
Definition cutoff (hours_ago : Z) : Z := now w - hours_ago * 3600000000.

(** The run gets as far as the server [srv]: line 230 raises nothing,
    [HOME] is [h], and the settings file loads and has its three keys. *)
Definition connects (hours_ago : Z) (h : string) (srv : gmap string job)
  : Prop :=
  min_start_time_of w hours_ago = inr (cutoff hours_ago) /\
  home w = Some h /\ jenkins_yaml w = Loaded srv /\ has_keys w = true.

(** The first of the keys [get_server] reads that the settings lack. *)
Definition missing_key : option string :=
  find (fun key => negb (existsb (String.eqb key) (settings_keys w)))
    ["url"; "username"; "password"].

(** What [get_connection_settings] prints when the file is missing. *)
Definition settings_help (config_file : string) : list string :=
  ["Jenkins config file not found";
   "Please create " +:+ config_file;
   nl +:+ "Example Contents:";
   "username: <username>";
   "password: <password>";
   "url: http://10.245.162.58:8080"].

(** The run ends before it has a server: line 230 overflows, or [HOME] is
    not set, or the settings file is missing, malformed or lacks a key. *)
Definition early_exit (hours_ago : Z) (r : outcome unit * state) : Prop :=
  (min_start_time_of w hours_ago = inl OverflowError /\
   r.1 = Raise OverflowError /\ trace r.2 = []) \/
  (min_start_time_of w hours_ago = inr (cutoff hours_ago) /\
   ((home w = None /\ r.1 = Raise (KeyError "HOME") /\ trace r.2 = []) \/
    exists h,
      home w = Some h /\
      ((jenkins_yaml w = Missing /\ r.1 = Raise (SystemExit 1) /\
        trace r.2 = OpenFile (JENKINS_SETTINGS_FILE h)
                      :: (Print <$> settings_help (JENKINS_SETTINGS_FILE h)))
       \/
       (jenkins_yaml w = Malformed /\ r.1 = Raise YAMLError /\
        trace r.2 = [OpenFile (JENKINS_SETTINGS_FILE h)]) \/
       (exists srv key,
          jenkins_yaml w = Loaded srv /\ missing_key = Some key /\
          r.1 = Raise (KeyError key) /\
          trace r.2 = [OpenFile (JENKINS_SETTINGS_FILE h)])))).

(** The start times of the builds of [j] up to [N], as [get_build_info]
    converts them, do not decrease with the build number. *)
Definition history_ordered (j : job) (N : Z) : Prop :=
  forall k1 k2 b1 b2 d1 d2,
    k1 <= k2 -> k2 <= N ->
    job_build j k1 = Some b1 -> job_build j k2 = Some b2 ->
    fromtimestamp_ms w (timestamp b1) = inr d1 ->
    fromtimestamp_ms w (timestamp b2) = inr d2 ->
    d1 <= d2.

(** On an ordered history, the walk visits the builds of [j] at or after
    the cutoff, and one build before it. *)
Definition visits_window_and_boundary (job_name : string) (j : job)
    (hours_ago : Z) (include_success : bool) : Prop :=
  let T := cutoff hours_ago in
  let seen := visited (trace (run job_name hours_ago include_success).2) in
  forall N,
    lastCompletedBuild j = Some N -> history_ordered j N ->
    exists b bb d,
      job_build j b = Some bb /\
      fromtimestamp_ms w (timestamp bb) = inr d /\ d < T /\
      forall k bk dk,
        job_build j k = Some bk ->
        fromtimestamp_ms w (timestamp bk) = inr dk ->
        (k ∈ seen <-> T <= dk \/ k = b).

(** When the fetch of build [number] fails, the build before it is still
    fetched and the table printed. *)
Definition walk_survives_missing_build (srv : gmap string job)
    (job_name : string) (hours_ago : Z) (include_success : bool)
    (number : Z) : Prop :=
  let tr := trace (run job_name hours_ago include_success).2 in
  server_build srv job_name number = None ->
  GetBuildInfo job_name number ∈ tr ->
  GetBuildInfo job_name (number - 1) ∈ tr /\ report_printed tr.

(** When the catalog cannot be loaded, the run ends with the catalog's
    exception before any build or log fetch. *)
Definition catalog_error_before_fetch (job_name : string) (hours_ago : Z)
    (include_success : bool) : Prop :=
  let r := run job_name hours_ago include_success in
  (forall data, causes_yaml w <> Loaded data) ->
  (r.1 = Raise FileNotFoundError \/ r.1 = Raise YAMLError) /\
  Forall (fun e => is_build_or_log_fetch e = false) (trace r.2).

(** Some pattern of the catalog never compiles. *)
Definition has_invalid_pattern (causes : catalog) : Prop :=
  exists name data regs pat,
    (name, data) ∈ causes /\ re data = Some regs /\ pat ∈ regs /\
    forall output, re_search pat output DOTALL = ReError.

(** Loading a catalog with an invalid pattern fails. *)
Definition load_rejects_invalid_patterns : Prop :=
  forall data,
    causes_yaml w = Loaded data -> has_invalid_pattern data ->
    exists e st', get_causes w initial_state = (Raise e, st').

(** When the console fetch of build [number] fails, the run ends well and
    the build is reported with no cause. *)
Definition log_failure_keeps_row (srv : gmap string job)
    (job_name : string) (hours_ago : Z) (include_success : bool)
    (number : Z) : Prop :=
  let r := run job_name hours_ago include_success in
  server_console srv job_name number = None ->
  GetBuildConsoleOutput job_name number ∈ trace r.2 ->
  r.1 = Ok tt /\ reported_with_empty_cause (trace r.2) number.

End RunStatements.

(** ** Sample data *)

Definition build (ms : Z) (res : string) : build_info :=
  {| timestamp := ms; result := res; url := "http://ci/job";
     displayName := None |}.

Definition literal_cause (s : string) : cause_data :=
  {| re := None; text := Some [s]; bug_data := None |}.

Definition regex_cause (pat : string) : cause_data :=
  {| re := Some [pat]; text := None; bug_data := None |}.

Definition sample_catalog : catalog :=
  [("oom", literal_cause "OutOfMemoryError");
   ("traceback", regex_cause "Traceback.*Error")].

(** One hour before [now] is the instant 10000 microseconds. *)
Definition sample_now : Z := 3600010000.

(** The conversion on a machine whose time zone is UTC, for the timestamps
    of 1970 to 2242, where the division by 1000 is exact to the microsecond.
    The samples stay inside. *)
Definition sample_clock (ms : Z) : date_exn + Z :=
  if (0 <=? ms) && (ms <? 8589934592000) then inr (1000 * ms)
  else inl DateOverflowError.

Definition world_of (j : job) (causes : yaml_file catalog) : world :=
  {| now := sample_now; home := Some "/home/ci";
     jenkins_yaml := Loaded {[ "mojo_runner" := j ]};
     settings_keys := ["username"; "password"; "url"];
     causes_yaml := causes;
     fromtimestamp_ms := sample_clock |}.

(** Four builds; 2 and 3 started exactly at the cutoff, 1 before it. *)
Definition tie_job : job :=
  {| lastCompletedBuild := Some 4;
     builds := {[ 1%positive := build 5 "FAILURE";
                  2%positive := build 10 "FAILURE";
                  3%positive := build 10 "FAILURE";
                  4%positive := build 20 "SUCCESS" ]};
     consoles := {[ 1%positive := "Timeout";
                    2%positive := "java.lang.OutOfMemoryError";
                    3%positive := "java.lang.OutOfMemoryError";
                    4%positive := "ok" ]} |}.

Definition tie_world : world := world_of tie_job (Loaded sample_catalog).

(** Three builds after the cutoff and one before it. *)
Definition plain_job : job :=
  {| lastCompletedBuild := Some 4;
     builds := {[ 1%positive := build 5 "FAILURE";
                  2%positive := build 12 "FAILURE";
                  3%positive := build 15 "SUCCESS";
                  4%positive := build 20 "FAILURE" ]};
     consoles := {[ 1%positive := "Timeout";
                    2%positive := "java.lang.OutOfMemoryError";
                    3%positive := "ok";
                    4%positive := "Traceback" +:+ nl +:+ "  File x" +:+ nl
                                    +:+ "KeyError: 1" ]} |}.

Definition plain_world : world := world_of plain_job (Loaded sample_catalog).

(** Build 2 was pruned; builds 1 and 3 are after the cutoff. *)
Definition pruned_job : job :=
  {| lastCompletedBuild := Some 3;
     builds := {[ 1%positive := build 12 "FAILURE";
                  3%positive := build 20 "SUCCESS" ]};
     consoles := {[ 1%positive := "Timeout"; 3%positive := "ok" ]} |}.

Definition pruned_world : world := world_of pruned_job (Loaded sample_catalog).

(** The catalog file is missing. *)
Definition no_catalog_world : world := world_of plain_job Missing.

(** A catalog with a pattern that does not compile. *)
Definition bad_regex_catalog : catalog :=
  [("oom", literal_cause "OutOfMemoryError"); ("broken", regex_cause "(")].

Definition bad_regex_world : world :=
  world_of plain_job (Loaded bad_regex_catalog).

(** Build 2 failed and its console text is gone. *)
Definition no_console_job : job :=
  {| lastCompletedBuild := Some 2;
     builds := {[ 1%positive := build 5 "FAILURE";
                  2%positive := build 20 "FAILURE" ]};
     consoles := {[ 1%positive := "Timeout" ]} |}.

Definition no_console_world : world :=
  world_of no_console_job (Loaded sample_catalog).

(** ** Predicates on the files read and on the report *)

(** The files opened, in the order of the trace. *)
Fixpoint file_opens (tr : list event) : list string :=
  match tr with
  | [] => []
  | OpenFile path :: tr' => path :: file_opens tr'
  | _ :: tr' => file_opens tr'
  end.

(** How the cache of [get_causes] and the file go together in a run that
    made the calls [evs]: a filled cache stays as it is and the file is not
    opened; an empty one is filled by the one and only opening of the file,
    unless that raises. *)
Definition cache_run {A} (st : state) (r : outcome A * state)
    (evs : list event) : Prop :=
  (forall c, causes_cache st = Some c ->
     file_opens evs = [] /\ causes_cache r.2 = Some c) /\
  (causes_cache st = None ->
     (file_opens evs = [] /\ causes_cache r.2 = None) \/
     (file_opens evs = ["causes.yaml"] /\
      (is_Some (causes_cache r.2) \/ exists e, r.1 = Raise e))).

Definition opens_spec {A} (srv : gmap string job) (st : state)
    (r : outcome A * state) : Prop :=
  server r.2 = Some srv /\
  exists evs, trace r.2 = trace st ++ evs /\ cache_run st r evs.

(** The build numbers of the stored builds, in the order of the dict. *)
Definition status_numbers (statuses : list (string * build_status)) : list Z :=
  bs_build_number <$> statuses.*2.

(** Whether build [number] of the job, as the server has it and
    [get_build_info] converts it, passes [is_build_included]. *)
Definition included_number (w : world) (srv : gmap string job)
    (job_name : string) (T : Z) (inc : bool) (number : Z) : bool :=
  match server_build srv job_name number with
  | Some b0 =>
      match converted w b0 with
      | Some b => is_build_included b T inc
      | None => false
      end
  | None => false
  end.

(** A stored build is the build of that number on the server, with its
    start time converted. *)
Definition build_ok (w : world) (srv : gmap string job) (job_name : string)
    (bs : build_status) : Prop :=
  bs_job_name bs = job_name /\
  exists b0,
    server_build srv job_name (bs_build_number bs) = Some b0 /\
    converted w b0 = Some (bs_build_info bs).

(** The cause stored with a build: the empty string for a success, and for
    any other build the classification of its console text with the catalog
    [causes]. *)
Definition cause_ok {R : PyRe} (srv : gmap string job) (job_name : string)
    (causes : catalog) (bs : build_status) : Prop :=
  match bs_cause_info bs with
  | EmptyStr => result (bs_build_info bs) = "SUCCESS"
  | CauseList l =>
      result (bs_build_info bs) <> "SUCCESS" /\
      exists output,
        server_console srv job_name (bs_build_number bs) = Some output /\
        classify output causes = Ok l
  end.

(** What the loop keeps true of an entry of [build_statuses]: it is stored
    under the key of its number, it is the server's build, it passed
    [is_build_included], and its cause is the one the cached catalog
    gives. *)
Definition status_ok {R : PyRe} (w : world) (srv : gmap string job)
    (job_name : string) (T : Z) (inc : bool) (st : state)
    (entry : string * build_status) : Prop :=
  entry.1 = status_key job_name (bs_build_number entry.2) /\
  build_ok w srv job_name entry.2 /\
  is_build_included (bs_build_info entry.2) T inc = true /\
  match bs_cause_info entry.2 with
  | EmptyStr => result (bs_build_info entry.2) = "SUCCESS"
  | CauseList _ =>
      exists c,
        causes_cache st = Some c /\ cause_ok srv job_name c entry.2
  end.

(** The cache of [get_causes] is empty or holds the catalog of the file. *)
Definition cache_from_file (w : world) (st : state) : Prop :=
  causes_cache st = None \/
  exists data, causes_yaml w = Loaded data /\ causes_cache st = Some data.

(** The bug URL shown for a cause: [''] without [bug_data] or [url]. *)
Definition bug_url_of (causes : catalog) (c : string) : string :=
  match dict_get c causes with
  | Some data =>
      match bug_data data with
      | Some b => default "" (bug_url b)
      | None => ""
      end
  | None => ""
  end.

(** The row of a stored build when all its causes are in the catalog. *)
Definition report_row (causes : catalog) (build_data : build_status)
  : list cell :=
  row_of build_data
    (bug_url_of causes <$> cause_names (bs_cause_info build_data)).

(** The build number shown in a row; the header has none. *)
Definition row_number (row : list cell) : option Z :=
  match row !! 1%nat with
  | Some (CInt n) => Some n
  | _ => None
  end.


(** Strictly decreasing. *)
Definition descending (l : list Z) : Prop :=
  StronglySorted (fun a b => b < a) l.


(** The outcome is not a [KeyError]. *)
Definition no_key_error {A} (o : outcome A) : Prop :=
  forall x, o <> Raise (KeyError x).

(** What the report shows of a stored build: it is the build of that number
    on the server, with its start time converted; it did not start before
    the cutoff [T]; a success is there only when successes were asked for,
    and then without cause; the cause of any other build is the
    classification of its console text with the catalog, so that its names
    are names of the catalog. *)
Definition reported_ok {R : PyRe} (w : world) (srv : gmap string job)
    (job_name : string) (T : Z) (inc : bool) (causes : catalog)
    (bs : build_status) : Prop :=
  build_ok w srv job_name bs /\
  T <= timestamp (bs_build_info bs) /\
  (result (bs_build_info bs) = "SUCCESS" ->
   inc = true /\ bs_cause_info bs = EmptyStr) /\
  cause_ok srv job_name causes bs /\
  forall x, x ∈ cause_names (bs_cause_info bs) -> x ∈ causes.*1.


(** The table a trace ends with. *)
Definition printed_rows (tr : list event) : list (list cell) :=
  match last tr with
  | Some (PrintTable rows) => rows
  | _ => []
  end.

(** The report of the run over [plain_world]: builds 4 and 2. *)
Definition plain_report : list (list cell) :=
  printed_rows
    (trace (run (R:=re_fragment) plain_world "mojo_runner" 1 false).2).

(** A state with the catalog cached, and one stored build. *)
Definition cached_state : state :=
  {| server := None; causes_cache := Some sample_catalog; trace := [] |}.

Definition oom_status : build_status :=
  {| bs_job_name := "mojo_runner"; bs_build_info := build 12000 "FAILURE";
     bs_build_number := 2; bs_cause_info := CauseList ["oom"] |}.


(** Every build is after the cutoff. *)
Definition recent_job : job :=
  {| lastCompletedBuild := Some 2;
     builds := {[ 1%positive := build 12 "SUCCESS";
                  2%positive := build 20 "SUCCESS" ]};
     consoles := {[ 1%positive := "ok"; 2%positive := "ok" ]} |}.

Definition recent_world : world := world_of recent_job (Loaded sample_catalog).

(** No settings file. *)
Definition no_settings_world : world :=
  {| now := sample_now; home := Some "/home/ci"; jenkins_yaml := Missing;
     settings_keys := []; causes_yaml := Loaded sample_catalog;
     fromtimestamp_ms := sample_clock |}.

(** A settings file without [url]. *)
Definition no_url_world : world :=
  {| now := sample_now; home := Some "/home/ci";
     jenkins_yaml := Loaded {[ "mojo_runner" := plain_job ]};
     settings_keys := ["username"; "password"];
     causes_yaml := Loaded sample_catalog;
     fromtimestamp_ms := sample_clock |}.


(** ** The command line ([parse_args]) *)

(** What [argparse] hands over: [None] for an option that was not given. *)
Record args := {
  args_job_name : option string;
  args_hours_ago : option string;
  args_include_success : bool
}.

Definition job_aliases : list (string * string) :=
  [("mojo", "mojo_runner");
   ("full", "test_charm_func_full");
   ("lint", "test_charm_lint");
   ("single", "test_charm_single")].

(** [x or d] on an optional string: [None] and [''] are falsy. *)
Definition str_or (x : option string) (d : string) : string :=
  match x with
  | Some (String _ _ as s) => s
  | _ => d
  end.

Record run_settings := {
  rs_job_name : string;
  rs_hours_ago : Z;
  rs_include_success : bool
}.

(** [int(s)] raises [ValueError] on a string that is no integer. *)
Inductive parse_outcome :=
| Parsed (settings : run_settings)
| ValueError (s : string).

Section ParseArgs.

(** Python's [int] on a string; [None] when it raises. *)
Variable int_of_str : string -> option Z.

(** [job_aliases.get(job_name) or job_name] *)
Definition resolve_alias (job_name : string) : string :=
  str_or (dict_get job_name job_aliases) job_name.

Definition parse_args (a : args) : parse_outcome :=
  let job_name := str_or (args_job_name a) "mojo_runner" in
  let hours_ago :=
    match args_hours_ago a with
    | Some (String _ _ as s) => int_of_str s
    | _ => Some 30
    end in
  match hours_ago with
  | None => ValueError (default "" (args_hours_ago a))
  | Some hours_ago =>
      let job_name := resolve_alias job_name in
      Parsed {| rs_job_name := job_name;
                rs_hours_ago := hours_ago;
                rs_include_success := args_include_success a |}
  end.

End ParseArgs.


(** * Properties *)

(** ** The pattern fragment: the matcher finds what the patterns denote *)

Module ReFragmentFacts.
Import ReFragment.














End ReFragmentFacts.

(** ** The classifier *)

Section ClassifierFacts.

Context {R : PyRe}.

Lemma startswith_spec s : forall output,
  startswith s output = true <-> exists post, output = s +:+ post.
Proof.
  induction s as [| a s' IH]; intros output; simpl.
  - split; [intros _; exists output; reflexivity | reflexivity].
  - destruct output as [| b output']; simpl.
    + split; [discriminate | intros [post E]; discriminate].
    + rewrite andb_true_iff, IH. split.
      * intros [Hab [post ->]]. apply Ascii.eqb_eq in Hab as ->.
        exists post. reflexivity.
      * intros [post E]. injection E as -> ->.
        split; [apply Ascii.eqb_refl | eauto].
Qed.

Lemma str_in_spec s output : str_in s output = true <-> occurs s output.
Proof.
  unfold occurs. split.
  - induction output as [| b output' IH]; simpl; intros H.
    + rewrite orb_false_r in H. apply startswith_spec in H as [post ->].
      exists "", post. reflexivity.
    + apply orb_prop in H as [H | H].
      * apply (startswith_spec s (String b output')) in H as [post ->].
        exists "", post. reflexivity.
      * destruct (IH H) as (pre & post & ->).
        exists (String b pre), post. reflexivity.
  - intros (pre & post & ->).
    induction pre as [| b pre' IH].
    + assert (H : startswith s (s +:+ post) = true)
        by (apply startswith_spec; eauto).
      change ("" +:+ s +:+ post) with (s +:+ post).
      destruct (s +:+ post); simpl; rewrite H; reflexivity.
    + change (String b pre' +:+ s +:+ post)
        with (String b (pre' +:+ s +:+ post)).
      simpl. rewrite IH. apply orb_true_r.
Qed.

Lemma truthy_elem (l : option (list string)) x :
  (exists regs, truthy l = Some regs /\ x ∈ regs) <->
  (exists regs, l = Some regs /\ x ∈ regs).
Proof.
  destruct l as [[| y l'] |]; simpl; split; intros (regs & E & Hx);
    try discriminate; try (injection E as <-); eauto.
  inversion Hx.
Qed.

Lemma search_regexes_spec name output regs : forall acc,
  match search_regexes name output regs acc with
  | Ok l =>
      (forall pat, pat ∈ regs -> re_search pat output DOTALL <> ReError) /\
      (forall x, x ∈ l <->
         x ∈ acc \/
         (x = name /\
          exists pat, pat ∈ regs /\ re_search pat output DOTALL = ReMatch))
  | Raise e =>
      exists pat, e = re_error pat /\ pat ∈ regs /\
                  re_search pat output DOTALL = ReError
  | Unfinished => False
  end.
Proof.
  induction regs as [| p regs' IH]; intros acc; simpl.
  - split; [intros pat H; inversion H |].
    intros x. split; [auto |].
    intros [H | (_ & pat & H & _)]; [auto | inversion H].
  - destruct (re_search p output DOTALL) eqn:Ep.
    + specialize (IH (acc ++ [name])).
      destruct (search_regexes name output regs' (acc ++ [name])) as [l | e |].
      * destruct IH as [Hne Hl]. split.
        -- intros pat Hp. apply elem_of_cons in Hp as [-> | Hp];
             [congruence | auto].
        -- intros x. rewrite Hl, elem_of_app, list_elem_of_singleton.
           split.
           ++ intros [[H | ->] | (-> & pat & Hp & Hm)]; [auto | |].
              ** right. split; [reflexivity |]. exists p.
                 split; [left | assumption].
              ** right. split; [reflexivity |]. exists pat.
                 split; [right; assumption | assumption].
           ++ intros [H | (-> & pat & Hp & Hm)]; [auto |]. left. right.
              reflexivity.
      * destruct IH as (pat & -> & Hp & He). exists pat.
        split; [reflexivity |]. split; [right; assumption | assumption].
      * exact IH.
    + specialize (IH acc).
      destruct (search_regexes name output regs' acc) as [l | e |].
      * destruct IH as [Hne Hl]. split.
        -- intros pat Hp. apply elem_of_cons in Hp as [-> | Hp];
             [congruence | auto].
        -- intros x. rewrite Hl. split.
           ++ intros [H | (-> & pat & Hp & Hm)]; [auto |].
              right. split; [reflexivity |]. exists pat.
              split; [right; assumption | assumption].
           ++ intros [H | (-> & pat & Hp & Hm)]; [auto |].
              apply elem_of_cons in Hp as [-> | Hp]; [congruence |].
              right. eauto.
      * destruct IH as (pat & -> & Hp & He). exists pat.
        split; [reflexivity |]. split; [right; assumption | assumption].
      * exact IH.
    + exists p. split; [reflexivity |]. split; [left | assumption].
Qed.

Lemma search_texts_spec name output strs : forall acc x,
  x ∈ search_texts name output strs acc <->
  x ∈ acc \/ (x = name /\ exists s, s ∈ strs /\ occurs s output).
Proof.
  induction strs as [| s strs' IH]; intros acc x; simpl.
  - split; [auto | intros [H | (_ & s & H & _)]; [auto | inversion H]].
  - rewrite IH. destruct (str_in s output) eqn:Es.
    + apply str_in_spec in Es.
      rewrite elem_of_app, list_elem_of_singleton. split.
      * intros [[H | ->] | (-> & s' & Hs & Ho)]; [auto | |];
          right; (split; [reflexivity |]);
          [exists s | exists s']; (split; [| assumption]);
          [left | right; assumption].
      * intros [H | (-> & _)]; auto.
    + split.
      * intros [H | (-> & s' & Hs & Ho)]; [auto |].
        right. split; [reflexivity |]. exists s'.
        split; [right; assumption | assumption].
      * intros [H | (-> & s' & Hs & Ho)]; [auto |].
        apply elem_of_cons in Hs as [-> | Hs].
        -- apply str_in_spec in Ho. congruence.
        -- right. eauto.
Qed.

Lemma regex_stage_spec name output data acc :
  match
    match truthy (re data) with
    | Some regs => search_regexes name output regs acc
    | None => Ok acc
    end
  with
  | Ok l =>
      (forall pat, ~ pattern_raises output data pat) /\
      (forall x, x ∈ l <-> x ∈ acc \/ (x = name /\ regex_fires output data))
  | Raise e => exists pat, e = re_error pat /\ pattern_raises output data pat
  | Unfinished => False
  end.
Proof.
  unfold pattern_raises, regex_fires.
  destruct (re data) as [regs |] eqn:Ere.
  - assert (Hspec := search_regexes_spec name output regs acc).
    destruct regs as [| p regs']; simpl truthy; cbv iota.
    + split.
      * intros pat (regs & E & Hp & _). injection E as <-. inversion Hp.
      * intros x. split; [auto |].
        intros [H | (_ & regs & pat & E & Hp & _)]; [auto |].
        injection E as <-. inversion Hp.
    + destruct (search_regexes name output (p :: regs') acc) as [l | e |].
      * destruct Hspec as [Hne Hl]. split.
        -- intros pat (regs & E & Hp & He). injection E as <-.
           exact (Hne pat Hp He).
        -- intros x. rewrite Hl. split.
           ++ intros [H | (-> & pat & Hp & Hm)]; [auto |]. right.
              split; [reflexivity |]. exists (p :: regs'), pat. auto.
           ++ intros [H | (-> & regs & pat & E & Hp & Hm)]; [auto |].
              injection E as <-. right. eauto.
      * destruct Hspec as (pat & -> & Hp & He). exists pat.
        split; [reflexivity |]. exists (p :: regs'). auto.
      * exact Hspec.
  - simpl. split.
    + intros pat (regs & E & _). discriminate.
    + intros x. split; [auto |].
      intros [H | (_ & regs & pat & E & _)]; [auto | discriminate].
Qed.

Lemma text_stage_spec name output data acc x :
  x ∈ match truthy (text data) with
      | Some strs => search_texts name output strs acc
      | None => acc
      end <->
  x ∈ acc \/ (x = name /\ literal_fires output data).
Proof.
  unfold literal_fires.
  destruct (text data) as [[| s strs'] |] eqn:Et; simpl truthy; cbv iota.
  - split; [auto |].
    intros [H | (_ & strs & s & E & Hs & _)]; [auto |].
    injection E as <-. inversion Hs.
  - rewrite search_texts_spec. split.
    + intros [H | (-> & s' & Hs & Ho)]; [auto |]. right.
      split; [reflexivity |]. exists (s :: strs'), s'. auto.
    + intros [H | (-> & strs & s' & E & Hs & Ho)]; [auto |].
      injection E as <-. right. eauto.
  - split; [auto |].
    intros [H | (_ & strs & s & E & _)]; [auto | discriminate].
Qed.

Lemma search_cause_spec output name data acc :
  match search_cause output (name, data) acc with
  | Ok l =>
      (forall pat, ~ pattern_raises output data pat) /\
      (forall x, x ∈ l <-> x ∈ acc \/ (x = name /\ rule_fires output data))
  | Raise e => exists pat, e = re_error pat /\ pattern_raises output data pat
  | Unfinished => False
  end.
Proof.
  unfold search_cause.
  assert (Hre := regex_stage_spec name output data acc).
  destruct (match truthy (re data) with
            | Some regs => search_regexes name output regs acc
            | None => Ok acc
            end) as [l | e |]; [| exact Hre | exact Hre].
  destruct Hre as [Hne Hl].
  assert (Ht := text_stage_spec name output data l).
  destruct (truthy (text data)) as [strs |]; (split; [exact Hne |]);
    intros x; rewrite Ht, Hl; unfold rule_fires; tauto.
Qed.

Lemma search_causes_spec output causes : forall acc,
  match search_causes output causes acc with
  | Ok l =>
      patterns_compile output causes /\
      (forall x, x ∈ l <->
         x ∈ acc \/
         exists data, (x, data) ∈ causes /\ rule_fires output data)
  | Raise e =>
      exists name data pat,
        e = re_error pat /\ (name, data) ∈ causes /\
        pattern_raises output data pat
  | Unfinished => False
  end.
Proof.
  unfold patterns_compile.
  induction causes as [| [name data] causes' IH]; intros acc;
    cbn [search_causes].
  - split; [intros name data pat H; inversion H |].
    intros x. split; [auto | intros [H | (data & H & _)]; [auto | inversion H]].
  - assert (Hc := search_cause_spec output name data acc).
    destruct (search_cause output (name, data) acc) as [l | e |].
    + destruct Hc as [Hne Hl]. specialize (IH l).
      destruct (search_causes output causes' l) as [l' | e |].
      * destruct IH as [Hne' Hl']. split.
        -- intros name' data' pat Hin.
           apply elem_of_cons in Hin as [E | Hin]; [| eauto].
           injection E as -> ->. apply Hne.
        -- intros x. rewrite Hl', Hl. split.
           ++ intros [[H | (-> & Hf)] | (data' & Hin & Hf)]; [auto | |];
                right; [exists data | exists data'];
                (split; [| assumption]); [left | right; assumption].
           ++ intros [H | (data' & Hin & Hf)]; [auto |].
              apply elem_of_cons in Hin as [E | Hin].
              ** injection E as -> ->. auto.
              ** right. eauto.
      * destruct IH as (name' & data' & pat & -> & Hin & Hr).
        exists name', data', pat.
        split; [reflexivity |]. split; [right; assumption | assumption].
      * exact IH.
    + destruct Hc as (pat & -> & Hr). exists name, data, pat.
      split; [reflexivity |]. split; [left | assumption].
    + exact Hc.
Qed.

Lemma elem_of_list_set (l : list string) x : x ∈ list_set l <-> x ∈ l.
Proof.
  unfold list_set. rewrite elem_of_elements. apply elem_of_list_to_set.
Qed.

Lemma NoDup_list_set (l : list string) : NoDup (list_set l).
Proof. unfold list_set. apply NoDup_elements. Qed.

(** What [classify] returns, in full. *)
Lemma classify_spec output causes :
  match classify output causes with
  | Ok l =>
      patterns_compile output causes /\
      NoDup l /\
      (forall x, x ∈ l <->
         exists data, (x, data) ∈ causes /\ rule_fires output data)
  | Raise e =>
      exists name data pat,
        e = re_error pat /\ (name, data) ∈ causes /\
        pattern_raises output data pat
  | Unfinished => False
  end.
Proof.
  unfold classify.
  assert (H := search_causes_spec output causes []).
  destruct (search_causes output causes []) as [l | e |];
    [| exact H | exact H].
  destruct H as [Hne Hl]. split; [exact Hne |].
  split; [apply NoDup_list_set |].
  intros x. rewrite elem_of_list_set, Hl. split.
  - intros [H | H]; [inversion H | exact H].
  - auto.
Qed.

(** [classify] returns when no pattern raises. *)
Lemma classify_returns output causes :
  patterns_compile output causes -> exists l, classify output causes = Ok l.
Proof.
  intros Hc. assert (H := classify_spec output causes).
  destruct (classify output causes) as [l | e |]; [eauto | | contradiction].
  destruct H as (name & data & pat & _ & Hin & Hr).
  destruct (Hc name data pat Hin Hr).
Qed.

End ClassifierFacts.

(** ** Runs: what each function does to the state *)

Section RunFacts.

Context {R : PyRe}.
Variable w : world.
Variable srv : gmap string job.

Lemma add_events_nil st : add_events st [] = st.
Proof.
  destruct st. unfold add_events. simpl. rewrite app_nil_r. reflexivity.
Qed.

Lemma add_events_app st evs1 evs2 :
  add_events (add_events st evs1) evs2 = add_events st (evs1 ++ evs2).
Proof. unfold add_events. simpl. rewrite app_assoc. reflexivity. Qed.

Lemma get_server_connected st :
  server st = Some srv -> get_server w st = (Ok srv, st).
Proof.
  intros H. unfold get_server, mbind, M_bind, get_state. rewrite H.
  reflexivity.
Qed.

Lemma get_causes_eq st :
  get_causes w st =
  match causes_cache st with
  | Some data => (Ok data, st)
  | None =>
      let st1 := add_events st [OpenFile "causes.yaml"] in
      match causes_yaml w with
      | Loaded data =>
          (Ok data, {| server := server st1; causes_cache := Some data;
                       trace := trace st1 |})
      | Malformed => (Raise YAMLError, st1)
      | Missing => (Raise FileNotFoundError, st1)
      end
  end.
Proof.
  unfold get_causes, mbind, M_bind, get_state.
  destruct (causes_cache st); [reflexivity |].
  destruct (causes_yaml w); reflexivity.
Qed.

Lemma get_build_info_connected job_name n st :
  server st = Some srv ->
  get_build_info w job_name n st =
  (match server_build srv job_name n with
   | Some b =>
       match fromtimestamp_ms w (timestamp b) with
       | inr d => Ok (with_timestamp b d)
       | inl e => Raise (exn_of_date e)
       end
   | None => Raise JenkinsException
   end,
   add_events st [GetBuildInfo job_name n]).
Proof.
  intros H. unfold get_build_info, mbind at 1, M_bind at 1.
  rewrite (get_server_connected _ H).
  unfold jenkins_get_build_info, mbind, M_bind, log, lib_date.
  destruct (server_build srv job_name n) as [b |]; [| reflexivity].
  unfold mret, M_ret. cbv beta iota.
  destruct (fromtimestamp_ms w (timestamp b)); reflexivity.
Qed.

Lemma search_for_cause_connected job_name n st :
  server st = Some srv ->
  search_for_cause w job_name n st =
  let st1 := add_events st [GetBuildConsoleOutput job_name n] in
  match server_console srv job_name n with
  | None => (Raise JenkinsException, st1)
  | Some output =>
      match get_causes w st1 with
      | (Ok causes, st2) => (classify output causes, st2)
      | (Raise e, st2) => (Raise e, st2)
      | (Unfinished, st2) => (Unfinished, st2)
      end
  end.
Proof.
  intros H. unfold search_for_cause, mbind at 1, M_bind at 1.
  rewrite (get_server_connected _ H).
  unfold jenkins_get_build_console_output, mbind, M_bind, log.
  destruct (server_console srv job_name n); reflexivity.
Qed.

Lemma cache_step_refl st : cache_step w st st.
Proof. left. reflexivity. Qed.

Lemma cache_step_trans st1 st2 st3 :
  cache_step w st1 st2 -> cache_step w st2 st3 -> cache_step w st1 st3.
Proof.
  unfold cache_step. intros [H12 | H12] [H23 | H23]; auto.
  - left. congruence.
  - destruct H12 as (data & Hy & Hc). right. exists data.
    split; [assumption | congruence].
Qed.

Lemma run_spec_ret {A} P (a : A) st :
  server st = Some srv -> run_spec w srv P st (mret (M:=M) a st).
Proof.
  intros H. split; [discriminate |]. exists [].
  split; [| constructor].
  split; [exact H |]. split; [apply cache_step_refl |].
  split; [simpl; rewrite app_nil_r; reflexivity |].
  intros e x He. inversion He.
Qed.

Lemma run_spec_weaken {A} (P Q : event -> bool) st (r : outcome A * state) :
  (forall e, P e = true -> Q e = true) ->
  run_spec w srv P st r -> run_spec w srv Q st r.
Proof.
  intros HPQ [Hu (evs & Hr & HP)]. split; [exact Hu |].
  exists evs. split; [exact Hr |].
  eapply Forall_impl; [exact HP | exact HPQ].
Qed.

Lemma failing_call_ends_app {A B} evs1 evs2 (a : A) (o : outcome B) :
  failing_call_ends w srv evs1 (Ok a) ->
  failing_call_ends w srv evs2 o ->
  failing_call_ends w srv (evs1 ++ evs2) o.
Proof.
  intros H1 H2 e x He Hx. apply elem_of_app in He as [He | He].
  - destruct (H1 e x He Hx) as [Habs _]. discriminate.
  - destruct (H2 e x He Hx) as [-> [evs0 ->]]. split; [reflexivity |].
    exists (evs1 ++ evs0). rewrite app_assoc. reflexivity.
Qed.

(** Sequencing two runs. *)
Lemma run_spec_bind {A B} P (m : M A) (k : A -> M B) st :
  run_spec w srv P st (m st) ->
  (forall a st1, m st = (Ok a, st1) -> server st1 = Some srv ->
                 run_spec w srv P st1 (k a st1)) ->
  run_spec w srv P st ((m ≫= k) st).
Proof.
  intros [Hu (evs1 & (Hs1 & Hc1 & Ht1 & Hf1) & HP1)] Hk.
  unfold mbind, M_bind.
  destruct (m st) as [[a | e |] st1] eqn:Em; simpl in *.
  - destruct (Hk a st1 eq_refl Hs1)
      as [Hu2 (evs2 & (Hs2 & Hc2 & Ht2 & Hf2) & HP2)].
    split; [exact Hu2 |]. exists (evs1 ++ evs2).
    split; [| apply Forall_app; auto].
    split; [exact Hs2 |].
    split; [eapply cache_step_trans; eassumption |].
    split; [rewrite Ht2, Ht1, app_assoc; reflexivity |].
    eapply failing_call_ends_app; eassumption.
  - split; [discriminate |]. exists evs1. split; [| exact HP1].
    split; [exact Hs1 |]. split; [exact Hc1 |]. split; [exact Ht1 |].
    intros e0 x He Hx. destruct (Hf1 e0 x He Hx) as [E Hl].
    injection E as ->. split; [reflexivity | exact Hl].
  - contradiction.
Qed.

Lemma run_spec_call {A} (P : event -> bool) (e : event) (o : outcome A) st :
  server st = Some srv ->
  P e = true ->
  o <> Unfinished ->
  (forall x, event_exn w srv e = Some x -> o = Raise x) ->
  run_spec w srv P st (o, add_events st [e]).
Proof.
  intros Hs HP Hu Hx. split; [exact Hu |]. exists [e].
  split; [| repeat constructor; exact HP].
  split; [exact Hs |]. split; [left; reflexivity |].
  split; [reflexivity |].
  intros e' x He' Hx'. apply list_elem_of_singleton in He' as ->.
  split; [auto |]. exists []. reflexivity.
Qed.

Lemma get_causes_run st :
  server st = Some srv ->
  run_spec w srv is_classify_event st (get_causes w st).
Proof.
  intros Hs. rewrite get_causes_eq.
  destruct (causes_cache st) as [data |] eqn:Ec.
  - apply (run_spec_ret _ data), Hs.
  - cbv zeta. destruct (causes_yaml w) as [| | data] eqn:Ey.
    + apply run_spec_call; [exact Hs | reflexivity | discriminate |].
      intros x E. simpl in E. rewrite Ey in E. congruence.
    + apply run_spec_call; [exact Hs | reflexivity | discriminate |].
      intros x E. simpl in E. rewrite Ey in E. congruence.
    + split; [discriminate |]. exists [OpenFile "causes.yaml"].
      split; [| repeat constructor].
      split; [exact Hs |].
      split; [right; exists data; auto |].
      split; [reflexivity |].
      intros e x He Hx. apply list_elem_of_singleton in He as ->.
      simpl in Hx. rewrite Ey in Hx. discriminate.
Qed.

Lemma classify_finishes output causes : classify output causes <> Unfinished.
Proof.
  intros E. assert (H := classify_spec output causes).
  rewrite E in H. exact H.
Qed.

Lemma run_spec_pure {A} P (o : outcome A) st :
  server st = Some srv ->
  o <> Unfinished ->
  run_spec w srv P st (o, st).
Proof.
  intros Hs Hu. split; [exact Hu |]. exists []. split; [| constructor].
  split; [exact Hs |]. split; [apply cache_step_refl |].
  split; [simpl; rewrite app_nil_r; reflexivity |].
  intros e x He. inversion He.
Qed.

Lemma get_server_run P st :
  server st = Some srv -> run_spec w srv P st (get_server w st).
Proof.
  intros Hs. rewrite (get_server_connected _ Hs).
  apply (run_spec_ret _ srv), Hs.
Qed.

Lemma get_server_value st s st1 :
  server st = Some srv -> get_server w st = (Ok s, st1) -> s = srv.
Proof. intros Hs. rewrite (get_server_connected _ Hs). congruence. Qed.

Lemma console_output_run job_name n st :
  server st = Some srv ->
  run_spec w srv is_classify_event st
    (jenkins_get_build_console_output srv job_name n st).
Proof.
  intros Hs.
  replace (jenkins_get_build_console_output srv job_name n st) with
    (match server_console srv job_name n with
     | Some output => Ok output
     | None => Raise JenkinsException
     end, add_events st [GetBuildConsoleOutput job_name n])
    by (unfold jenkins_get_build_console_output, mbind, M_bind, log;
        destruct (server_console srv job_name n); reflexivity).
  apply run_spec_call; [exact Hs | reflexivity | |].
  - destruct (server_console srv job_name n); discriminate.
  - intros x E. simpl in E.
    destruct (server_console srv job_name n); congruence.
Qed.

Lemma search_for_cause_run job_name n st :
  server st = Some srv ->
  run_spec w srv is_classify_event st (search_for_cause w job_name n st).
Proof.
  intros Hs. unfold search_for_cause.
  apply run_spec_bind; [apply get_server_run, Hs |].
  intros s st1 Es Hs1. apply (get_server_value _ _ _ Hs) in Es as ->.
  apply run_spec_bind; [apply console_output_run, Hs1 |].
  intros output st2 _ Hs2.
  apply run_spec_bind; [apply get_causes_run, Hs2 |].
  intros causes st3 _ Hs3.
  apply run_spec_pure; [exact Hs3 | apply classify_finishes].
Qed.

Lemma get_build_fail_cause_run b job_name n st :
  server st = Some srv ->
  run_spec w srv is_classify_event st
    (get_build_fail_cause w b job_name n st).
Proof.
  intros Hs. unfold get_build_fail_cause.
  destruct (String.eqb (result b) "SUCCESS").
  - apply (run_spec_ret _ EmptyStr), Hs.
  - apply run_spec_bind; [apply search_for_cause_run, Hs |].
    intros l st1 _ Hs1. apply (run_spec_ret _ (CauseList l)), Hs1.
Qed.

Lemma get_build_info_run job_name n st :
  server st = Some srv ->
  run_spec w srv is_walk_event st (get_build_info w job_name n st).
Proof.
  intros Hs. rewrite (get_build_info_connected _ _ _ Hs).
  apply run_spec_call; [exact Hs | reflexivity | |].
  - destruct (server_build srv job_name n) as [b |]; [| discriminate].
    destruct (fromtimestamp_ms w (timestamp b)); discriminate.
  - intros x E. simpl in E.
    destruct (server_build srv job_name n); congruence.
Qed.

(** A build that was fetched has a positive number. *)
Lemma server_build_positive job_name n b :
  server_build srv job_name n = Some b -> 0 < n.
Proof.
  unfold server_build, job_build. destruct (srv !! job_name); [| discriminate].
  destruct n; [discriminate | lia | discriminate].
Qed.

Lemma classify_is_walk e : is_classify_event e = true -> is_walk_event e = true.
Proof. destruct e; simpl; auto. Qed.

Lemma record_build_run job_name T inc b n statuses st :
  server st = Some srv ->
  run_spec w srv is_classify_event st
    (record_build w job_name T inc b n statuses st).
Proof.
  intros Hs. unfold record_build.
  destruct (is_build_included b T inc);
    [| apply (run_spec_ret _ statuses), Hs].
  apply run_spec_bind; [apply get_build_fail_cause_run, Hs |].
  intros c st2 _ Hs2. apply (run_spec_ret _ _), Hs2.
Qed.

(** The loop comes to an end within [walk_bound] iterations. *)
Lemma walk_run job_name T inc fuel :
  forall n job_time statuses st,
    server st = Some srv ->
    (Z.to_nat n < fuel)%nat ->
    run_spec w srv is_walk_event st
      (walk w fuel job_name T inc job_time n statuses st).
Proof.
  induction fuel as [| fuel' IH]; intros n job_time statuses st Hs Hfuel;
    [lia |].
  cbn [walk]. destruct (job_time >? T);
    [| apply (run_spec_ret _ statuses), Hs].
  apply run_spec_bind; [apply get_build_info_run, Hs |].
  intros b st1 Eb Hs1.
  rewrite (get_build_info_connected _ _ _ Hs) in Eb.
  destruct (server_build srv job_name n) as [b0 |] eqn:E0; [| discriminate].
  apply server_build_positive in E0.
  apply run_spec_bind.
  - eapply run_spec_weaken; [apply classify_is_walk |].
    apply record_build_run, Hs1.
  - intros statuses' st2 _ Hs2. apply IH; [exact Hs2 | lia].
Qed.

(** *** The build numbers a run fetches *)

Lemma visited_app tr1 tr2 : visited (tr1 ++ tr2) = visited tr1 ++ visited tr2.
Proof.
  induction tr1 as [| e tr1' IH]; [reflexivity |].
  destruct e; simpl; rewrite IH; reflexivity.
Qed.

Lemma visited_classify evs :
  Forall (fun e => is_classify_event e = true) evs -> visited evs = [].
Proof.
  induction 1 as [| e evs' He _ IH]; [reflexivity |].
  destruct e; simpl in *; try discriminate; exact IH.
Qed.

Lemma elem_of_visited tr n :
  n ∈ visited tr <-> exists job_name, GetBuildInfo job_name n ∈ tr.
Proof.
  induction tr as [| e tr' IH]; simpl.
  - split; [intros H; inversion H | intros [j H]; inversion H].
  - assert (Hskip : (exists job_name, GetBuildInfo job_name n ∈ tr') ->
                    exists job_name, GetBuildInfo job_name n ∈ e :: tr')
      by (intros [j H]; exists j; right; exact H).
    destruct e; try (rewrite IH; split; [exact Hskip |];
      intros [j H]; apply elem_of_cons in H as [H | H];
      [discriminate | eauto]).
    rewrite elem_of_cons, IH. split.
    + intros [-> | H]; [exists job_name; left | auto].
    + intros [j H]. apply elem_of_cons in H as [H | H]; [| eauto].
      injection H as _ ->. left. reflexivity.
Qed.

Lemma elem_of_countdown len : forall n k,
  k ∈ countdown len n <-> n - Z.of_nat len < k <= n.
Proof.
  induction len as [| len' IH]; intros n k; simpl countdown.
  - split; [intros H; inversion H | lia].
  - rewrite elem_of_cons, IH. lia.
Qed.

(** The state a classification leaves has the same fetched builds. *)
Lemma record_build_visited job_name T inc b n statuses st :
  server st = Some srv ->
  let r := record_build w job_name T inc b n statuses st in
  r.1 <> Unfinished /\ server r.2 = Some srv /\
  visited (trace r.2) = visited (trace st).
Proof.
  intros Hs r.
  destruct (record_build_run job_name T inc b n statuses st Hs)
    as [Hu (evs & (Hs' & _ & Ht & _) & Hc)].
  fold r in Hu, Hs', Ht. split; [exact Hu |]. split; [exact Hs' |].
  rewrite Ht, visited_app, (visited_classify _ Hc), app_nil_r.
  reflexivity.
Qed.

(** One iteration of the loop. *)
Lemma walk_step job_name T inc fuel n job_time statuses st :
  server st = Some srv ->
  walk w (S fuel) job_name T inc job_time n statuses st =
  if job_time >? T then
    let st1 := add_events st [GetBuildInfo job_name n] in
    match server_build srv job_name n with
    | None => (Raise JenkinsException, st1)
    | Some b0 =>
        match fromtimestamp_ms w (timestamp b0) with
        | inl e => (Raise (exn_of_date e), st1)
        | inr d =>
            match record_build w job_name T inc (with_timestamp b0 d) n
                    statuses st1 with
            | (Ok statuses', st2) =>
                walk w fuel job_name T inc d (n - 1) statuses' st2
            | (Raise e, st2) => (Raise e, st2)
            | (Unfinished, st2) => (Unfinished, st2)
            end
        end
    end
  else (Ok statuses, st).
Proof.
  intros Hs. cbn [walk]. destruct (job_time >? T); [| reflexivity].
  unfold mbind at 1, M_bind at 1.
  rewrite (get_build_info_connected _ _ _ Hs).
  destruct (server_build srv job_name n) as [b0 |]; [| reflexivity].
  destruct (fromtimestamp_ms w (timestamp b0)); reflexivity.
Qed.

(** Once [job_time] is not after the cutoff the loop is over. *)
Lemma walk_done job_name T inc fuel n job_time statuses st :
  job_time <= T ->
  walk w fuel job_name T inc job_time n statuses st = (Ok statuses, st).
Proof.
  intros H. assert (E : (job_time >? T) = false) by lia.
  destruct fuel; cbn [walk]; rewrite E; reflexivity.
Qed.

(** The loop fetches a run of consecutive numbers downwards from where it
    starts. *)
Lemma walk_visited job_name T inc fuel :
  forall n job_time statuses st,
    server st = Some srv ->
    exists len,
      visited (trace (walk w fuel job_name T inc job_time n statuses st).2)
      = visited (trace st) ++ countdown len n.
Proof.
  induction fuel as [| fuel' IH]; intros n job_time statuses st Hs.
  - exists O. cbn [walk]. destruct (job_time >? T); simpl;
      rewrite app_nil_r; reflexivity.
  - rewrite (walk_step _ _ _ _ _ _ _ _ Hs).
    destruct (job_time >? T);
      [| exists O; simpl; rewrite app_nil_r; reflexivity].
    cbv zeta. set (st1 := add_events st [GetBuildInfo job_name n]).
    assert (Hv1 : visited (trace st1) = visited (trace st) ++ [n])
      by (unfold st1; simpl; rewrite visited_app; reflexivity).
    destruct (server_build srv job_name n) as [b0 |];
      [| exists 1%nat; exact Hv1].
    destruct (fromtimestamp_ms w (timestamp b0)) as [e | d];
      [exists 1%nat; exact Hv1 |].
    set (b := with_timestamp b0 d).
    destruct (record_build_visited job_name T inc b n statuses st1 Hs)
      as (_ & Hs2 & Hv2).
    destruct (record_build w job_name T inc b n statuses st1)
      as [[statuses' | e |] st2]; cbn [fst snd] in Hs2, Hv2.
    + destruct (IH (n - 1) d statuses' st2 Hs2) as [len Hlen].
      exists (S len). rewrite Hlen, Hv2, Hv1, <- app_assoc. reflexivity.
    + exists 1%nat. cbn [fst snd]. rewrite Hv2. exact Hv1.
    + exists 1%nat. cbn [fst snd]. rewrite Hv2. exact Hv1.
Qed.

(** A loop that comes to its end went from [n] down to a build [b] that is
    not after the cutoff [T]; every build above [b] is after it. *)
Lemma walk_window job_name T inc fuel :
  forall n job_time statuses st statuses' st',
    server st = Some srv ->
    T < job_time ->
    walk w fuel job_name T inc job_time n statuses st = (Ok statuses', st') ->
    exists b bb db,
      b <= n /\
      server_build srv job_name b = Some bb /\
      fromtimestamp_ms w (timestamp bb) = inr db /\ db <= T /\
      visited (trace st') =
      visited (trace st) ++ countdown (Z.to_nat (n - b + 1)) n /\
      forall k, b < k <= n ->
        exists bk dk, server_build srv job_name k = Some bk /\
                      fromtimestamp_ms w (timestamp bk) = inr dk /\ T < dk.
Proof.
  induction fuel as [| fuel' IH];
    intros n job_time statuses st statuses' st' Hs Hjt Hw.
  { cbn [walk] in Hw. replace (job_time >? T) with true in Hw by lia.
    discriminate. }
  rewrite (walk_step _ _ _ _ _ _ _ _ Hs) in Hw.
  replace (job_time >? T) with true in Hw by lia. cbv zeta in Hw.
  set (st1 := add_events st [GetBuildInfo job_name n]) in Hw.
  assert (Hv1 : visited (trace st1) = visited (trace st) ++ [n])
    by (unfold st1; simpl; rewrite visited_app; reflexivity).
  destruct (server_build srv job_name n) as [b0 |] eqn:Eb0; [| discriminate].
  destruct (fromtimestamp_ms w (timestamp b0)) as [e | d] eqn:Ed;
    [discriminate |].
  set (bi := with_timestamp b0 d) in Hw.
  destruct (record_build_visited job_name T inc bi n statuses st1 Hs)
    as (_ & Hs2 & Hv2).
  destruct (record_build w job_name T inc bi n statuses st1)
    as [[statuses2 | e |] st2]; cbn [fst snd] in Hs2, Hv2;
    [| discriminate | discriminate].
  destruct (Z_le_gt_dec d T) as [Hle | Hgt].
  - rewrite walk_done in Hw by exact Hle. injection Hw as _ <-.
    exists n, b0, d. split; [lia |]. split; [exact Eb0 |].
    split; [exact Ed |]. split; [exact Hle |]. split; [| intros k Hk; lia].
    rewrite Hv2, Hv1. replace (n - n + 1) with 1 by lia. reflexivity.
  - apply (IH (n - 1)) in Hw; [| exact Hs2 | lia].
    destruct Hw as (b & bb & db & Hbn & Hb & Hdb & Hle & Hv & Habove).
    assert (Hpos := server_build_positive _ _ _ Hb).
    exists b, bb, db. split; [lia |]. split; [exact Hb |].
    split; [exact Hdb |]. split; [exact Hle |]. split.
    + rewrite Hv, Hv2, Hv1, <- app_assoc.
      replace (Z.to_nat (n - b + 1)) with (S (Z.to_nat (n - 1 - b + 1)))
        by lia.
      reflexivity.
    + intros k Hk. destruct (Z.eq_dec k n) as [-> | Hne].
      * exists b0, d. split; [exact Eb0 |]. split; [exact Ed | lia].
      * apply Habove. lia.
Qed.

(** *** The report *)

Lemma bug_urls_of_finishes causes cause_info :
  bug_urls_of causes cause_info <> Unfinished.
Proof.
  induction cause_info as [| c rest IH]; simpl; [discriminate |].
  destruct (dict_get c causes); [| discriminate].
  destruct (bug_urls_of causes rest); [discriminate | discriminate | auto].
Qed.

Lemma summary_rows_finishes causes values : forall rows,
  summary_rows causes values rows <> Unfinished.
Proof.
  induction values as [| v values' IH]; intros rows; simpl; [discriminate |].
  assert (H := bug_urls_of_finishes causes (cause_names (bs_cause_info v))).
  destruct (bug_urls_of causes (cause_names (bs_cause_info v)));
    [apply IH | discriminate | contradiction].
Qed.

(** The table is the last thing a run prints, after the catalog was read. *)
Lemma summary_run statuses st :
  server st = Some srv ->
  let r := display_build_summary w statuses st in
  r.1 <> Unfinished /\
  exists evs,
    runs_to w srv st r evs /\ visited evs = [] /\
    forall rows, PrintTable rows ∈ evs ->
                 r.1 = Ok tt /\ is_Some (causes_cache r.2).
Proof.
  intros Hs. cbv zeta.
  assert (E : display_build_summary w statuses st =
              match get_causes w st with
              | (Ok causes, st1) =>
                  (lift (summary_rows causes (statuses.*2) [header])
                     ≫= (fun rows => log (PrintTable rows))) st1
              | (Raise e, st1) => (Raise e, st1)
              | (Unfinished, st1) => (Unfinished, st1)
              end) by reflexivity.
  rewrite E, get_causes_eq. clear E.
  assert (Hrows : forall data st1 (evs1 : list event),
    server st1 = Some srv ->
    cache_step w st st1 ->
    causes_cache st1 = Some data ->
    trace st1 = trace st ++ evs1 ->
    visited evs1 = [] ->
    (forall e x, e ∈ evs1 -> event_exn w srv e = Some x -> False) ->
    (forall rows', PrintTable rows' ∈ evs1 -> False) ->
    let r := (lift (summary_rows data (statuses.*2) [header])
                ≫= (fun rows => log (PrintTable rows))) st1 in
    r.1 <> Unfinished /\
    exists evs,
      runs_to w srv st r evs /\ visited evs = [] /\
      forall rows, PrintTable rows ∈ evs ->
                   r.1 = Ok tt /\ is_Some (causes_cache r.2)).
  { intros data st1 evs1 Hs1 Hc1 Hd1 Ht1 Hv1 Hx1 Hp1.
    unfold mbind, M_bind, lift, log.
    assert (Hf := summary_rows_finishes data (statuses.*2) [header]).
    destruct (summary_rows data (statuses.*2) [header])
      as [rows' | e |]; [| | contradiction]; cbv zeta; cbn [fst snd].
    - split; [discriminate |]. exists (evs1 ++ [PrintTable rows']).
      split; [split; [exact Hs1 |]; split; [exact Hc1 |]; split |].
      + simpl. rewrite Ht1, app_assoc. reflexivity.
      + intros e x He Hx. apply elem_of_app in He as [He | He].
        * destruct (Hx1 e x He Hx).
        * apply list_elem_of_singleton in He as ->. discriminate.
      + split; [rewrite visited_app, Hv1; reflexivity |].
        intros _ _. split; [reflexivity |]. simpl. rewrite Hd1. eauto.
    - split; [discriminate |]. exists evs1.
      split; [split; [exact Hs1 |]; split; [exact Hc1 |]; split |].
      + exact Ht1.
      + intros e' x He Hx. destruct (Hx1 e' x He Hx).
      + split; [exact Hv1 |]. intros rows0 H0. destruct (Hp1 rows0 H0). }
  destruct (causes_cache st) as [data |] eqn:Ec.
  - apply (Hrows data st []); auto.
    + apply cache_step_refl.
    + rewrite app_nil_r. reflexivity.
    + intros e x He. inversion He.
    + intros rows' He. inversion He.
  - cbv zeta. destruct (causes_yaml w) as [| | data] eqn:Ey.
    + split; [discriminate |]. exists [OpenFile "causes.yaml"].
      split; [split; [exact Hs |]; split; [left; reflexivity |]; split |].
      * reflexivity.
      * intros e x He Hx. apply list_elem_of_singleton in He as ->.
        simpl in Hx. rewrite Ey in Hx. injection Hx as <-.
        split; [reflexivity |]. exists []. reflexivity.
      * split; [reflexivity |]. intros rows He.
        apply list_elem_of_singleton in He. discriminate.
    + split; [discriminate |]. exists [OpenFile "causes.yaml"].
      split; [split; [exact Hs |]; split; [left; reflexivity |]; split |].
      * reflexivity.
      * intros e x He Hx. apply list_elem_of_singleton in He as ->.
        simpl in Hx. rewrite Ey in Hx. injection Hx as <-.
        split; [reflexivity |]. exists []. reflexivity.
      * split; [reflexivity |]. intros rows He.
        apply list_elem_of_singleton in He. discriminate.
    + apply (Hrows data _ [OpenFile "causes.yaml"]); auto.
      * right. exists data. auto.
      * intros e x He Hx. apply list_elem_of_singleton in He as ->.
        simpl in Hx. rewrite Ey in Hx. discriminate.
      * intros rows' He. apply list_elem_of_singleton in He. discriminate.
Qed.

(** *** A whole run *)

Lemma has_keys_items :
  has_keys w = true ->
  settings_item w "url" = mret tt /\ settings_item w "username" = mret tt /\
  settings_item w "password" = mret tt.
Proof.
  unfold has_keys, settings_item. cbn [forallb].
  intros H. apply andb_prop in H as [H1 H].
  apply andb_prop in H as [H2 H]. apply andb_prop in H as [H3 _].
  rewrite H1, H2, H3. auto.
Qed.

Lemma get_server_initial h :
  home w = Some h ->
  jenkins_yaml w = Loaded srv ->
  has_keys w = true ->
  get_server w initial_state =
  (Ok srv, {| server := Some srv; causes_cache := None;
              trace := [OpenFile (JENKINS_SETTINGS_FILE h)] |}).
Proof.
  intros Hh Hy Hk. destruct (has_keys_items Hk) as (K1 & K2 & K3).
  unfold get_server, get_connection_settings, environ_HOME.
  rewrite K1, K2, K3, Hh.
  unfold mbind, M_bind, get_state, log, set_server. simpl.
  rewrite Hy. reflexivity.
Qed.

Lemma min_start_time_of_cutoff hours_ago T :
  min_start_time_of w hours_ago = inr T -> T = cutoff w hours_ago.
Proof.
  unfold min_start_time_of, timedelta_hours, datetime_sub, cutoff.
  cbv zeta.
  destruct ((-999999999 <=? hours_ago / 24) && (hours_ago / 24 <=? 999999999));
    [| discriminate].
  destruct ((datetime_min <=? now w - hours_ago * 3600000000) &&
            (now w - hours_ago * 3600000000 <=? datetime_max));
    [| discriminate].
  congruence.
Qed.

(** Line 230 raises nothing but [OverflowError]. *)
Lemma min_start_time_of_raises hours_ago e :
  min_start_time_of w hours_ago = inl e -> e = OverflowError.
Proof.
  unfold min_start_time_of, timedelta_hours, datetime_sub. cbv zeta.
  destruct ((-999999999 <=? hours_ago / 24) && (hours_ago / 24 <=? 999999999));
    [| congruence].
  destruct ((datetime_min <=? now w - hours_ago * 3600000000) &&
            (now w - hours_ago * 3600000000 <=? datetime_max));
    congruence.
Qed.

(** The run up to [get_server]. *)
Lemma display_builds_for_job_eq job_name hours_ago inc st :
  display_builds_for_job w job_name hours_ago inc st =
  match min_start_time_of w hours_ago with
  | inl e => (Raise e, st)
  | inr T =>
      (get_server w ≫= fun s =>
       jenkins_get_job_info s job_name ≫= fun job_info =>
       match lastCompletedBuild job_info with
       | None => mret tt
       | Some N =>
           walk w (walk_bound N) job_name T inc (now w) N []
             ≫= display_build_summary w
       end) st
  end.
Proof.
  unfold display_builds_for_job, min_start_time_of. cbv zeta.
  unfold mbind at 1, M_bind at 1, lib at 1.
  destruct (timedelta_hours hours_ago) as [e | delta]; [reflexivity |].
  unfold mbind at 1, M_bind at 1, lib at 1.
  destruct (datetime_sub (now w) delta); reflexivity.
Qed.

Lemma jenkins_get_job_info_eq job_name st :
  jenkins_get_job_info srv job_name st =
  (match srv !! job_name with
   | Some j => Ok j
   | None => Raise JenkinsException
   end, add_events st [GetJobInfo job_name]).
Proof.
  unfold jenkins_get_job_info, mbind, M_bind, log.
  destruct (srv !! job_name); reflexivity.
Qed.

Lemma display_builds_for_job_start h job_name hours_ago inc :
  connects w hours_ago h srv ->
  display_builds_for_job w job_name hours_ago inc initial_state =
  match srv !! job_name with
  | None => (Raise JenkinsException, connected_state h srv job_name)
  | Some j =>
      match lastCompletedBuild j with
      | None => (Ok tt, connected_state h srv job_name)
      | Some N =>
          (walk w (walk_bound N) job_name (cutoff w hours_ago) inc (now w)
             N []
             ≫= display_build_summary w) (connected_state h srv job_name)
      end
  end.
Proof.
  intros (HT & Hh & Hy & Hk). rewrite display_builds_for_job_eq, HT.
  unfold mbind at 1, M_bind at 1. rewrite (get_server_initial h Hh Hy Hk).
  unfold mbind at 1, M_bind at 1. rewrite jenkins_get_job_info_eq.
  destruct (srv !! job_name) as [j |]; [| reflexivity].
  destruct (lastCompletedBuild j); reflexivity.
Qed.

Lemma walk_events_not_table evs rows :
  Forall (fun e => is_walk_event e = true) evs -> PrintTable rows ∉ evs.
Proof.
  intros H Hin. rewrite Forall_forall in H. apply H in Hin. discriminate.
Qed.

(** The anatomy of a run: the settings file, the job, then the fetches
    downwards from the last completed build; a failing call is the last
    one; the table is printed by a run that ends well and has read the
    catalog. *)
Lemma run_anatomy h job_name hours_ago inc :
  connects w hours_ago h srv ->
  let r := display_builds_for_job w job_name hours_ago inc initial_state in
  r.1 <> Unfinished /\
  exists evs,
    trace r.2 = OpenFile (JENKINS_SETTINGS_FILE h)
                  :: GetJobInfo job_name :: evs /\
    failing_call_ends w srv (GetJobInfo job_name :: evs) r.1 /\
    (forall rows, PrintTable rows ∈ evs ->
       r.1 = Ok tt /\ exists data, causes_yaml w = Loaded data) /\
    (evs = [] \/
     exists j N len,
       srv !! job_name = Some j /\ lastCompletedBuild j = Some N /\
       visited evs = countdown len N).
Proof.
  intros Hy. cbv zeta. rewrite (display_builds_for_job_start h _ _ _ Hy).
  destruct (srv !! job_name) as [j |] eqn:Ej.
  2:{ split; [discriminate |]. exists [].
      split; [reflexivity |]. split; [| split; [| left; reflexivity]].
      - intros e x He Hx. apply list_elem_of_singleton in He as ->.
        simpl in Hx. rewrite Ej in Hx. injection Hx as <-.
        split; [reflexivity |]. exists []. reflexivity.
      - intros rows He. inversion He. }
  assert (Hjob : forall x, event_exn w srv (GetJobInfo job_name) = Some x ->
                           False)
    by (intros x Hx; simpl in Hx; rewrite Ej in Hx; discriminate).
  destruct (lastCompletedBuild j) as [N |] eqn:EN.
  2:{ split; [discriminate |]. exists [].
      split; [reflexivity |]. split; [| split; [| left; reflexivity]].
      - intros e x He Hx. apply list_elem_of_singleton in He as ->.
        destruct (Hjob x Hx).
      - intros rows He. inversion He. }
  set (st1 := connected_state h srv job_name).
  set (T := cutoff w hours_ago).
  assert (Hs1 : server st1 = Some srv) by reflexivity.
  destruct (walk_run job_name T inc (walk_bound N) N (now w) [] st1 Hs1
              ltac:(unfold walk_bound; lia))
    as [Hu (evs_w & (Hs2 & Hc2 & Ht2 & Hf2) & Hw)].
  destruct (walk_visited job_name T inc (walk_bound N) N (now w) [] st1 Hs1)
    as [len Hlen].
  unfold mbind, M_bind.
  destruct (walk w (walk_bound N) job_name T inc (now w) N [] st1)
    as [[statuses | e |] st2]; cbn [fst snd] in *; [| | contradiction].
  - destruct (summary_run statuses st2 Hs2)
      as [Hu3 (evs_s & (Hs3 & Hc3 & Ht3 & Hf3) & Hv3 & Hp3)].
    split; [exact Hu3 |]. exists (evs_w ++ evs_s).
    split; [rewrite Ht3, Ht2, <- app_assoc; reflexivity |].
    split; [| split].
    + intros e x He Hx. apply elem_of_cons in He as [-> | He];
        [destruct (Hjob x Hx) |].
      apply elem_of_app in He as [He | He].
      * destruct (Hf2 e x He Hx) as [Habs _]. discriminate.
      * destruct (Hf3 e x He Hx) as [-> [evs0 ->]].
        split; [reflexivity |].
        exists (GetJobInfo job_name :: evs_w ++ evs0).
        simpl. rewrite app_assoc. reflexivity.
    + intros rows He. apply elem_of_app in He as [He | He];
        [destruct (walk_events_not_table _ _ Hw He) |].
      destruct (Hp3 rows He) as [Hok [data Hdata]].
      split; [exact Hok |].
      assert (Hc : cache_step w st1 (display_build_summary w statuses st2).2)
        by (eapply cache_step_trans; eassumption).
      destruct Hc as [Hc | (data' & Hl & _)]; [| eauto].
      rewrite Hdata in Hc. discriminate.
    + right. exists j, N, len. split; [reflexivity |].
      split; [exact EN |].
      rewrite visited_app, Hv3, app_nil_r.
      rewrite Ht2, visited_app in Hlen.
      apply app_inv_head in Hlen. exact Hlen.
  - split; [discriminate |]. exists evs_w.
    split; [exact Ht2 |]. split; [| split].
    + intros e' x He Hx. apply elem_of_cons in He as [-> | He];
        [destruct (Hjob x Hx) |].
      destruct (Hf2 e' x He Hx) as [E [evs0 ->]].
      injection E as ->.
      split; [reflexivity |]. exists (GetJobInfo job_name :: evs0).
      reflexivity.
    + intros rows He. destruct (walk_events_not_table _ _ Hw He).
    + right. exists j, N, len. split; [reflexivity |].
      split; [exact EN |].
      rewrite Ht2, visited_app in Hlen.
      apply app_inv_head in Hlen. exact Hlen.
Qed.

End RunFacts.

Lemma has_keys_missing_key w :
  has_keys w = true <-> missing_key w = None.
Proof.
  unfold has_keys, missing_key. cbn [forallb find].
  destruct (existsb (String.eqb "url") (settings_keys w));
    destruct (existsb (String.eqb "username") (settings_keys w));
    destruct (existsb (String.eqb "password") (settings_keys w));
    simpl; split; congruence.
Qed.

Lemma missing_key_cases w key :
  missing_key w = Some key ->
  existsb (String.eqb key) (settings_keys w) = false /\
  (key = "url" \/ key = "username" \/ key = "password").
Proof.
  unfold missing_key. cbn [find].
  destruct (existsb (String.eqb "url") (settings_keys w)) eqn:E1;
    cbn [negb]; [| intros [= <-]; auto].
  destruct (existsb (String.eqb "username") (settings_keys w)) eqn:E2;
    cbn [negb]; [| intros [= <-]; auto].
  destruct (existsb (String.eqb "password") (settings_keys w)) eqn:E3;
    cbn [negb]; [discriminate | intros [= <-]; auto].
Qed.

(** A run gets to the server or ends early. *)
Lemma run_cases {R : PyRe} w job_name hours_ago inc :
  (exists h srv, connects w hours_ago h srv) \/
  early_exit w hours_ago (run w job_name hours_ago inc).
Proof.
  unfold run. rewrite display_builds_for_job_eq.
  destruct (min_start_time_of w hours_ago) as [e | T] eqn:ET.
  { assert (e = OverflowError) as ->
      by (eapply min_start_time_of_raises; exact ET).
    right. left. auto. }
  apply min_start_time_of_cutoff in ET as HT. subst T.
  destruct (home w) as [h |] eqn:Eh.
  2:{ right. right. split; [exact ET |]. left.
      unfold get_server, get_connection_settings, environ_HOME.
      rewrite Eh. auto. }
  destruct (jenkins_yaml w) as [| | srv] eqn:Ey.
  - right. right. split; [exact ET |]. right. exists h.
    split; [exact Eh |]. left.
    unfold get_server, get_connection_settings, environ_HOME.
    rewrite Eh, Ey. auto.
  - right. right. split; [exact ET |]. right. exists h.
    split; [exact Eh |]. right. left.
    unfold get_server, get_connection_settings, environ_HOME.
    rewrite Eh, Ey. auto.
  - destruct (missing_key w) as [key |] eqn:Ek.
    + right. right. split; [exact ET |]. right. exists h.
      split; [exact Eh |]. right. right. exists srv, key.
      split; [exact Ey |]. split; [exact Ek |].
      revert Ek. unfold missing_key. cbn [find].
      unfold get_server, get_connection_settings, environ_HOME,
        settings_item.
      rewrite Eh, Ey.
      destruct (existsb (String.eqb "url") (settings_keys w));
        cbn [negb]; [| intros [= <-]; auto].
      destruct (existsb (String.eqb "username") (settings_keys w));
        cbn [negb]; [| intros [= <-]; auto].
      destruct (existsb (String.eqb "password") (settings_keys w));
        cbn [negb]; [discriminate | intros [= <-]; auto].
    + left. exists h, srv. apply has_keys_missing_key in Ek.
      repeat split; assumption.
Qed.

Lemma early_exit_raises w hours_ago (r : outcome unit * state) :
  early_exit w hours_ago r -> exists e, r.1 = Raise e.
Proof.
  intros [(_ & H & _) | (_ & [(_ & H & _) | (h & _ & H)])]; eauto.
  destruct H as [(_ & H & _) | [(_ & H & _) | (s & k & _ & _ & H & _)]];
    eauto.
Qed.

(** A run that ends early has called no server and printed no table. *)
Lemma early_exit_trace w hours_ago (r : outcome unit * state) e :
  early_exit w hours_ago r -> e ∈ trace r.2 ->
  (exists path, e = OpenFile path) \/ exists line, e = Print line.
Proof.
  intros [(_ & _ & H) | (_ & [(_ & _ & H) | (h & _ & H)])];
    try (rewrite H; intros He; inversion He).
  destruct H as [(_ & _ & H) | [(_ & _ & H) | (s & k & _ & _ & _ & H)]];
    rewrite H; intros He.
  - apply elem_of_cons in He as [-> | He]; [eauto |].
    apply list_elem_of_fmap in He as (line & -> & _). eauto.
  - apply list_elem_of_singleton in He as ->. eauto.
  - apply list_elem_of_singleton in He as ->. eauto.
Qed.

Lemma early_exit_visited w hours_ago (r : outcome unit * state) :
  early_exit w hours_ago r -> visited (trace r.2) = [].
Proof.
  intros [(_ & _ & H) | (_ & [(_ & _ & H) | (h & _ & H)])];
    try (rewrite H; reflexivity).
  destruct H as [(_ & _ & H) | [(_ & _ & H) | (s & k & _ & _ & _ & H)]];
    rewrite H; reflexivity.
Qed.

Lemma early_exit_no_report w hours_ago (r : outcome unit * state) :
  early_exit w hours_ago r -> ~ report_printed (trace r.2).
Proof.
  intros He [rows Hrows].
  destruct (early_exit_trace _ _ _ _ He Hrows) as [[p E] | [l E]];
    discriminate.
Qed.

(** A run never stops at the bound of the loop. *)
Lemma run_finishes {R : PyRe} w job_name hours_ago inc :
  (run w job_name hours_ago inc).1 <> Unfinished.
Proof.
  destruct (run_cases w job_name hours_ago inc) as [(h & srv & Hc) | He].
  - apply (run_anatomy w srv h job_name hours_ago inc Hc).
  - apply early_exit_raises in He as [e He]. rewrite He. discriminate.
Qed.

(** ** The dict of stored builds *)


(** ** Successful builds are not classified *)

(** C10. For a build whose result is SUCCESS, [get_build_fail_cause] returns
    the empty classification and leaves the state as it was: no console
    fetch, no catalog read. For any other result it is [search_for_cause],
    whose first call, once the server is known, is the console fetch. *)
Theorem success_is_not_classified
    {R : PyRe} (w : world) (b : build_info) (job_name : string) (n : Z)
    (st : state) :
  (result b = "SUCCESS" ->
   get_build_fail_cause w b job_name n st = (Ok EmptyStr, st) /\
   cause_names EmptyStr = [])
  /\ (result b <> "SUCCESS" ->
      get_build_fail_cause w b job_name n st =
        (let (o, st') := search_for_cause w job_name n st in
         (match o with
          | Ok l => Ok (CauseList l)
          | Raise e => Raise e
          | Unfinished => Unfinished
          end, st'))
      /\ forall srv, server st = Some srv ->
           exists evs,
             trace (get_build_fail_cause w b job_name n st).2 =
             trace st ++ GetBuildConsoleOutput job_name n :: evs).
Proof.
  unfold get_build_fail_cause. split.
  - intros Hres. apply String.eqb_eq in Hres. rewrite Hres. auto.
  - intros Hres. apply String.eqb_neq in Hres. rewrite Hres.
    assert (E : (search_for_cause w job_name n
                   ≫= (fun cause_info => mret (CauseList cause_info))) st =
                (let (o, st') := search_for_cause w job_name n st in
                 (match o with
                  | Ok l => Ok (CauseList l)
                  | Raise e => Raise e
                  | Unfinished => Unfinished
                  end, st'))).
    { unfold mbind, M_bind.
      destruct (search_for_cause w job_name n st) as [[l | e |] st'];
        reflexivity. }
    split; [exact E |]. intros srv Hs. rewrite E.
    rewrite (search_for_cause_connected w srv job_name n st Hs). cbv zeta.
    destruct (server_console srv job_name n) as [output |].
    + rewrite get_causes_eq. cbn [causes_cache add_events].
      destruct (causes_cache st) as [data |].
      * exists []. destruct (classify output data); reflexivity.
      * cbv zeta. exists [OpenFile "causes.yaml"].
        destruct (causes_yaml w) as [| | data];
          [simpl; rewrite <- app_assoc; reflexivity
          | simpl; rewrite <- app_assoc; reflexivity |].
        destruct (classify output data); simpl; rewrite <- app_assoc;
          reflexivity.
    + exists []. reflexivity.
Qed.

Lemma success_is_not_classified_witness :
  get_build_fail_cause (R:=re_fragment) plain_world (build 15 "SUCCESS")
    "mojo_runner" 3 initial_state = (Ok EmptyStr, initial_state) /\
  cause_names EmptyStr = [].
Proof.
  destruct (success_is_not_classified (R:=re_fragment) plain_world
              (build 15 "SUCCESS") "mojo_runner" 3 initial_state) as [H _].
  apply H. reflexivity.
Defined.

(** ** The classification is a set of catalog names *)

Lemma search_for_cause_classifies {R : PyRe} w job_name n st l st' :
  search_for_cause w job_name n st = (Ok l, st') ->
  exists output causes,
    causes_cache st' = Some causes /\ classify output causes = Ok l.
Proof.
  unfold search_for_cause. unfold mbind at 1, M_bind at 1.
  destruct (get_server w st) as [[s | e |] st1];
    [| discriminate | discriminate].
  unfold mbind at 1, M_bind at 1.
  destruct (jenkins_get_build_console_output s job_name n st1)
    as [[output | e |] st2]; [| discriminate | discriminate].
  unfold mbind at 1, M_bind at 1. rewrite get_causes_eq.
  destruct (causes_cache st2) as [data |] eqn:Ec.
  - unfold lift. intros E. injection E as E <-. eauto.
  - cbv zeta. destruct (causes_yaml w) as [| | data];
      [discriminate | discriminate |].
    unfold lift. intros E. injection E as E <-. eauto.
Qed.

(** C4. Whatever the log text and the catalog, what [search_for_cause]
    returns has no duplicate and holds only names of the catalog, which is
    the cached one. The same holds of [classify] on any text and catalog,
    which returns unless a pattern makes [re.search] raise; a name is in the
    result once, however many of its rules fire. *)
Theorem search_for_cause_is_set
    {R : PyRe} (w : world) (job_name : string) (n : Z) (st st' : state)
    (l : list string) :
  search_for_cause w job_name n st = (Ok l, st') ->
  (NoDup l /\
   exists causes,
     causes_cache st' = Some causes /\ forall x, x ∈ l -> x ∈ causes.*1)
  /\ (forall output causes,
        match classify output causes with
        | Ok l' => NoDup l' /\ forall x, x ∈ l' -> x ∈ causes.*1
        | Raise e => exists name data pat,
            e = re_error pat /\ (name, data) ∈ causes /\
            pattern_raises output data pat
        | Unfinished => False
        end).
Proof.
  assert (Hall : forall output causes,
    match classify output causes with
    | Ok l' => NoDup l' /\ forall x, x ∈ l' -> x ∈ causes.*1
    | Raise e => exists name data pat,
        e = re_error pat /\ (name, data) ∈ causes /\
        pattern_raises output data pat
    | Unfinished => False
    end).
  { intros output causes. assert (H := classify_spec output causes).
    destruct (classify output causes) as [l' | e |]; [| exact H | exact H].
    destruct H as (_ & Hnd & Hl). split; [exact Hnd |].
    intros x Hx. apply Hl in Hx as (data & Hin & _).
    apply list_elem_of_fmap. exists (x, data). auto. }
  intros Hrun. split; [| exact Hall].
  destruct (search_for_cause_classifies _ _ _ _ _ _ Hrun)
    as (output & causes & Hc & Hcl).
  specialize (Hall output causes). rewrite Hcl in Hall.
  destruct Hall as [Hnd Hsub]. split; [exact Hnd |]. eauto.
Qed.

Lemma search_for_cause_is_set_witness :
  NoDup ["traceback"] /\
  exists causes,
    causes_cache
      (search_for_cause (R:=re_fragment) plain_world "mojo_runner" 4
         initial_state).2 = Some causes /\
    forall x, x ∈ ["traceback"] -> x ∈ causes.*1.
Proof.
  apply (search_for_cause_is_set (R:=re_fragment) plain_world "mojo_runner" 4
           initial_state
           (search_for_cause (R:=re_fragment) plain_world "mojo_runner" 4
              initial_state).2 ["traceback"]).
  vm_compute. reflexivity.
Defined.

(** ** Literal rules *)

(** C6. A literal rule is an exact substring test. A cause one of whose
    literals occurs in the log text, character for character, is in the
    result of every classification that returns, and one returns whenever no
    pattern raises. A name is in the result only if one of its rules fires,
    so a cause whose only rule is a literal that does not occur as written
    is not reported, whatever occurs in another case. *)
Theorem literal_rules_are_exact
    {R : PyRe} (output : string) (causes : catalog) :
  (forall name data strs s,
     (name, data) ∈ causes -> text data = Some strs -> s ∈ strs ->
     occurs s output ->
     patterns_compile output causes ->
     exists l, classify output causes = Ok l /\ name ∈ l)
  /\ (forall l name,
        classify output causes = Ok l -> name ∈ l ->
        exists data, (name, data) ∈ causes /\ rule_fires output data)
  /\ (forall name s,
        ~ occurs s output ->
        classify output [(name, literal_cause s)] = Ok []).
Proof.
  split; [| split].
  - intros name data strs s Hin Ht Hs Hocc Hcomp.
    destruct (classify_returns output causes Hcomp) as [l Hl].
    exists l. split; [exact Hl |].
    assert (H := classify_spec output causes). rewrite Hl in H.
    destruct H as (_ & _ & Hmem). apply Hmem. exists data.
    split; [exact Hin |]. right. exists strs, s. auto.
  - intros l name Hl Hname.
    assert (H := classify_spec output causes). rewrite Hl in H.
    destruct H as (_ & _ & Hmem). apply Hmem. exact Hname.
  - intros name s Hno. unfold classify. cbn.
    destruct (str_in s output) eqn:E; [| reflexivity].
    apply str_in_spec in E. contradiction.
Qed.

Lemma literal_rules_are_exact_witness :
  exists l,
    classify (R:=re_fragment) "java.lang.OutOfMemoryError: heap"
      sample_catalog = Ok l /\ "oom" ∈ l.
Proof.
  destruct (literal_rules_are_exact (R:=re_fragment)
              "java.lang.OutOfMemoryError: heap" sample_catalog) as [H _].
  apply (H "oom" (literal_cause "OutOfMemoryError") ["OutOfMemoryError"]
           "OutOfMemoryError").
  - left.
  - reflexivity.
  - left.
  - exists "java.lang.", ": heap". reflexivity.
  - intros name data pat Hin (regs & Hre & Hpat & Herr).
    apply elem_of_cons in Hin as [E | Hin].
    + injection E as -> ->. discriminate.
    + apply list_elem_of_singleton in Hin. injection Hin as -> ->.
      injection Hre as <-. apply list_elem_of_singleton in Hpat as ->.
      vm_compute in Herr. discriminate.
Defined.

(** The same literal in lower case is not a match. *)
Example literal_other_case :
  classify (R:=re_fragment) "java.lang.outofmemoryerror: heap"
    [("oom", literal_cause "OutOfMemoryError")] = Ok [].
Proof. vm_compute. reflexivity. Qed.

(** ** Patterns are searched with [re.DOTALL] *)

(** With [re.DOTALL] the dot accepts a newline; without it, it does not. *)
Example dot_newline :
  re_search (PyRe:=re_fragment) "a.b" ("a" +:+ nl +:+ "b") DOTALL = ReMatch /\
  re_search (PyRe:=re_fragment) "a.b" ("a" +:+ nl +:+ "b") NOFLAGS = ReNone.
Proof. split; vm_compute; reflexivity. Qed.

(** The sample runs and classifications make no search outside the
    fragment: they are the same whatever stands for the rest of [re]. *)
Lemma sample_runs_any_re other :
  run (R:=re_with other) plain_world "mojo_runner" 1 false =
    run (R:=re_fragment) plain_world "mojo_runner" 1 false /\
  run (R:=re_with other) tie_world "mojo_runner" 1 false =
    run (R:=re_fragment) tie_world "mojo_runner" 1 false /\
  run (R:=re_with other) pruned_world "mojo_runner" 1 true =
    run (R:=re_fragment) pruned_world "mojo_runner" 1 true /\
  run (R:=re_with other) no_console_world "mojo_runner" 1 false =
    run (R:=re_fragment) no_console_world "mojo_runner" 1 false /\
  run (R:=re_with other) no_catalog_world "mojo_runner" 1 false =
    run (R:=re_fragment) no_catalog_world "mojo_runner" 1 false /\
  run (R:=re_with other) recent_world "mojo_runner" 1 true =
    run (R:=re_fragment) recent_world "mojo_runner" 1 true /\
  (forall output,
     classify (R:=re_with other) output bad_regex_catalog =
     classify (R:=re_fragment) output bad_regex_catalog).
Proof.
  repeat (split; [vm_compute; reflexivity |]).
  intros output. unfold classify, bad_regex_catalog. cbn.
  destruct (str_in "OutOfMemoryError" output); reflexivity.
Qed.




(** ** Invalid patterns *)

(** C8, as claimed, fails: the catalog of [bad_regex_world] holds the
    pattern ["("], which never compiles, and [get_causes] loads it. *)
Lemma invalid_pattern_is_loaded :
  ~ load_rejects_invalid_patterns (R:=re_fragment) bad_regex_world.
Proof.
  intros H.
  destruct (H bad_regex_catalog eq_refl) as (e & st' & Hload).
  - exists "broken", (regex_cause "("), ["("], "(".
    split; [right; left |]. split; [reflexivity |]. split; [left |].
    intros output. reflexivity.
  - vm_compute in Hload. discriminate.
Qed.

(** C8, amended. Loading does not look at the patterns: [get_causes]
    returns the parsed file as it is, also when a pattern in it does not
    compile. The error is raised by [re.search] during classification, in
    every classification of a text on which a pattern of the catalog
    raises. *)
Theorem invalid_pattern_raises_in_classify
    {R : PyRe} (w : world) (st : state) (causes : catalog) (output : string)
    (name : string) (data : cause_data) (pat : string) :
  causes_yaml w = Loaded causes ->
  causes_cache st = None ->
  (name, data) ∈ causes ->
  pattern_raises output data pat ->
  (get_causes w st).1 = Ok causes /\
  exists name' data' pat',
    classify output causes = Raise (re_error pat') /\
    (name', data') ∈ causes /\ pattern_raises output data' pat'.
Proof.
  intros Hy Hc Hin Hr. split.
  - rewrite get_causes_eq, Hc, Hy. reflexivity.
  - assert (H := classify_spec output causes).
    destruct (classify output causes) as [l | e |]; [| | contradiction].
    + destruct H as (Hcomp & _). destruct (Hcomp name data pat Hin Hr).
    + destruct H as (name' & data' & pat' & -> & Hin' & Hr'). eauto 6.
Qed.

Lemma invalid_pattern_raises_in_classify_witness :
  (get_causes bad_regex_world initial_state).1 =
    Ok bad_regex_catalog /\
  exists name' data' pat',
    classify (R:=re_fragment) "java.lang.OutOfMemoryError" bad_regex_catalog =
      Raise (re_error pat') /\
    (name', data') ∈ bad_regex_catalog /\
    pattern_raises (R:=re_fragment) "java.lang.OutOfMemoryError" data' pat'.
Proof.
  apply (invalid_pattern_raises_in_classify (R:=re_fragment) bad_regex_world
           initial_state bad_regex_catalog "java.lang.OutOfMemoryError"
           "broken" (regex_cause "(") "(").
  - reflexivity.
  - reflexivity.
  - right. left.
  - exists ["("]. split; [reflexivity |]. split; [left | reflexivity].
Defined.

(** ** Failing calls end the run *)

Section RunClaims.

Context {R : PyRe}.
Variable w : world.
Variable srv : gmap string job.
Hypothesis Hyaml : jenkins_yaml w = Loaded srv.

(** A remote call that fails is the last event of the run, the run ends
    with its exception, and no table is printed. *)
Lemma failed_fetch_ends_run job_name hours_ago inc e x :
  is_build_or_log_fetch e = true ->
  e ∈ trace (run w job_name hours_ago inc).2 ->
  event_exn w srv e = Some x ->
  (run w job_name hours_ago inc).1 = Raise x /\
  (exists evs0, trace (run w job_name hours_ago inc).2 = evs0 ++ [e]) /\
  ~ report_printed (trace (run w job_name hours_ago inc).2).
Proof.
  intros Hfetch Hin Hx.
  destruct (run_cases w job_name hours_ago inc) as [(h & srv' & Hc) | He].
  2:{ destruct (early_exit_trace _ _ _ _ He Hin) as [[p ->] | [l ->]];
        discriminate. }
  assert (srv' = srv) as ->
    by (destruct Hc as (_ & _ & Hy & _); congruence).
  destruct (run_anatomy w srv h job_name hours_ago inc Hc)
    as (_ & evs & Ht & Hf & Hp & _).
  fold (run w job_name hours_ago inc) in Ht, Hf, Hp.
  rewrite Ht in Hin. apply elem_of_cons in Hin as [-> | Hin];
    [discriminate |].
  destruct (Hf e x Hin Hx) as [Ho [evs0 Hlast]].
  split; [exact Ho |]. split.
  - exists (OpenFile (JENKINS_SETTINGS_FILE h) :: evs0).
    rewrite Ht, Hlast. reflexivity.
  - intros [rows Hrows]. rewrite Ht in Hrows.
    apply elem_of_cons in Hrows as [E | Hrows]; [discriminate |].
    apply elem_of_cons in Hrows as [E | Hrows]; [discriminate |].
    destruct (Hp rows Hrows) as [Hok _]. congruence.
Qed.

Lemma countdown_last_least len : forall N l n k,
  countdown len N = l ++ [n] -> k ∈ countdown len N -> n <= k.
Proof.
  induction len as [| len' IH]; intros N l n k E Hk; simpl in E.
  - destruct l; discriminate.
  - destruct l as [| a l'].
    + injection E as -> E. simpl in Hk. rewrite E in Hk.
      apply list_elem_of_singleton in Hk. lia.
    + injection E as <- E. simpl in Hk.
      apply elem_of_cons in Hk as [-> | Hk]; [| eauto].
      assert (Hn : n ∈ countdown len' (N - 1))
        by (rewrite E; apply elem_of_app; right; left).
      apply elem_of_countdown in Hn. lia.
Qed.

Lemma visited_run job_name hours_ago inc :
  visited (trace (run w job_name hours_ago inc).2) = [] \/
  exists len N,
    visited (trace (run w job_name hours_ago inc).2) = countdown len N.
Proof.
  destruct (run_cases w job_name hours_ago inc) as [(h & srv' & Hc) | He];
    [| left; exact (early_exit_visited _ _ _ He)].
  destruct (run_anatomy w srv' h job_name hours_ago inc Hc)
    as (_ & evs & Ht & _ & _ & Hv).
  fold (run w job_name hours_ago inc) in Ht. rewrite Ht. simpl.
  destruct Hv as [-> | (j & N & len & _ & _ & Hv)]; [left; reflexivity |].
  right. eauto.
Qed.

End RunClaims.

(** C3, as claimed, fails: in [pruned_world] build 2 does not exist; build 1
    is after the cutoff, and it is not fetched, and no table is printed. *)
Lemma missing_build_stops_walk :
  ~ walk_survives_missing_build (R:=re_fragment) pruned_world
      {[ "mojo_runner" := pruned_job ]} "mojo_runner" 1 true 2.
Proof.
  unfold walk_survives_missing_build. intros H.
  destruct H as [Hin _];
    [vm_compute; reflexivity | vm_compute; do 3 right; left |].
  vm_compute in Hin.
  repeat (apply elem_of_cons in Hin as [Hin | Hin]; [discriminate |]).
  inversion Hin.
Qed.

(** C3, amended. A fetch of build metadata that fails ends the walk: the
    exception is not caught, the run ends with it, the failed fetch is its
    last call, the build before that number is not fetched, and no table is
    printed. *)
Theorem missing_build_ends_run
    {R : PyRe} (w : world) (srv : gmap string job) (job_name : string)
    (hours_ago : Z) (inc : bool) (n : Z) :
  jenkins_yaml w = Loaded srv ->
  GetBuildInfo job_name n ∈ trace (run w job_name hours_ago inc).2 ->
  server_build srv job_name n = None ->
  (run w job_name hours_ago inc).1 = Raise JenkinsException /\
  (exists evs0,
     trace (run w job_name hours_ago inc).2 =
     evs0 ++ [GetBuildInfo job_name n]) /\
  ((n - 1) ∉ visited (trace (run w job_name hours_ago inc).2)) /\
  ~ report_printed (trace (run w job_name hours_ago inc).2).
Proof.
  intros Hy Hin Hnone.
  destruct (failed_fetch_ends_run w srv Hy job_name hours_ago inc
              (GetBuildInfo job_name n) JenkinsException eq_refl Hin)
    as (Ho & [evs0 Hlast] & Hnp).
  { simpl. rewrite Hnone. reflexivity. }
  split; [exact Ho |]. split; [eauto |]. split; [| exact Hnp].
  intros Hprev.
  destruct (visited_run w job_name hours_ago inc)
    as [Hv | (len & N & Hv)].
  - rewrite Hv in Hprev. inversion Hprev.
  - assert (Hsnoc : countdown len N = visited evs0 ++ [n])
      by (rewrite <- Hv, Hlast, visited_app; reflexivity).
    rewrite Hv in Hprev.
    assert (H := countdown_last_least _ _ _ _ _ Hsnoc Hprev). lia.
Qed.

Lemma missing_build_ends_run_witness :
  (run (R:=re_fragment) pruned_world "mojo_runner" 1 true).1 =
    Raise JenkinsException /\
  (exists evs0,
     trace (run (R:=re_fragment) pruned_world "mojo_runner" 1 true).2 =
     evs0 ++ [GetBuildInfo "mojo_runner" 2]) /\
  ((2 - 1) ∉
     visited
       (trace (run (R:=re_fragment) pruned_world "mojo_runner" 1 true).2)) /\
  ~ report_printed
      (trace (run (R:=re_fragment) pruned_world "mojo_runner" 1 true).2).
Proof.
  apply (missing_build_ends_run (R:=re_fragment) pruned_world
           {[ "mojo_runner" := pruned_job ]} "mojo_runner" 1 true 2).
  - reflexivity.
  - vm_compute. do 3 right. left.
  - vm_compute. reflexivity.
Defined.

(** C9, as claimed, fails: in [no_console_world] build 2 failed, is in the
    window and has no console text; the run does not end well and prints no
    row for it. *)
Lemma log_failure_drops_row :
  ~ log_failure_keeps_row (R:=re_fragment) no_console_world
      {[ "mojo_runner" := no_console_job ]} "mojo_runner" 1 false 2.
Proof.
  unfold log_failure_keeps_row. intros H.
  destruct H as [Hok _];
    [vm_compute; reflexivity | vm_compute; do 3 right; left |].
  vm_compute in Hok. discriminate.
Qed.

(** C9, amended. A console fetch that fails is not caught:
    [search_for_cause] raises the client's exception right after the fetch,
    the run ends with it, the failed fetch is its last call, and no table is
    printed, so that the build is in no report. *)
Theorem console_failure_ends_run
    {R : PyRe} (w : world) (srv : gmap string job) (job_name : string)
    (hours_ago : Z) (inc : bool) (n : Z) :
  jenkins_yaml w = Loaded srv ->
  GetBuildConsoleOutput job_name n ∈ trace (run w job_name hours_ago inc).2 ->
  server_console srv job_name n = None ->
  (forall st, server st = Some srv ->
     search_for_cause w job_name n st =
     (Raise JenkinsException,
      add_events st [GetBuildConsoleOutput job_name n])) /\
  (run w job_name hours_ago inc).1 = Raise JenkinsException /\
  (exists evs0,
     trace (run w job_name hours_ago inc).2 =
     evs0 ++ [GetBuildConsoleOutput job_name n]) /\
  ~ report_printed (trace (run w job_name hours_ago inc).2).
Proof.
  intros Hy Hin Hnone. split.
  - intros st Hs. rewrite (search_for_cause_connected w srv _ _ _ Hs).
    rewrite Hnone. reflexivity.
  - apply (failed_fetch_ends_run w srv Hy job_name hours_ago inc
             (GetBuildConsoleOutput job_name n) JenkinsException eq_refl Hin).
    simpl. rewrite Hnone. reflexivity.
Qed.

Lemma console_failure_ends_run_witness :
  (forall st, server st = Some {[ "mojo_runner" := no_console_job ]} ->
     search_for_cause (R:=re_fragment) no_console_world "mojo_runner" 2 st =
     (Raise JenkinsException,
      add_events st [GetBuildConsoleOutput "mojo_runner" 2])) /\
  (run (R:=re_fragment) no_console_world "mojo_runner" 1 false).1 =
    Raise JenkinsException /\
  (exists evs0,
     trace (run (R:=re_fragment) no_console_world "mojo_runner" 1 false).2 =
     evs0 ++ [GetBuildConsoleOutput "mojo_runner" 2]) /\
  ~ report_printed
      (trace (run (R:=re_fragment) no_console_world "mojo_runner" 1 false).2).
Proof.
  apply (console_failure_ends_run (R:=re_fragment) no_console_world
           {[ "mojo_runner" := no_console_job ]} "mojo_runner" 1 false 2).
  - reflexivity.
  - vm_compute. do 3 right. left.
  - vm_compute. reflexivity.
Defined.

(** ** The catalog is read late *)

(** C7, as claimed, fails: in [no_catalog_world] [causes.yaml] is missing,
    and the run ends with [FileNotFoundError] only after it has fetched
    build 4 and its console text. *)
Lemma catalog_error_follows_fetches :
  ~ catalog_error_before_fetch (R:=re_fragment) no_catalog_world
      "mojo_runner" 1 false.
Proof.
  unfold catalog_error_before_fetch. intros H.
  destruct H as [_ Hall]; [intros data; discriminate |].
  vm_compute in Hall. rewrite Forall_forall in Hall.
  assert (H := Hall (GetBuildInfo "mojo_runner" 4) ltac:(do 2 right; left)).
  discriminate.
Qed.

(** C7, amended. The catalog is read at the first call of [get_causes], not
    at the start. When [causes.yaml] is missing or does not parse, every
    such call raises [FileNotFoundError] or [YAMLError]: in
    [search_for_cause] right after the console text was fetched. The
    exception is not caught, so that a run that opens the file ends there
    and no table is printed. In a run that gets as far as the server (the
    cutoff is a date, [HOME] is set and the settings file has its keys) the
    job was asked for before that, and a job with no completed build ends
    well without opening the file. *)
Theorem catalog_error_is_late
    {R : PyRe} (w : world) (h : string) (srv : gmap string job)
    (job_name : string) (hours_ago : Z) (inc : bool) :
  connects w hours_ago h srv ->
  (forall data, causes_yaml w <> Loaded data) ->
  (forall st, causes_cache st = None ->
     (get_causes w st).1 = Raise FileNotFoundError \/
     (get_causes w st).1 = Raise YAMLError) /\
  (forall st n output,
     server st = Some srv -> causes_cache st = None ->
     server_console srv job_name n = Some output ->
     exists x,
       (x = FileNotFoundError \/ x = YAMLError) /\
       search_for_cause w job_name n st =
       (Raise x,
        add_events st
          [GetBuildConsoleOutput job_name n; OpenFile "causes.yaml"])) /\
  exists evs,
    trace (run w job_name hours_ago inc).2 =
      OpenFile (JENKINS_SETTINGS_FILE h) :: GetJobInfo job_name :: evs /\
    (OpenFile "causes.yaml" ∈ evs ->
     ((run w job_name hours_ago inc).1 = Raise FileNotFoundError \/
      (run w job_name hours_ago inc).1 = Raise YAMLError) /\
     exists evs0, evs = evs0 ++ [OpenFile "causes.yaml"]) /\
    ~ report_printed (trace (run w job_name hours_ago inc).2) /\
    (forall j, srv !! job_name = Some j -> lastCompletedBuild j = None ->
       (run w job_name hours_ago inc).1 = Ok tt /\ evs = []).
Proof.
  intros Hy Hno. split; [| split].
  - intros st Hc. rewrite get_causes_eq, Hc. cbv zeta.
    destruct (causes_yaml w) as [| | data] eqn:Ey; [auto | auto |].
    destruct (Hno data eq_refl).
  - intros st n output Hs Hc Ho.
    rewrite (search_for_cause_connected w srv _ _ _ Hs), Ho. cbv zeta.
    rewrite get_causes_eq. cbn [causes_cache add_events]. rewrite Hc.
    cbv zeta. rewrite add_events_app.
    destruct (causes_yaml w) as [| | data] eqn:Ey;
      [exists FileNotFoundError; auto | exists YAMLError; auto |].
    destruct (Hno data eq_refl).
  - destruct (run_anatomy w srv h job_name hours_ago inc Hy)
      as (_ & evs & Ht & Hf & Hp & _).
    fold (run w job_name hours_ago inc) in Ht, Hf, Hp.
    exists evs. split; [exact Ht |]. split; [| split].
    + intros Hin.
      assert (Hx : exists x, event_exn w srv (OpenFile "causes.yaml") = Some x
                             /\ (x = FileNotFoundError \/ x = YAMLError)).
      { simpl. destruct (causes_yaml w) as [| | data] eqn:Ey; eauto.
        destruct (Hno data eq_refl). }
      destruct Hx as (x & Hx & Hxx).
      destruct (Hf (OpenFile "causes.yaml") x
                  ltac:(right; exact Hin) Hx) as [Ho [evs0 Hlast]].
      split; [destruct Hxx as [-> | ->]; auto |].
      destruct evs0 as [| e0 evs0'].
      * simpl in Hlast. discriminate.
      * injection Hlast as _ ->. eauto.
    + intros [rows Hrows]. rewrite Ht in Hrows.
      apply elem_of_cons in Hrows as [E | Hrows]; [discriminate |].
      apply elem_of_cons in Hrows as [E | Hrows]; [discriminate |].
      destruct (Hp rows Hrows) as [_ [data Hdata]].
      exact (Hno data Hdata).
    + intros j Hj Hlast. unfold run in *.
      rewrite (display_builds_for_job_start w srv h _ _ _ Hy), Hj, Hlast in *.
      split; [reflexivity |]. simpl in Ht. injection Ht as <-. reflexivity.
Qed.

Lemma catalog_error_is_late_witness :
  (forall st, causes_cache st = None ->
     (get_causes no_catalog_world st).1 = Raise FileNotFoundError \/
     (get_causes no_catalog_world st).1 = Raise YAMLError) /\
  (forall st n output,
     server st = Some {[ "mojo_runner" := plain_job ]} ->
     causes_cache st = None ->
     server_console {[ "mojo_runner" := plain_job ]} "mojo_runner" n
       = Some output ->
     exists x,
       (x = FileNotFoundError \/ x = YAMLError) /\
       search_for_cause (R:=re_fragment) no_catalog_world "mojo_runner" n st =
       (Raise x,
        add_events st
          [GetBuildConsoleOutput "mojo_runner" n; OpenFile "causes.yaml"])) /\
  exists evs,
    trace (run (R:=re_fragment) no_catalog_world "mojo_runner" 1 false).2 =
      OpenFile (JENKINS_SETTINGS_FILE "/home/ci")
        :: GetJobInfo "mojo_runner" :: evs /\
    (OpenFile "causes.yaml" ∈ evs ->
     ((run (R:=re_fragment) no_catalog_world "mojo_runner" 1 false).1 =
        Raise FileNotFoundError \/
      (run (R:=re_fragment) no_catalog_world "mojo_runner" 1 false).1 =
        Raise YAMLError) /\
     exists evs0, evs = evs0 ++ [OpenFile "causes.yaml"]) /\
    ~ report_printed
        (trace
           (run (R:=re_fragment) no_catalog_world "mojo_runner" 1 false).2) /\
    (forall j,
       ({[ "mojo_runner" := plain_job ]} : gmap string job) !! "mojo_runner"
         = Some j ->
       lastCompletedBuild j = None ->
       (run (R:=re_fragment) no_catalog_world "mojo_runner" 1 false).1 = Ok tt
       /\ evs = []).
Proof.
  apply (catalog_error_is_late (R:=re_fragment) no_catalog_world "/home/ci"
           {[ "mojo_runner" := plain_job ]} "mojo_runner" 1 false).
  - repeat split; reflexivity.
  - intros data. discriminate.
Defined.

(** ** The walk over the window *)

(** The sample histories are ordered. *)
Ltac four_cases k :=
  let H := fresh in
  assert (H : k = 1 \/ k = 2 \/ k = 3 \/ k = 4) by lia;
  destruct H as [-> | [-> | [-> | ->]]].

Ltac history_of_four :=
  intros k1 k2 b1 b2 d1 d2 H12 H2 Hb1 Hb2 Hd1 Hd2;
  assert (0 < k1) by (destruct k1; [discriminate | lia | discriminate]);
  four_cases k1; four_cases k2; try lia;
  vm_compute in Hb1, Hb2;
  injection Hb1 as <-; injection Hb2 as <-;
  vm_compute in Hd1, Hd2;
  injection Hd1 as <-; injection Hd2 as <-; lia.

Lemma tie_job_ordered : history_ordered tie_world tie_job 4.
Proof. history_of_four. Qed.

Lemma plain_job_ordered : history_ordered plain_world plain_job 4.
Proof. history_of_four. Qed.

(** C1, as claimed, fails: in [tie_world] builds 2 and 3 started exactly at
    the cutoff. The walk fetches 4 and 3 and stops: build 2, whose timestamp
    is not before the cutoff, is not fetched, and neither is build 1, the
    only one before the cutoff. *)
Lemma walk_stops_at_cutoff :
  ~ visits_window_and_boundary (R:=re_fragment) tie_world "mojo_runner"
      tie_job 1 false.
Proof.
  unfold visits_window_and_boundary. intros H.
  destruct (H 4 eq_refl tie_job_ordered) as (b & bb & d & _ & _ & _ & Hiff).
  destruct (Hiff 2 (build 10 "FAILURE") 10000 eq_refl eq_refl)
    as [_ Hback].
  assert (Hin : 2 ∈ visited
                  (trace (run (R:=re_fragment) tie_world "mojo_runner" 1
                            false).2))
    by (apply Hback; left; vm_compute; discriminate).
  vm_compute in Hin.
  repeat (apply elem_of_cons in Hin as [Hin | Hin]; [discriminate |]).
  inversion Hin.
Qed.

(** C1, amended. The walk goes on only while the start time of the build it
    fetched is after the cutoff ([>], not [>=]), and it stops at the first
    build that is not. For a job whose start times, as the script converts
    them, do not decrease with the build number, and a cutoff [T] before
    [now]: a run that ends well has fetched, downwards from the last
    completed build [N], exactly the builds up to [N] that started after [T]
    and exactly one build that did not, the newest such, and then stopped.
    Every number from that build up to [N] is a build that exists; the ones
    below it may or may not. *)
Theorem walk_visits_window
    {R : PyRe} (w : world) (srv : gmap string job) (job_name : string)
    (j : job) (N : Z) (hours_ago : Z) (inc : bool) :
  jenkins_yaml w = Loaded srv ->
  srv !! job_name = Some j ->
  lastCompletedBuild j = Some N ->
  history_ordered w j N ->
  cutoff w hours_ago < now w ->
  (run w job_name hours_ago inc).1 = Ok tt ->
  exists b bb db,
    b <= N /\ job_build j b = Some bb /\
    fromtimestamp_ms w (timestamp bb) = inr db /\
    db <= cutoff w hours_ago /\
    visited (trace (run w job_name hours_ago inc).2) =
      countdown (Z.to_nat (N - b + 1)) N /\
    (forall k, b <= k <= N -> is_Some (job_build j k)) /\
    forall k bk dk,
      k <= N -> job_build j k = Some bk ->
      fromtimestamp_ms w (timestamp bk) = inr dk ->
      (k ∈ visited (trace (run w job_name hours_ago inc).2) <->
       cutoff w hours_ago < dk \/ k = b).
Proof.
  intros Hy Hj HN Hmono Hnow Hrun.
  assert (Hsb : forall k, server_build srv job_name k = job_build j k)
    by (intros k; unfold server_build; rewrite Hj; reflexivity).
  destruct (run_cases w job_name hours_ago inc) as [(h & srv' & Hc) | He].
  2:{ apply early_exit_raises in He as [e He]. congruence. }
  assert (srv' = srv) as ->
    by (destruct Hc as (_ & _ & Hy' & _); congruence).
  unfold run in *.
  rewrite (display_builds_for_job_start w srv h _ _ _ Hc), Hj, HN in *.
  unfold mbind, M_bind in *.
  set (st1 := connected_state h srv job_name) in *.
  set (T := cutoff w hours_ago) in *.
  destruct (walk w (walk_bound N) job_name T inc (now w) N [] st1)
    as [[statuses | e |] st2] eqn:Ew; [| discriminate | discriminate].
  destruct (walk_window w srv job_name T inc (walk_bound N) N (now w) []
              st1 statuses st2 eq_refl Hnow Ew)
    as (b & bb & db & HbN & Hb & Hdb & Hle & Hv & Habove).
  assert (Hs2 : server st2 = Some srv).
  { destruct (walk_run w srv job_name T inc (walk_bound N) N
                (now w) [] st1 eq_refl ltac:(unfold walk_bound; lia))
      as [_ (evs & (Hs & _) & _)].
    rewrite Ew in Hs. exact Hs. }
  destruct (summary_run w srv statuses st2 Hs2)
    as [_ (evs_s & (_ & _ & Ht & _) & Hvs & _)].
  assert (Hvis : visited (trace (display_build_summary w statuses st2).2) =
                 countdown (Z.to_nat (N - b + 1)) N)
    by (rewrite Ht, visited_app, Hvs, app_nil_r; exact Hv).
  rewrite Hsb in Hb.
  exists b, bb, db. split; [exact HbN |]. split; [exact Hb |].
  split; [exact Hdb |]. split; [exact Hle |]. split; [exact Hvis |]. split.
  - intros k Hk. destruct (Z.eq_dec k b) as [-> | Hne]; [eauto |].
    destruct (Habove k ltac:(lia)) as (bk & dk & Hbk & _).
    rewrite Hsb in Hbk. eauto.
  - intros k bk dk Hk Hbk Hdk. rewrite Hvis, elem_of_countdown. split.
    + intros Hin. destruct (Z.eq_dec k b) as [-> | Hne]; [auto |].
      left. destruct (Habove k ltac:(lia)) as (bk' & dk' & Hbk' & Hdk' & Hlt).
      rewrite Hsb, Hbk in Hbk'. injection Hbk' as <-.
      rewrite Hdk in Hdk'. injection Hdk' as <-. exact Hlt.
    + intros [Hafter | ->]; [| lia].
      destruct (Z_lt_le_dec k b) as [Hlt | Hge]; [| lia].
      assert (Hts := Hmono k b bk bb dk db ltac:(lia) HbN Hbk Hb Hdk Hdb).
      lia.
Qed.

Lemma walk_visits_window_witness :
  exists b bb db,
    b <= 4 /\ job_build plain_job b = Some bb /\
    fromtimestamp_ms plain_world (timestamp bb) = inr db /\
    db <= cutoff plain_world 1 /\
    visited (trace (run (R:=re_fragment) plain_world "mojo_runner" 1 false).2)
      = countdown (Z.to_nat (4 - b + 1)) 4 /\
    (forall k, b <= k <= 4 -> is_Some (job_build plain_job k)) /\
    forall k bk dk,
      k <= 4 -> job_build plain_job k = Some bk ->
      fromtimestamp_ms plain_world (timestamp bk) = inr dk ->
      (k ∈ visited
             (trace (run (R:=re_fragment) plain_world "mojo_runner" 1
                       false).2) <->
       cutoff plain_world 1 < dk \/ k = b).
Proof.
  apply (walk_visits_window (R:=re_fragment) plain_world
           {[ "mojo_runner" := plain_job ]} "mojo_runner" plain_job 4 1
           false).
  - reflexivity.
  - reflexivity.
  - reflexivity.
  - exact plain_job_ordered.
  - vm_compute. reflexivity.
  - vm_compute. reflexivity.
Defined.

(** * Further properties of the script *)

(** ** The two files are read once *)

Section CacheFacts.

Context {R : PyRe}.
Variable w : world.
Variable srv : gmap string job.

Lemma file_opens_app tr1 tr2 :
  file_opens (tr1 ++ tr2) = file_opens tr1 ++ file_opens tr2.
Proof.
  induction tr1 as [| e tr1' IH]; [reflexivity |].
  destruct e; simpl; rewrite IH; reflexivity.
Qed.

Lemma opens_spec_ret {A} (a : A) st :
  server st = Some srv -> opens_spec srv st (mret (M:=M) a st).
Proof.
  intros Hs. split; [exact Hs |]. exists [].
  split; [simpl; rewrite app_nil_r; reflexivity |]. split.
  - intros c Hc. auto.
  - intros Hc. left. auto.
Qed.

Lemma opens_spec_pure {A} (o : outcome A) st :
  server st = Some srv -> opens_spec srv st (o, st).
Proof.
  intros Hs. split; [exact Hs |]. exists [].
  split; [simpl; rewrite app_nil_r; reflexivity |]. split.
  - intros c Hc. auto.
  - intros Hc. left. auto.
Qed.

(** A call that is not the opening of a file. *)
Lemma opens_spec_call {A} (e : event) (o : outcome A) st :
  server st = Some srv ->
  file_opens [e] = [] ->
  opens_spec srv st (o, add_events st [e]).
Proof.
  intros Hs He. split; [exact Hs |]. exists [e].
  split; [reflexivity |]. split.
  - intros c Hc. auto.
  - intros Hc. left. auto.
Qed.

Lemma opens_spec_bind {A B} (m : M A) (k : A -> M B) st :
  opens_spec srv st (m st) ->
  (forall a st1, m st = (Ok a, st1) -> server st1 = Some srv ->
                 opens_spec srv st1 (k a st1)) ->
  opens_spec srv st ((m ≫= k) st).
Proof.
  intros [Hs1 (evs1 & Ht1 & Hsome1 & Hnone1)] Hk.
  unfold mbind, M_bind.
  destruct (m st) as [[a | e |] st1] eqn:Em; cbn [fst snd] in *.
  - destruct (Hk a st1 eq_refl Hs1) as [Hs2 (evs2 & Ht2 & Hsome2 & Hnone2)].
    split; [exact Hs2 |]. exists (evs1 ++ evs2).
    split; [rewrite Ht2, Ht1, app_assoc; reflexivity |].
    unfold cache_run. rewrite file_opens_app. split.
    + intros c Hc. destruct (Hsome1 c Hc) as [-> Hc1].
      destruct (Hsome2 c Hc1) as [-> Hc2]. auto.
    + intros Hc. destruct (Hnone1 Hc) as [[-> Hc1] | [-> Hc1]].
      * exact (Hnone2 Hc1).
      * right. destruct Hc1 as [[c Hc1] | [e He]]; [| discriminate].
        destruct (Hsome2 c Hc1) as [-> Hc2]. split; [reflexivity |].
        left. eauto.
  - split; [exact Hs1 |]. exists evs1. split; [exact Ht1 |]. split.
    + exact Hsome1.
    + intros Hc. destruct (Hnone1 Hc) as [H | [H _]]; [left; exact H |].
      right. split; [exact H |]. right. eauto.
  - split; [exact Hs1 |]. exists evs1. split; [exact Ht1 |]. split.
    + exact Hsome1.
    + intros Hc. destruct (Hnone1 Hc) as [H | [H [H' | [e He]]]];
        [left; exact H | | discriminate].
      right. split; [exact H |]. left. exact H'.
Qed.

Lemma get_causes_opens st :
  server st = Some srv -> opens_spec srv st (get_causes w st).
Proof.
  intros Hs. rewrite get_causes_eq.
  destruct (causes_cache st) as [c |] eqn:Ec.
  - split; [exact Hs |]. exists [].
    split; [simpl; rewrite app_nil_r; reflexivity |]. split.
    + intros c' Hc'. auto.
    + intros Hc'. congruence.
  - cbv zeta.
    assert (Hopen : forall (o : outcome catalog) st',
      server st' = Some srv ->
      trace st' = trace st ++ [OpenFile "causes.yaml"] ->
      (is_Some (causes_cache st') \/ exists e, o = Raise e) ->
      opens_spec srv st (o, st')).
    { intros o st' Hs' Ht' Hc'. split; [exact Hs' |].
      exists [OpenFile "causes.yaml"]. split; [exact Ht' |]. split.
      - intros c Hc. congruence.
      - intros _. right. auto. }
    destruct (causes_yaml w) as [| | data]; apply Hopen; try reflexivity;
      try exact Hs; cbn [fst snd]; eauto.
Qed.

Lemma search_for_cause_opens job_name n st :
  server st = Some srv ->
  opens_spec srv st (search_for_cause w job_name n st).
Proof.
  intros Hs. unfold search_for_cause.
  apply opens_spec_bind.
  { rewrite (get_server_connected w srv _ Hs). apply opens_spec_pure, Hs. }
  intros s st1 Es Hs1. apply (get_server_value w srv _ _ _ Hs) in Es as ->.
  apply opens_spec_bind.
  { replace (jenkins_get_build_console_output srv job_name n st1) with
      (match server_console srv job_name n with
       | Some output => Ok output
       | None => Raise JenkinsException
       end, add_events st1 [GetBuildConsoleOutput job_name n])
      by (unfold jenkins_get_build_console_output, mbind, M_bind, log;
          destruct (server_console srv job_name n); reflexivity).
    apply opens_spec_call; [exact Hs1 | reflexivity]. }
  intros output st2 _ Hs2.
  apply opens_spec_bind; [apply get_causes_opens, Hs2 |].
  intros causes st3 _ Hs3. apply opens_spec_pure, Hs3.
Qed.

Lemma get_build_fail_cause_opens b job_name n st :
  server st = Some srv ->
  opens_spec srv st (get_build_fail_cause w b job_name n st).
Proof.
  intros Hs. unfold get_build_fail_cause.
  destruct (String.eqb (result b) "SUCCESS").
  - apply (opens_spec_ret EmptyStr), Hs.
  - apply opens_spec_bind; [apply search_for_cause_opens, Hs |].
    intros l st1 _ Hs1. apply (opens_spec_ret (CauseList l)), Hs1.
Qed.

Lemma record_build_opens job_name T inc b n statuses st :
  server st = Some srv ->
  opens_spec srv st (record_build w job_name T inc b n statuses st).
Proof.
  intros Hs. unfold record_build.
  destruct (is_build_included b T inc);
    [| apply (opens_spec_ret statuses), Hs].
  apply opens_spec_bind; [apply get_build_fail_cause_opens, Hs |].
  intros c st2 _ Hs2. apply (opens_spec_ret _), Hs2.
Qed.

Lemma get_build_info_opens job_name n st :
  server st = Some srv ->
  opens_spec srv st (get_build_info w job_name n st).
Proof.
  intros Hs. rewrite (get_build_info_connected w srv _ _ _ Hs).
  apply opens_spec_call; [exact Hs | reflexivity].
Qed.

Lemma walk_opens job_name T inc fuel :
  forall n job_time statuses st,
    server st = Some srv ->
    opens_spec srv st (walk w fuel job_name T inc job_time n statuses st).
Proof.
  induction fuel as [| fuel' IH]; intros n job_time statuses st Hs;
    cbn [walk]; destruct (job_time >? T);
    try (apply (opens_spec_ret statuses), Hs).
  - apply opens_spec_pure, Hs.
  - apply opens_spec_bind; [apply get_build_info_opens, Hs |].
    intros b st1 _ Hs1.
    apply opens_spec_bind; [apply record_build_opens, Hs1 |].
    intros statuses' st2 _ Hs2. apply IH, Hs2.
Qed.

Lemma display_build_summary_opens statuses st :
  server st = Some srv ->
  opens_spec srv st (display_build_summary w statuses st).
Proof.
  intros Hs. unfold display_build_summary.
  apply opens_spec_bind; [apply get_causes_opens, Hs |].
  intros causes st1 _ Hs1.
  apply opens_spec_bind; [apply opens_spec_pure, Hs1 |].
  intros rows st2 _ Hs2.
  apply (opens_spec_call (PrintTable rows) (Ok tt));
    [exact Hs2 | reflexivity].
Qed.

End CacheFacts.

(** X1. Whatever the world, the job and the options, a run opens no file
    when the cutoff is no date ([OverflowError] at line 230) or [HOME] is
    not set; otherwise it opens the settings file first and once, and
    [causes.yaml] at most once after it: [get_server] keeps the connection
    in the global [server] and [get_causes] is cached, so that no later call
    reads a file again. *)
Theorem run_opens_each_file_once
    {R : PyRe} (w : world) (job_name : string) (hours_ago : Z) (inc : bool) :
  ((min_start_time_of w hours_ago = inl OverflowError \/ home w = None) /\
   file_opens (trace (run w job_name hours_ago inc).2) = []) \/
  exists h,
    min_start_time_of w hours_ago = inr (cutoff w hours_ago) /\
    home w = Some h /\
    (file_opens (trace (run w job_name hours_ago inc).2) =
       [JENKINS_SETTINGS_FILE h] \/
     file_opens (trace (run w job_name hours_ago inc).2) =
       [JENKINS_SETTINGS_FILE h; "causes.yaml"]).
Proof.
  destruct (run_cases w job_name hours_ago inc) as [(h & srv & Hc) | He].
  - right. exists h. split; [apply Hc |]. split; [apply Hc |].
    unfold run. rewrite (display_builds_for_job_start w srv h _ _ _ Hc).
    destruct (srv !! job_name) as [j |]; [| left; reflexivity].
    destruct (lastCompletedBuild j) as [N |]; [| left; reflexivity].
    set (st1 := connected_state h srv job_name).
    assert (H : opens_spec srv st1
                  ((walk w (walk_bound N) job_name (cutoff w hours_ago) inc
                      (now w) N []
                      ≫= display_build_summary w) st1)).
    { apply opens_spec_bind; [apply walk_opens; reflexivity |].
      intros statuses st2 _ Hs2. apply display_build_summary_opens, Hs2. }
    destruct H as [_ (evs & Ht & _ & Hnone)]. rewrite Ht.
    rewrite file_opens_app.
    destruct (Hnone eq_refl) as [[-> _] | [-> _]]; [left | right];
      reflexivity.
  - destruct He as [(HT & _ & H) | (HT & [(Hh & _ & H) | (h & Hh & H)])].
    + left. rewrite H. auto.
    + left. rewrite H. auto.
    + right. exists h. split; [exact HT |]. split; [exact Hh |]. left.
      destruct H as [(_ & _ & H) | [(_ & _ & H) | (s & k & _ & _ & _ & H)]];
        rewrite H; reflexivity.
Qed.

(** ** The settings file *)

(** X2. In a run whose cutoff is a date and with [HOME] set: when
    [~/.jenkins.yaml] does not exist, the run prints the six lines that tell
    how to create it and exits with status 1; it makes no remote call, reads
    no catalog and prints no table. A settings file that exists but does not
    parse gets no such help: only [FileNotFoundError] is caught, and the run
    ends with the YAML error right after opening the file. *)
Theorem settings_file_errors
    {R : PyRe} (w : world) (h : string) (job_name : string) (hours_ago : Z)
    (inc : bool) :
  min_start_time_of w hours_ago = inr (cutoff w hours_ago) ->
  home w = Some h ->
  (jenkins_yaml w = Missing ->
   run w job_name hours_ago inc =
   (Raise (SystemExit 1),
    {| server := None; causes_cache := None;
       trace := [OpenFile (h +:+ "/.jenkins.yaml");
                 Print "Jenkins config file not found";
                 Print ("Please create " +:+ h +:+ "/.jenkins.yaml");
                 Print (nl +:+ "Example Contents:");
                 Print "username: <username>";
                 Print "password: <password>";
                 Print "url: http://10.245.162.58:8080"] |}))
  /\
  (jenkins_yaml w = Malformed ->
   run w job_name hours_ago inc =
   (Raise YAMLError,
    {| server := None; causes_cache := None;
       trace := [OpenFile (h +:+ "/.jenkins.yaml")] |})).
Proof.
  intros HT Hh. unfold run. rewrite display_builds_for_job_eq, HT.
  unfold get_server, get_connection_settings, environ_HOME. rewrite Hh.
  split; intros ->; reflexivity.
Qed.

Lemma settings_file_errors_witness :
  run (R:=re_fragment) no_settings_world "mojo_runner" 1 false =
  (Raise (SystemExit 1),
   {| server := None; causes_cache := None;
      trace := [OpenFile ("/home/ci" +:+ "/.jenkins.yaml");
                Print "Jenkins config file not found";
                Print ("Please create " +:+ "/home/ci" +:+ "/.jenkins.yaml");
                Print (nl +:+ "Example Contents:");
                Print "username: <username>";
                Print "password: <password>";
                Print "url: http://10.245.162.58:8080"] |}).
Proof.
  destruct (settings_file_errors (R:=re_fragment) no_settings_world
              "/home/ci" "mojo_runner" 1 false) as [H _].
  - reflexivity.
  - reflexivity.
  - apply H. reflexivity.
Defined.

(** ** What the loop stores *)

Lemma append_inv_head (p s t : string) : p +:+ s = p +:+ t -> s = t.
Proof.
  induction p as [| c p' IH]; intros E; [exact E |].
  apply IH. injection E as E. exact E.
Qed.

Lemma status_key_inj job_name n m :
  status_key job_name n = status_key job_name m -> n = m.
Proof.
  unfold status_key. intros E. apply append_inv_head in E.
  apply (append_inv_head "_") in E. apply pretty_Z_inj in E. exact E.
Qed.

(** Storing under a key that is not there appends. *)
Lemma dict_set_fresh {V} k (v : V) d :
  (forall e, e ∈ d -> e.1 <> k) -> dict_set k v d = d ++ [(k, v)].
Proof.
  induction d as [| [k' v'] d' IH]; intros Hfresh; simpl; [reflexivity |].
  assert (Hne : k' <> k) by (apply (Hfresh (k', v')); left).
  replace (String.eqb k k') with false
    by (symmetry; apply String.eqb_neq; congruence).
  rewrite IH; [reflexivity |]. intros e He. apply Hfresh. right. exact He.
Qed.

Section StatusFacts.

Context {R : PyRe}.
Variable w : world.
Variable srv : gmap string job.

(** A filled cache is kept by every call. *)
Lemma opens_spec_cache {A} st (r : outcome A * state) c :
  opens_spec srv st r -> causes_cache st = Some c ->
  causes_cache r.2 = Some c.
Proof. intros [_ (evs & _ & Hsome & _)] Hc. apply (Hsome c Hc). Qed.

Lemma status_ok_cache job_name T inc st st' entry :
  (forall c, causes_cache st = Some c -> causes_cache st' = Some c) ->
  status_ok w srv job_name T inc st entry ->
  status_ok w srv job_name T inc st' entry.
Proof.
  intros Hkeep (Hk & Hb & Hi & Hc). repeat (split; [assumption |]).
  destruct (bs_cause_info entry.2) as [| l]; [exact Hc |].
  destruct Hc as (c & Hc & Hok). eauto.
Qed.

(** What [search_for_cause] returns: the classification of the console text
    of the build with the cached catalog. *)
Lemma search_for_cause_result job_name n st l st' :
  server st = Some srv ->
  search_for_cause w job_name n st = (Ok l, st') ->
  exists output c,
    server_console srv job_name n = Some output /\
    causes_cache st' = Some c /\ classify output c = Ok l.
Proof.
  intros Hs. rewrite (search_for_cause_connected w srv _ _ _ Hs). cbv zeta.
  destruct (server_console srv job_name n) as [output |]; [| discriminate].
  rewrite get_causes_eq. cbn [causes_cache add_events].
  destruct (causes_cache st) as [c |] eqn:Ec.
  - intros E. injection E as E <-. exists output, c. auto.
  - cbv zeta. destruct (causes_yaml w) as [| | data];
      [discriminate | discriminate |].
    intros E. injection E as E <-. exists output, data. auto.
Qed.

(** What [get_build_fail_cause] returns. *)
Lemma get_build_fail_cause_result b job_name n st ci st' :
  server st = Some srv ->
  get_build_fail_cause w b job_name n st = (Ok ci, st') ->
  match ci with
  | EmptyStr => result b = "SUCCESS"
  | CauseList l =>
      result b <> "SUCCESS" /\
      exists output c,
        server_console srv job_name n = Some output /\
        causes_cache st' = Some c /\ classify output c = Ok l
  end.
Proof.
  intros Hs. unfold get_build_fail_cause.
  destruct (String.eqb_spec (result b) "SUCCESS") as [Hres | Hres].
  - intros E. injection E as <- <-. exact Hres.
  - unfold mbind, M_bind.
    destruct (search_for_cause w job_name n st) as [[l | e |] st2] eqn:Es;
      [| discriminate | discriminate].
    intros E. injection E as <- <-. split; [exact Hres |].
    exact (search_for_cause_result _ _ _ _ _ Hs Es).
Qed.

Lemma status_numbers_app (d1 d2 : list (string * build_status)) :
  status_numbers (d1 ++ d2) = status_numbers d1 ++ status_numbers d2.
Proof. unfold status_numbers. rewrite !fmap_app. reflexivity. Qed.

Lemma included_number_fetched job_name T inc n b0 d :
  server_build srv job_name n = Some b0 ->
  fromtimestamp_ms w (timestamp b0) = inr d ->
  included_number w srv job_name T inc n =
  is_build_included (with_timestamp b0 d) T inc.
Proof.
  intros Hb Hd. unfold included_number, converted. rewrite Hb, Hd.
  reflexivity.
Qed.

(** The [if is_build_included(...)] block keeps the entries in order: the
    new one, if any, goes last under a new key. *)
Lemma record_build_statuses job_name T inc b0 d n statuses st statuses' st' :
  server st = Some srv ->
  server_build srv job_name n = Some b0 ->
  fromtimestamp_ms w (timestamp b0) = inr d ->
  Forall (status_ok w srv job_name T inc st) statuses ->
  descending (status_numbers statuses) ->
  (forall m, m ∈ status_numbers statuses -> n < m) ->
  record_build w job_name T inc (with_timestamp b0 d) n statuses st =
    (Ok statuses', st') ->
  Forall (status_ok w srv job_name T inc st') statuses' /\
  descending (status_numbers statuses') /\
  (forall m, m ∈ status_numbers statuses' -> n <= m) /\
  status_numbers statuses' =
    status_numbers statuses ++
    List.filter (included_number w srv job_name T inc) [n].
Proof.
  intros Hs Hb0 Hd Hok Hdesc Habove Hrec.
  set (b := with_timestamp b0 d) in *.
  assert (Hkeep : forall c, causes_cache st = Some c ->
                            causes_cache st' = Some c).
  { intros c Hc.
    assert (H := opens_spec_cache _ _ c
                   (record_build_opens w srv job_name T inc b n statuses st Hs)
                   Hc).
    rewrite Hrec in H. exact H. }
  assert (Hold : Forall (status_ok w srv job_name T inc st') statuses).
  { eapply Forall_impl; [exact Hok |].
    intros e. apply status_ok_cache, Hkeep. }
  cbn [List.filter].
  rewrite (included_number_fetched job_name T inc n b0 d Hb0 Hd). fold b.
  unfold record_build in Hrec.
  destruct (is_build_included b T inc) eqn:Einc.
  2:{ injection Hrec as <- <-. split; [exact Hok |]. split; [exact Hdesc |].
      split; [| rewrite app_nil_r; reflexivity].
      intros m Hm. apply Habove in Hm. lia. }
  unfold mbind, M_bind in Hrec.
  destruct (get_build_fail_cause w b job_name n st) as [[ci | e |] st2] eqn:Eg;
    [| discriminate | discriminate].
  injection Hrec as <- <-.
  assert (Hci := get_build_fail_cause_result _ _ _ _ _ _ Hs Eg).
  rewrite dict_set_fresh.
  2:{ intros [k bs] Hin Hk. rewrite Forall_forall in Hok.
      destruct (Hok _ Hin) as (Hkey & _). simpl in Hkey, Hk.
      rewrite Hkey in Hk. apply status_key_inj in Hk.
      assert (Hm : bs_build_number bs ∈ status_numbers statuses).
      { unfold status_numbers. apply list_elem_of_fmap. exists bs.
        split; [reflexivity |]. apply list_elem_of_fmap. exists (k, bs).
        auto. }
      apply Habove in Hm. lia. }
  split; [| split; [| split]].
  - apply Forall_app. split; [exact Hold |]. constructor; [| constructor].
    split; [reflexivity |]. split.
    { split; [reflexivity |]. exists b0. split; [exact Hb0 |].
      unfold converted. cbn [bs_build_info]. rewrite Hd. reflexivity. }
    split; [exact Einc |]. cbn [snd bs_cause_info bs_build_info].
    destruct ci as [| l]; [exact Hci |].
    destruct Hci as (Hres & output & c & Ho & Hc & Hcl).
    exists c. split; [exact Hc |]. unfold cause_ok.
    cbn [bs_cause_info bs_build_info bs_build_number]. eauto.
  - rewrite status_numbers_app. apply StronglySorted_app_2.
    + intros x1 x2 H1 H2. apply list_elem_of_singleton in H2 as ->.
      apply Habove, H1.
    + exact Hdesc.
    + repeat constructor.
  - intros m Hm. rewrite status_numbers_app in Hm.
    apply elem_of_app in Hm as [Hm | Hm].
    + apply Habove in Hm. lia.
    + apply list_elem_of_singleton in Hm as ->. simpl. lia.
  - rewrite status_numbers_app. reflexivity.
Qed.

(** The loop keeps [status_ok] and the order of the stored builds, and it
    stores the builds it fetched that pass [is_build_included], no other and
    each of them. *)
Lemma walk_statuses job_name T inc fuel :
  forall n job_time statuses st statuses' st',
    server st = Some srv ->
    Forall (status_ok w srv job_name T inc st) statuses ->
    descending (status_numbers statuses) ->
    (forall m, m ∈ status_numbers statuses -> n < m) ->
    walk w fuel job_name T inc job_time n statuses st = (Ok statuses', st') ->
    server st' = Some srv /\
    Forall (status_ok w srv job_name T inc st') statuses' /\
    descending (status_numbers statuses') /\
    exists len,
      visited (trace st') = visited (trace st) ++ countdown len n /\
      status_numbers statuses' =
        status_numbers statuses ++
        List.filter (included_number w srv job_name T inc) (countdown len n).
Proof.
  induction fuel as [| fuel' IH];
    intros n job_time statuses st statuses' st' Hs Hok Hdesc Habove Hw.
  - cbn [walk] in Hw. destruct (job_time >? T); [discriminate |].
    injection Hw as <- <-. repeat (split; [assumption |]).
    exists O. simpl. rewrite !app_nil_r. auto.
  - rewrite (walk_step w srv _ _ _ _ _ _ _ _ Hs) in Hw.
    destruct (job_time >? T).
    2:{ injection Hw as <- <-. repeat (split; [assumption |]).
        exists O. simpl. rewrite !app_nil_r. auto. }
    cbv zeta in Hw.
    set (st1 := add_events st [GetBuildInfo job_name n]) in Hw.
    assert (Hv1 : visited (trace st1) = visited (trace st) ++ [n])
      by (unfold st1; simpl; rewrite visited_app; reflexivity).
    destruct (server_build srv job_name n) as [b0 |] eqn:Eb0;
      [| discriminate].
    destruct (fromtimestamp_ms w (timestamp b0)) as [e | d] eqn:Ed;
      [discriminate |].
    set (b := with_timestamp b0 d) in Hw.
    destruct (record_build_visited w srv job_name T inc b n statuses st1 Hs)
      as (_ & Hs2 & Hv2).
    destruct (record_build w job_name T inc b n statuses st1)
      as [[statuses2 | e |] st2] eqn:Er; [| discriminate | discriminate].
    cbn [fst snd] in Hs2, Hv2.
    destruct (record_build_statuses job_name T inc b0 d n statuses st1
                statuses2 st2 Hs Eb0 Ed Hok Hdesc Habove Er)
      as (Hok2 & Hd2 & Hab2 & Hn2).
    destruct (IH (n - 1) d statuses2 st2 statuses' st' Hs2 Hok2 Hd2)
      as (Hs' & Hok' & Hd' & len & Hv' & Hn'); [| exact Hw |].
    { intros m Hm. apply Hab2 in Hm. lia. }
    split; [exact Hs' |]. split; [exact Hok' |]. split; [exact Hd' |].
    exists (S len). split.
    + rewrite Hv', Hv2, Hv1, <- app_assoc. reflexivity.
    + rewrite Hn', Hn2, <- app_assoc. f_equal.
      change (countdown (S len) n) with ([n] ++ countdown len (n - 1)).
      rewrite List.filter_app. reflexivity.
Qed.

End StatusFacts.
(** ** The table *)

Lemma dict_get_name (causes : catalog) x :
  x ∈ causes.*1 -> is_Some (dict_get x causes).
Proof.
  induction causes as [| [k v] causes' IH]; simpl; intros Hx.
  - inversion Hx.
  - destruct (String.eqb_spec x k) as [-> | Hne]; [eauto |].
    apply IH. apply elem_of_cons in Hx as [Hx | Hx]; [contradiction | auto].
Qed.

Lemma bug_urls_of_ok causes l :
  (forall x, x ∈ l -> x ∈ causes.*1) ->
  bug_urls_of causes l = Ok (bug_url_of causes <$> l).
Proof.
  induction l as [| c rest IH]; intros Hl; simpl; [reflexivity |].
  destruct (dict_get_name causes c ltac:(apply Hl; left)) as [data Hd].
  unfold bug_url_of at 1. rewrite Hd.
  rewrite IH by (intros x Hx; apply Hl; right; exact Hx). reflexivity.
Qed.

Lemma bug_urls_of_missing causes l x :
  x ∈ l -> dict_get x causes = None ->
  exists y, y ∈ l /\ dict_get y causes = None /\
            bug_urls_of causes l = Raise (KeyError y).
Proof.
  induction l as [| c rest IH]; intros Hx Hnone; [inversion Hx |].
  simpl. destruct (dict_get c causes) as [data |] eqn:Ec.
  - apply elem_of_cons in Hx as [-> | Hx]; [congruence |].
    destruct (IH Hx Hnone) as (y & Hy & Hyn & ->).
    exists y. split; [right; exact Hy | auto].
  - exists c. split; [left | auto].
Qed.

Lemma summary_rows_ok causes values : forall rows,
  (forall bs x, bs ∈ values -> x ∈ cause_names (bs_cause_info bs) ->
                x ∈ causes.*1) ->
  summary_rows causes values rows =
  Ok (rows ++ (report_row causes <$> values)).
Proof.
  induction values as [| bs values' IH]; intros rows Hn; simpl.
  - rewrite app_nil_r. reflexivity.
  - rewrite bug_urls_of_ok by (intros x Hx; apply (Hn bs); [left | exact Hx]).
    rewrite IH by (intros bs' x Hbs; apply Hn; right; exact Hbs).
    rewrite <- app_assoc. reflexivity.
Qed.

Lemma summary_rows_missing causes values : forall rows bs x,
  bs ∈ values -> x ∈ cause_names (bs_cause_info bs) ->
  dict_get x causes = None ->
  exists y, dict_get y causes = None /\
            summary_rows causes values rows = Raise (KeyError y).
Proof.
  induction values as [| v values' IH]; intros rows bs x Hbs Hx Hnone;
    [inversion Hbs |].
  simpl.
  destruct (bug_urls_of causes (cause_names (bs_cause_info v)))
    as [urls | e |] eqn:Eu.
  - apply elem_of_cons in Hbs as [-> | Hbs]; [| eauto].
    destruct (bug_urls_of_missing causes _ x Hx Hnone) as (y & _ & _ & Ey).
    congruence.
  - assert (Hall : ~ forall y, y ∈ cause_names (bs_cause_info v) ->
                               y ∈ causes.*1)
      by (intros Hall; rewrite (bug_urls_of_ok _ _ Hall) in Eu; discriminate).
    clear IH. revert e Eu Hall.
    induction (cause_names (bs_cause_info v)) as [| c rest IHl];
      intros e Eu Hall; simpl in Eu; [discriminate |].
    destruct (dict_get c causes) as [data |] eqn:Ec.
    + destruct (bug_urls_of causes rest) as [urls | e' |] eqn:Er;
        [discriminate | | discriminate].
      injection Eu as <-. apply (IHl e' eq_refl).
      intros Hrest. apply Hall. intros y Hy.
      apply elem_of_cons in Hy as [-> | Hy]; [| auto].
      apply list_elem_of_fmap.
      assert (Hk : exists data', (c, data') ∈ causes).
      { clear -Ec. induction causes as [| [k v0] cs IHc]; simpl in Ec;
          [discriminate |].
        destruct (String.eqb_spec c k) as [-> | Hne].
        - exists v0. left.
        - destruct (IHc Ec) as [d Hd]. exists d. right. exact Hd. }
      destruct Hk as [data' Hk]. exists (c, data'). auto.
    + injection Eu as <-. eauto.
  - destruct (bug_urls_of_finishes causes _ Eu).
Qed.

(** X3. [display_build_summary] with the catalog in the cache and every
    stored cause a name of it: it prints one table, the header followed by
    one row per stored build in the order of the dict, each with its
    causes, and their bug URLs (empty when there is none) joined by
    newlines. When a stored cause is not in the catalog it raises
    [KeyError] and prints nothing. *)
Theorem display_build_summary_table
    {R : PyRe} (w : world) (statuses : list (string * build_status))
    (st : state) (causes : catalog) :
  causes_cache st = Some causes ->
  ((forall bs x, bs ∈ statuses.*2 -> x ∈ cause_names (bs_cause_info bs) ->
                 x ∈ causes.*1) ->
   display_build_summary w statuses st =
   (Ok tt,
    add_events st
      [PrintTable (header :: (report_row causes <$> statuses.*2))]))
  /\ (forall bs x,
        bs ∈ statuses.*2 -> x ∈ cause_names (bs_cause_info bs) ->
        dict_get x causes = None ->
        exists y, dict_get y causes = None /\
                  display_build_summary w statuses st =
                  (Raise (KeyError y), st)).
Proof.
  intros Hc.
  assert (E : display_build_summary w statuses st =
              match summary_rows causes (statuses.*2) [header] with
              | Ok rows => (Ok tt, add_events st [PrintTable rows])
              | Raise e => (Raise e, st)
              | Unfinished => (Unfinished, st)
              end).
  { unfold display_build_summary. unfold mbind at 1, M_bind at 1.
    rewrite get_causes_eq, Hc. unfold mbind, M_bind, lift, log.
    destruct (summary_rows causes (statuses.*2) [header]); reflexivity. }
  rewrite E. split.
  - intros Hn. rewrite (summary_rows_ok _ _ _ Hn). reflexivity.
  - intros bs x Hbs Hx Hnone.
    destruct (summary_rows_missing causes _ [header] bs x Hbs Hx Hnone)
      as (y & Hy & ->).
    eauto.
Qed.

(** ** The report of a run *)

Section ReportFacts.

Context {R : PyRe}.
Variable w : world.
Variable srv : gmap string job.

Lemma no_key_error_bind {A B} (m : M A) (k : A -> M B) st :
  no_key_error (m st).1 ->
  (forall a st1, m st = (Ok a, st1) -> no_key_error (k a st1).1) ->
  no_key_error ((m ≫= k) st).1.
Proof.
  intros Hm Hk. unfold mbind, M_bind.
  destruct (m st) as [[a | e |] st1]; cbn [fst] in *.
  - apply Hk. reflexivity.
  - intros x E. apply (Hm x). congruence.
  - discriminate.
Qed.

Lemma record_build_no_key_error job_name T inc b n statuses st :
  server st = Some srv ->
  no_key_error (record_build w job_name T inc b n statuses st).1.
Proof.
  intros Hs. unfold record_build, get_build_fail_cause.
  destruct (is_build_included b T inc); [| discriminate].
  apply no_key_error_bind; [| discriminate].
  destruct (String.eqb (result b) "SUCCESS"); [discriminate |].
  apply no_key_error_bind; [| discriminate].
  rewrite (search_for_cause_connected w srv _ _ _ Hs). cbv zeta.
  destruct (server_console srv job_name n) as [output |]; [| discriminate].
  rewrite get_causes_eq. cbn [causes_cache add_events].
  assert (Hcl : forall causes (st' : state),
                  no_key_error (classify output causes, st').1).
  { intros causes st' x E. assert (H := classify_spec output causes).
    cbn [fst] in E. rewrite E in H.
    destruct H as (_ & _ & pat & Hp & _). discriminate. }
  destruct (causes_cache st) as [c |]; [apply Hcl |]. cbv zeta.
  destruct (causes_yaml w); [discriminate | discriminate | apply Hcl].
Qed.

Lemma walk_no_key_error job_name T inc fuel :
  forall n job_time statuses st,
    server st = Some srv ->
    no_key_error (walk w fuel job_name T inc job_time n statuses st).1.
Proof.
  induction fuel as [| fuel' IH]; intros n job_time statuses st Hs.
  - cbn [walk]. destruct (job_time >? T); discriminate.
  - rewrite (walk_step w srv _ _ _ _ _ _ _ _ Hs).
    destruct (job_time >? T); [| discriminate]. cbv zeta.
    set (st1 := add_events st [GetBuildInfo job_name n]).
    destruct (server_build srv job_name n) as [b0 |]; [| discriminate].
    destruct (fromtimestamp_ms w (timestamp b0)) as [e | d];
      [destruct e; discriminate |].
    set (b := with_timestamp b0 d).
    assert (Hr := record_build_no_key_error job_name T inc b n statuses st1 Hs).
    destruct (record_build_opens w srv job_name T inc b n statuses st1 Hs)
      as [Hs2 _].
    destruct (record_build w job_name T inc b n statuses st1)
      as [[statuses2 | e |] st2]; cbn [fst snd] in *;
      [apply IH, Hs2 | exact Hr | discriminate].
Qed.

Lemma display_build_summary_eq statuses st :
  display_build_summary w statuses st =
  match get_causes w st with
  | (Ok causes, st1) =>
      match summary_rows causes (statuses.*2) [header] with
      | Ok rows => (Ok tt, add_events st1 [PrintTable rows])
      | Raise e => (Raise e, st1)
      | Unfinished => (Unfinished, st1)
      end
  | (Raise e, st1) => (Raise e, st1)
  | (Unfinished, st1) => (Unfinished, st1)
  end.
Proof.
  unfold display_build_summary. unfold mbind at 1, M_bind at 1.
  destruct (get_causes w st) as [[causes | e |] st1]; [| reflexivity ..].
  unfold mbind, M_bind, lift, log.
  destruct (summary_rows causes (statuses.*2) [header]); reflexivity.
Qed.

Lemma is_build_included_true b T inc :
  is_build_included b T inc = true ->
  T <= timestamp b /\ (result b = "SUCCESS" -> inc = true).
Proof.
  unfold is_build_included.
  destruct (Z.ltb_spec (timestamp b) T); [discriminate |].
  destruct (String.eqb_spec (result b) "SUCCESS") as [Hres | Hres].
  - destruct inc; [auto | discriminate].
  - intros _. split; [lia | contradiction].
Qed.

(** The names of a classification are names of the catalog. *)
Lemma cause_ok_names job_name causes bs x :
  cause_ok srv job_name causes bs ->
  x ∈ cause_names (bs_cause_info bs) -> x ∈ causes.*1.
Proof.
  unfold cause_ok. destruct (bs_cause_info bs) as [| l]; simpl.
  - intros _ Hx. inversion Hx.
  - intros (_ & output & _ & Hcl) Hx.
    assert (H := classify_spec output causes). rewrite Hcl in H.
    destruct H as (_ & _ & Hmem).
    destruct (proj1 (Hmem x) Hx) as (data & Hin & _).
    apply list_elem_of_fmap. exists (x, data). auto.
Qed.

(** The summary after a walk that stored [statuses]: the catalog is the one
    of the file, cached or read now, and no name is missing from it. *)
Lemma summary_after_walk job_name T inc statuses st :
  server st = Some srv ->
  cache_from_file w st ->
  Forall (status_ok w srv job_name T inc st) statuses ->
  let r := display_build_summary w statuses st in
  no_key_error r.1 /\
  forall rows, PrintTable rows ∈ trace r.2 -> PrintTable rows ∉ trace st ->
    exists causes,
      causes_yaml w = Loaded causes /\
      rows = header :: (report_row causes <$> statuses.*2) /\
      Forall (reported_ok w srv job_name T inc causes) (statuses.*2).
Proof.
  intros Hs Hfile Hok. cbv zeta.
  rewrite display_build_summary_eq, get_causes_eq.
  assert (Hrep : forall causes st1 (evs : list event),
    trace st1 = trace st ++ evs ->
    (forall rows, PrintTable rows ∉ evs) ->
    (forall c, causes_cache st = Some c -> c = causes) ->
    causes_yaml w = Loaded causes ->
    let r := match summary_rows causes (statuses.*2) [header] with
             | Ok rows => (Ok tt, add_events st1 [PrintTable rows])
             | Raise e => (Raise e, st1)
             | Unfinished => (Unfinished, st1)
             end in
    no_key_error r.1 /\
    forall rows,
      PrintTable rows ∈ trace r.2 -> PrintTable rows ∉ trace st ->
      exists causes',
        causes_yaml w = Loaded causes' /\
        rows = header :: (report_row causes' <$> statuses.*2) /\
        Forall (reported_ok w srv job_name T inc causes') (statuses.*2)).
  { intros causes st1 evs Ht Hevs Hcache Hy.
    assert (Hnames : Forall (reported_ok w srv job_name T inc causes)
                       (statuses.*2)).
    { rewrite Forall_fmap. eapply Forall_impl; [exact Hok |].
      intros [k bs] (_ & Hb & Hi & Hc). simpl in *.
      destruct (is_build_included_true _ _ _ Hi) as [Hts Hinc].
      assert (Hcause : cause_ok srv job_name causes bs).
      { unfold cause_ok. destruct (bs_cause_info bs) as [| l] eqn:Eci;
          [exact Hc |].
        destruct Hc as (c & Hc & Hcok). rewrite <- (Hcache c Hc).
        unfold cause_ok in Hcok. rewrite Eci in Hcok. exact Hcok. }
      split; [exact Hb |]. split; [exact Hts |]. split.
      { intros Hres. split; [auto |].
        unfold cause_ok in Hcause.
        destruct (bs_cause_info bs) as [| l]; [reflexivity |].
        destruct Hcause as [Hne _]. contradiction. }
      split; [exact Hcause |].
      intros x Hx. exact (cause_ok_names _ _ _ _ Hcause Hx). }
    rewrite summary_rows_ok.
    2:{ intros bs x Hbs Hx. rewrite Forall_forall in Hnames.
        apply (Hnames bs Hbs). exact Hx. }
    cbv zeta. cbn [fst snd]. split; [discriminate |].
    intros rows Hin Hnot. exists causes. split; [exact Hy |].
    split; [| exact Hnames].
    simpl in Hin. rewrite Ht in Hin.
    apply elem_of_app in Hin as [Hin | Hin].
    - apply elem_of_app in Hin as [Hin | Hin]; [contradiction |].
      destruct (Hevs rows Hin).
    - apply list_elem_of_singleton in Hin. injection Hin as ->.
      reflexivity. }
  destruct (causes_cache st) as [c |] eqn:Ec.
  - destruct Hfile as [Hnone | (data & Hy & Hc)]; [congruence |].
    apply (Hrep c st []).
    + rewrite app_nil_r. reflexivity.
    + intros rows H. inversion H.
    + congruence.
    + congruence.
  - cbv zeta. destruct (causes_yaml w) as [| | data] eqn:Ey.
    + cbn [fst snd]. split; [discriminate |]. intros rows Hin Hnot.
      simpl in Hin. apply elem_of_app in Hin as [Hin | Hin];
        [contradiction |].
      apply list_elem_of_singleton in Hin. discriminate.
    + cbn [fst snd]. split; [discriminate |]. intros rows Hin Hnot.
      simpl in Hin. apply elem_of_app in Hin as [Hin | Hin];
        [contradiction |].
      apply list_elem_of_singleton in Hin. discriminate.
    + apply (Hrep data _ [OpenFile "causes.yaml"]).
      * reflexivity.
      * intros rows H. apply list_elem_of_singleton in H. discriminate.
      * discriminate.
      * reflexivity.
Qed.

(** A run that got to the server does not end with [KeyError], and a table
    it prints shows what the loop stored. *)
Lemma connected_run_report h job_name hours_ago inc :
  connects w hours_ago h srv ->
  no_key_error (run w job_name hours_ago inc).1 /\
  forall rows,
    PrintTable rows ∈ trace (run w job_name hours_ago inc).2 ->
    exists causes statuses,
      causes_yaml w = Loaded causes /\
      rows = header :: (report_row causes <$> statuses.*2) /\
      Forall (reported_ok w srv job_name (cutoff w hours_ago) inc causes)
        (statuses.*2) /\
      descending (status_numbers statuses) /\
      status_numbers statuses =
        List.filter (included_number w srv job_name (cutoff w hours_ago) inc)
          (visited (trace (run w job_name hours_ago inc).2)).
Proof.
  intros Hc. unfold run.
  rewrite (display_builds_for_job_start w srv h _ _ _ Hc).
  assert (Hst1 : forall rows,
            PrintTable rows ∉ trace (connected_state h srv job_name)).
  { intros rows H. simpl in H.
    repeat (apply elem_of_cons in H as [H | H]; [discriminate |]).
    inversion H. }
  destruct (srv !! job_name) as [j |];
    [| split; [discriminate | intros rows H; destruct (Hst1 rows H)]].
  destruct (lastCompletedBuild j) as [N |];
    [| split; [discriminate | intros rows H; destruct (Hst1 rows H)]].
  set (st1 := connected_state h srv job_name) in *.
  set (T := cutoff w hours_ago).
  destruct (walk_run w srv job_name T inc (walk_bound N)
              N (now w) [] st1 eq_refl ltac:(unfold walk_bound; lia))
    as [_ (evs & (_ & Hcache & Ht & _) & Hw)].
  assert (Hk := walk_no_key_error job_name T inc (walk_bound N) N (now w) []
                  st1 eq_refl).
  assert (Hwalk := walk_statuses w srv job_name T inc
                     (walk_bound N) N (now w) [] st1).
  unfold mbind, M_bind.
  destruct (walk w (walk_bound N) job_name T inc (now w)
              N [] st1) as [[statuses | e |] st2]; cbn [fst snd] in *.
  - destruct (Hwalk statuses st2 eq_refl)
      as (Hs2 & Hok & Hdesc & len & Hv & Hn);
      [constructor | constructor | intros m Hm; inversion Hm | reflexivity |].
    assert (Hfile : cache_from_file w st2).
    { destruct Hcache as [Hsame | Hfilled]; [left | right; exact Hfilled].
      rewrite Hsame. reflexivity. }
    destruct (summary_after_walk job_name T inc statuses st2 Hs2 Hfile Hok)
      as [Hnk Hrows].
    split; [exact Hnk |]. intros rows Hin.
    destruct (Hrows rows Hin) as (causes & Hy & Hr & Hrep).
    { rewrite Ht. intros H. apply elem_of_app in H as [H | H];
        [destruct (Hst1 rows H) |].
      exact (walk_events_not_table _ _ Hw H). }
    exists causes, statuses. split; [exact Hy |]. split; [exact Hr |].
    split; [exact Hrep |]. split; [exact Hdesc |].
    destruct (summary_run w srv statuses st2 Hs2)
      as [_ (evs_s & (_ & _ & Hts & _) & Hvs & _)].
    rewrite Hts, visited_app, Hvs, app_nil_r, Hn, Hv. reflexivity.
  - split; [intros x E; injection E as ->; exact (Hk x eq_refl) |].
    intros rows Hin. exfalso. rewrite Ht in Hin.
    apply elem_of_app in Hin as [H | H];
      [destruct (Hst1 rows H) | exact (walk_events_not_table _ _ Hw H)].
  - split; [discriminate |].
    intros rows Hin. exfalso. rewrite Ht in Hin.
    apply elem_of_app in Hin as [H | H];
      [destruct (Hst1 rows H) | exact (walk_events_not_table _ _ Hw H)].
Qed.

End ReportFacts.

Lemma row_number_report_row causes bs :
  row_number (report_row causes bs) = Some (bs_build_number bs).
Proof. reflexivity. Qed.

Lemma omap_row_number_rows causes (values : list build_status) :
  omap row_number (header :: (report_row causes <$> values)) =
  bs_build_number <$> values.
Proof.
  change (omap row_number (header :: (report_row causes <$> values)))
    with (omap row_number (report_row causes <$> values)).
  induction values as [| bs values' IH]; [reflexivity |].
  rewrite !fmap_cons.
  change (omap row_number (report_row causes bs
                             :: (report_row causes <$> values')))
    with (bs_build_number bs
            :: omap row_number (report_row causes <$> values')).
  rewrite IH. reflexivity.
Qed.

(** A table printed by a run shows what the loop stored: the builds it
    fetched that pass [is_build_included], in the order it fetched them. *)
Lemma run_report {R : PyRe} w job_name hours_ago inc rows :
  PrintTable rows ∈ trace (run w job_name hours_ago inc).2 ->
  exists srv causes statuses,
    jenkins_yaml w = Loaded srv /\
    causes_yaml w = Loaded causes /\
    rows = header :: (report_row causes <$> statuses.*2) /\
    Forall (reported_ok w srv job_name (cutoff w hours_ago) inc causes)
      (statuses.*2) /\
    descending (status_numbers statuses) /\
    status_numbers statuses =
      List.filter (included_number w srv job_name (cutoff w hours_ago) inc)
        (visited (trace (run w job_name hours_ago inc).2)).
Proof.
  intros Hin.
  destruct (run_cases w job_name hours_ago inc) as [(h & srv & Hc) | He].
  - destruct (connected_run_report w srv h job_name hours_ago inc Hc)
      as [_ Hrows].
    destruct (Hrows rows Hin) as (causes & statuses & H).
    exists srv, causes, statuses. split; [apply Hc | exact H].
  - destruct (early_exit_no_report _ _ _ He). exists rows. exact Hin.
Qed.

(** ** Inclusion in the report *)


Lemma plain_report_printed :
  PrintTable plain_report
    ∈ trace (run (R:=re_fragment) plain_world "mojo_runner" 1 false).2.
Proof. apply list_elem_of_lookup. exists 9%nat. vm_compute. reflexivity. Qed.

(** The run over [plain_world] fetches builds 4 to 1 and reports 4 and 2:
    build 3 succeeded and build 1 started before the cutoff. *)
Example plain_report_numbers :
  visited (trace (run (R:=re_fragment) plain_world "mojo_runner" 1 false).2)
    = [4; 3; 2; 1] /\
  omap row_number plain_report = [4; 2].
Proof. split; vm_compute; reflexivity. Qed.


(** X4. A run ends with [KeyError] only before it has a server: when [HOME]
    is not set, before any file is opened, or when the settings lack [url],
    [username] or [password], right after the settings file was opened. Once
    the server is known no [KeyError] can follow: the causes stored for a
    build come from the cached catalog, and [display_build_summary] looks
    their bug data up in the same catalog. *)
Theorem key_error_is_from_settings
    {R : PyRe} (w : world) (job_name : string) (hours_ago : Z) (inc : bool)
    (key : string) :
  (run w job_name hours_ago inc).1 = Raise (KeyError key) ->
  (key = "HOME" /\ home w = None /\
   trace (run w job_name hours_ago inc).2 = []) \/
  (missing_key w = Some key /\
   exists h,
     home w = Some h /\
     trace (run w job_name hours_ago inc).2 =
       [OpenFile (JENKINS_SETTINGS_FILE h)]).
Proof.
  intros Hrun.
  destruct (run_cases w job_name hours_ago inc) as [(h & srv & Hc) | He].
  - destruct (connected_run_report w srv h job_name hours_ago inc Hc)
      as [Hnk _].
    destruct (Hnk key Hrun).
  - destruct He as [(_ & H & _) | (_ & [(Hh & H & Ht) | (h & Hh & H)])].
    + congruence.
    + left. rewrite Hrun in H. injection H as ->. auto.
    + destruct H as [(_ & H & _) | [(_ & H & _) | (s & k & _ & Hk & H & Ht)]];
        [congruence | congruence |].
      right. rewrite Hrun in H. injection H as ->. eauto.
Qed.

Lemma key_error_is_from_settings_witness :
  ("url" = "HOME" /\ home no_url_world = None /\
   trace (run (R:=re_fragment) no_url_world "mojo_runner" 1 false).2 = []) \/
  (missing_key no_url_world = Some "url" /\
   exists h,
     home no_url_world = Some h /\
     trace (run (R:=re_fragment) no_url_world "mojo_runner" 1 false).2 =
       [OpenFile (JENKINS_SETTINGS_FILE h)]).
Proof.
  apply (key_error_is_from_settings (R:=re_fragment) no_url_world
           "mojo_runner" 1 false "url").
  vm_compute. reflexivity.
Defined.


(** X6. The rows of a table that a run prints are in strictly decreasing
    order of build number: a build is in the report at most once, newest
    first. *)
Theorem report_rows_descend
    {R : PyRe} (w : world) (job_name : string) (hours_ago : Z) (inc : bool)
    (rows : list (list cell)) :
  PrintTable rows ∈ trace (run w job_name hours_ago inc).2 ->
  descending (omap row_number rows).
Proof.
  intros Hin.
  destruct (run_report w job_name hours_ago inc rows Hin)
    as (srv & causes & statuses & _ & _ & -> & _ & Hdesc & _).
  rewrite omap_row_number_rows. exact Hdesc.
Qed.

Lemma display_build_summary_table_witness :
  ((forall bs x,
      bs ∈ [("mojo_runner_2", oom_status)].*2 ->
      x ∈ cause_names (bs_cause_info bs) -> x ∈ sample_catalog.*1) ->
   display_build_summary (world_of plain_job Missing)
     [("mojo_runner_2", oom_status)] cached_state =
   (Ok tt,
    add_events cached_state
      [PrintTable
         (header :: (report_row sample_catalog
                       <$> [("mojo_runner_2", oom_status)].*2))]))
  /\ (forall bs x,
        bs ∈ [("mojo_runner_2", oom_status)].*2 ->
        x ∈ cause_names (bs_cause_info bs) ->
        dict_get x sample_catalog = None ->
        exists y, dict_get y sample_catalog = None /\
                  display_build_summary (world_of plain_job Missing)
                    [("mojo_runner_2", oom_status)] cached_state =
                  (Raise (KeyError y), cached_state)).
Proof.
  apply (display_build_summary_table (R:=re_fragment)
           (world_of plain_job Missing) [("mojo_runner_2", oom_status)]
           cached_state sample_catalog).
  reflexivity.
Defined.


Lemma report_rows_descend_witness :
  descending (omap row_number plain_report).
Proof.
  apply (report_rows_descend (R:=re_fragment) plain_world "mojo_runner"
           1 false plain_report).
  exact plain_report_printed.
Defined.

(** ** Where the walk ends *)

Section WalkEnds.

Context {R : PyRe}.
Variable w : world.
Variable srv : gmap string job.

(** While every build from [n] down is after the cutoff, the loop does not
    come to a normal end. *)
Lemma walk_needs_old_build job_name T inc fuel :
  forall n job_time statuses st statuses' st',
    server st = Some srv ->
    T < job_time ->
    (forall k b d, k <= n -> server_build srv job_name k = Some b ->
                   fromtimestamp_ms w (timestamp b) = inr d -> T < d) ->
    walk w fuel job_name T inc job_time n statuses st <> (Ok statuses', st').
Proof.
  induction fuel as [| fuel' IH];
    intros n job_time statuses st statuses' st' Hs Hjt Hall.
  - cbn [walk]. replace (job_time >? T) with true by lia. discriminate.
  - rewrite (walk_step w srv _ _ _ _ _ _ _ _ Hs).
    replace (job_time >? T) with true by lia. cbv zeta.
    set (st1 := add_events st [GetBuildInfo job_name n]).
    destruct (server_build srv job_name n) as [b0 |] eqn:Eb; [| discriminate].
    destruct (fromtimestamp_ms w (timestamp b0)) as [e | d] eqn:Ed;
      [discriminate |].
    set (b := with_timestamp b0 d).
    destruct (record_build_opens w srv job_name T inc b n statuses st1 Hs)
      as [Hs2 _].
    destruct (record_build w job_name T inc b n statuses st1)
      as [[statuses2 | e |] st2]; cbn [fst snd] in *;
      [| discriminate | discriminate].
    apply IH; [exact Hs2 | exact (Hall n b0 d ltac:(lia) Eb Ed) |].
    intros k bk dk Hk. apply Hall. lia.
Qed.

(** The loop fetches at most [fuel] builds, downwards from [n]. *)
Lemma walk_visited_bound job_name T inc fuel :
  forall n job_time statuses st,
    server st = Some srv ->
    exists len,
      (len <= fuel)%nat /\
      visited (trace (walk w fuel job_name T inc job_time n statuses st).2)
      = visited (trace st) ++ countdown len n.
Proof.
  induction fuel as [| fuel' IH]; intros n job_time statuses st Hs.
  - exists O. split; [lia |]. cbn [walk]. destruct (job_time >? T); simpl;
      rewrite app_nil_r; reflexivity.
  - rewrite (walk_step w srv _ _ _ _ _ _ _ _ Hs).
    destruct (job_time >? T);
      [| exists O; split; [lia |]; simpl; rewrite app_nil_r; reflexivity].
    cbv zeta. set (st1 := add_events st [GetBuildInfo job_name n]).
    assert (Hv1 : visited (trace st1) = visited (trace st) ++ [n])
      by (unfold st1; simpl; rewrite visited_app; reflexivity).
    destruct (server_build srv job_name n) as [b0 |];
      [| exists 1%nat; split; [lia | exact Hv1]].
    destruct (fromtimestamp_ms w (timestamp b0)) as [e | d];
      [exists 1%nat; split; [lia | exact Hv1] |].
    set (b := with_timestamp b0 d).
    destruct (record_build_visited w srv job_name T inc b n statuses st1 Hs)
      as (_ & Hs2 & Hv2).
    destruct (record_build w job_name T inc b n statuses st1)
      as [[statuses' | e |] st2]; cbn [fst snd] in Hs2, Hv2.
    + destruct (IH (n - 1) d statuses' st2 Hs2)
        as (len & Hle & Hlen).
      exists (S len). split; [lia |].
      rewrite Hlen, Hv2, Hv1, <- app_assoc. reflexivity.
    + exists 1%nat. split; [lia |]. cbn [fst snd]. rewrite Hv2. exact Hv1.
    + exists 1%nat. split; [lia |]. cbn [fst snd]. rewrite Hv2. exact Hv1.
Qed.

End WalkEnds.

(** X7. A report needs a build at or before the cutoff: when the cutoff is
    before [now] and every build of the job up to the last completed one
    started after it (as far as its start time converts at all), the loop
    walks on below the oldest build, a fetch raises, and the run ends with
    an exception without printing a table. *)
Theorem no_old_build_no_report
    {R : PyRe} (w : world) (srv : gmap string job) (job_name : string)
    (j : job) (N : Z) (hours_ago : Z) (inc : bool) :
  jenkins_yaml w = Loaded srv ->
  srv !! job_name = Some j ->
  lastCompletedBuild j = Some N ->
  cutoff w hours_ago < now w ->
  (forall k b d, k <= N -> job_build j k = Some b ->
                 fromtimestamp_ms w (timestamp b) = inr d ->
                 cutoff w hours_ago < d) ->
  (exists e, (run w job_name hours_ago inc).1 = Raise e) /\
  ~ report_printed (trace (run w job_name hours_ago inc).2).
Proof.
  intros Hy Hj HN Hnow Hall.
  destruct (run_cases w job_name hours_ago inc) as [(h & srv' & Hc) | He].
  2:{ split; [exact (early_exit_raises _ _ _ He) |].
      exact (early_exit_no_report _ _ _ He). }
  assert (srv' = srv) as ->
    by (destruct Hc as (_ & _ & Hy' & _); congruence).
  assert (Hno : forall statuses st',
    walk w (walk_bound N) job_name (cutoff w hours_ago) inc (now w) N []
      (connected_state h srv job_name) <> (Ok statuses, st')).
  { intros statuses st'. apply (walk_needs_old_build w srv);
      [reflexivity | exact Hnow |].
    intros k b d Hk Hb. apply (Hall k b d Hk).
    unfold server_build in Hb. rewrite Hj in Hb. exact Hb. }
  destruct (walk_run w srv job_name (cutoff w hours_ago) inc (walk_bound N)
              N (now w) [] (connected_state h srv job_name) eq_refl
              ltac:(unfold walk_bound; lia))
    as [Hu (evs & (_ & _ & Ht & _) & Hw)].
  unfold run. rewrite (display_builds_for_job_start w srv h _ _ _ Hc), Hj, HN.
  unfold mbind, M_bind.
  destruct (walk w (walk_bound N) job_name (cutoff w hours_ago) inc (now w)
              N [] (connected_state h srv job_name))
    as [[statuses | e |] st2]; cbn [fst snd] in *.
  - destruct (Hno statuses st2 eq_refl).
  - split; [eauto |]. intros [rows Hin]. rewrite Ht in Hin.
    apply elem_of_app in Hin as [Hin | Hin].
    + simpl in Hin.
      repeat (apply elem_of_cons in Hin as [Hin | Hin]; [discriminate |]).
      inversion Hin.
    + exact (walk_events_not_table _ _ Hw Hin).
  - contradiction.
Qed.

Lemma no_old_build_no_report_witness :
  (exists e, (run (R:=re_fragment) recent_world "mojo_runner" 1 true).1
             = Raise e) /\
  ~ report_printed
      (trace (run (R:=re_fragment) recent_world "mojo_runner" 1 true).2).
Proof.
  apply (no_old_build_no_report (R:=re_fragment) recent_world
           {[ "mojo_runner" := recent_job ]} "mojo_runner" recent_job 2 1
           true).
  - reflexivity.
  - reflexivity.
  - reflexivity.
  - vm_compute. reflexivity.
  - intros k b d Hk Hb Hd.
    destruct k as [| p | p]; [discriminate | | discriminate].
    assert (Hp : Z.pos p = 1 \/ Z.pos p = 2) by lia.
    destruct Hp as [Hp | Hp]; injection Hp as ->;
      vm_compute in Hb; injection Hb as <-;
      vm_compute in Hd; injection Hd as <-; vm_compute; reflexivity.
Defined.

(** X8. A run fetches build metadata for consecutive numbers, downwards
    from the last completed build [N], none twice; it fetches at most
    [N + 1] of them, so it never goes below build 0. *)
Theorem run_fetches_downwards
    {R : PyRe} (w : world) (job_name : string) (hours_ago : Z) (inc : bool) :
  visited (trace (run w job_name hours_ago inc).2) = [] \/
  exists srv j N len,
    jenkins_yaml w = Loaded srv /\ srv !! job_name = Some j /\
    lastCompletedBuild j = Some N /\
    (len <= Z.to_nat N + 1)%nat /\
    visited (trace (run w job_name hours_ago inc).2) = countdown len N.
Proof.
  destruct (run_cases w job_name hours_ago inc) as [(h & srv & Hc) | He];
    [| left; exact (early_exit_visited _ _ _ He)].
  assert (Ey : jenkins_yaml w = Loaded srv) by apply Hc.
  - unfold run. rewrite (display_builds_for_job_start w srv h _ _ _ Hc).
    destruct (srv !! job_name) as [j |] eqn:Ej; [| left; reflexivity].
    destruct (lastCompletedBuild j) as [N |] eqn:EN; [| left; reflexivity].
    right. exists srv, j, N.
    set (st1 := connected_state h srv job_name).
    set (T := cutoff w hours_ago).
    destruct (walk_visited_bound w srv job_name T inc (walk_bound N) N (now w)
                [] st1 eq_refl) as (len & Hle & Hlen).
    exists len. split; [exact Ey |]. split; [exact Ej |].
    split; [exact EN |]. split; [unfold walk_bound in Hle; lia |].
    destruct (walk_opens w srv job_name T inc (walk_bound N) N (now w) [] st1
                eq_refl) as [Hs2 _].
    unfold mbind, M_bind.
    destruct (walk w (walk_bound N) job_name T inc (now w) N [] st1)
      as [[statuses | e |] st2]; cbn [fst snd] in *; try exact Hlen.
    destruct (summary_run w srv statuses st2 Hs2)
      as [_ (evs_s & (_ & _ & Ht & _) & Hvs & _)].
    rewrite Ht, visited_app, Hvs, app_nil_r. exact Hlen.
Qed.

(** X9. With [hours_ago] zero or negative the cutoff is not before [now]:
    in a run that gets to the server (the cutoff is still a date, [HOME] is
    set and the settings have their keys) the loop body never runs, no build
    is fetched, not even the last completed one, and the table is the bare
    header. *)
Theorem empty_window_bare_header
    {R : PyRe} (w : world) (h : string) (srv : gmap string job)
    (job_name : string) (j : job) (N : Z) (hours_ago : Z) (inc : bool)
    (data : catalog) :
  connects w hours_ago h srv ->
  srv !! job_name = Some j ->
  lastCompletedBuild j = Some N ->
  causes_yaml w = Loaded data ->
  hours_ago <= 0 ->
  run w job_name hours_ago inc =
  (Ok tt,
   {| server := Some srv; causes_cache := Some data;
      trace := [OpenFile (JENKINS_SETTINGS_FILE h);
                GetJobInfo job_name;
                OpenFile "causes.yaml";
                PrintTable [header]] |}).
Proof.
  intros Hy Hj HN Hc Hh. unfold run.
  rewrite (display_builds_for_job_start w srv h _ _ _ Hy), Hj, HN.
  unfold mbind at 1, M_bind at 1.
  rewrite walk_done by (unfold cutoff; lia).
  rewrite display_build_summary_eq, get_causes_eq. simpl. rewrite Hc.
  reflexivity.
Qed.

Lemma empty_window_bare_header_witness :
  run (R:=re_fragment) plain_world "mojo_runner" 0 true =
  (Ok tt,
   {| server := Some {[ "mojo_runner" := plain_job ]};
      causes_cache := Some sample_catalog;
      trace := [OpenFile (JENKINS_SETTINGS_FILE "/home/ci");
                GetJobInfo "mojo_runner";
                OpenFile "causes.yaml";
                PrintTable [header]] |}).
Proof.
  apply (empty_window_bare_header (R:=re_fragment) plain_world "/home/ci"
           {[ "mojo_runner" := plain_job ]} "mojo_runner" plain_job 4 0 true
           sample_catalog); [repeat split; reflexivity | reflexivity .. | lia].
Defined.

(** ** Cached calls *)

(** X10. [get_causes] and [get_server] are cached: after a call that
    returned, the next call returns the same value and leaves the state,
    and so the trace, as it is. A failure of [get_causes] is not cached: the
    next call opens the file again. *)
Theorem cached_calls_repeat (w : world) (st : state) :
  (forall c st1, get_causes w st = (Ok c, st1) ->
                 get_causes w st1 = (Ok c, st1)) /\
  (forall e st1, get_causes w st = (Raise e, st1) ->
                 get_causes w st1 =
                 (Raise e, add_events st1 [OpenFile "causes.yaml"])) /\
  (forall s st1, get_server w st = (Ok s, st1) ->
                 get_server w st1 = (Ok s, st1)).
Proof.
  split; [| split].
  - intros c st1. rewrite !get_causes_eq.
    destruct (causes_cache st) as [c0 |] eqn:Ec.
    + intros E. injection E as <- <-. rewrite Ec. reflexivity.
    + cbv zeta. destruct (causes_yaml w); try discriminate.
      intros E. injection E as <- <-. reflexivity.
  - intros e st1. rewrite !get_causes_eq.
    destruct (causes_cache st) as [c0 |] eqn:Ec; [discriminate |].
    cbv zeta. destruct (causes_yaml w) eqn:Ey; try discriminate;
      intros E; injection E as <- <-; cbn [causes_cache add_events];
      rewrite Ec; reflexivity.
  - intros s st1. unfold get_server, get_connection_settings, environ_HOME,
      settings_item.
    unfold mbind, M_bind, get_state, log, set_server.
    destruct (server st) as [s0 |] eqn:Es.
    + intros E. injection E as <- <-. rewrite Es. reflexivity.
    + destruct (home w); [| discriminate].
      destruct (jenkins_yaml w); [discriminate | discriminate |].
      destruct (existsb (String.eqb "url") (settings_keys w));
        [| discriminate].
      destruct (existsb (String.eqb "username") (settings_keys w));
        [| discriminate].
      destruct (existsb (String.eqb "password") (settings_keys w));
        [| discriminate].
      intros E. injection E as <- <-. reflexivity.
Qed.

Lemma cached_calls_repeat_witness :
  get_causes plain_world (get_causes plain_world initial_state).2 =
  (Ok sample_catalog, (get_causes plain_world initial_state).2).
Proof.
  destruct (cached_calls_repeat plain_world initial_state) as [H _].
  apply H. reflexivity.
Defined.

(** ** More on the classifier *)

(** X11. A cause with no rule is never reported: neither [re] nor [text],
    or empty lists for them. *)
Theorem cause_without_rules_is_silent
    {R : PyRe} (output : string) (causes : catalog) (name : string)
    (l : list string) :
  (forall data, (name, data) ∈ causes ->
                truthy (re data) = None /\ truthy (text data) = None) ->
  classify output causes = Ok l ->
  name ∉ l.
Proof.
  intros Hnone Hl Hin.
  assert (H := classify_spec output causes). rewrite Hl in H.
  destruct H as (_ & _ & Hmem).
  destruct (proj1 (Hmem name) Hin) as (data & Hd & Hfire).
  destruct (Hnone data Hd) as [Hre Htext].
  destruct Hfire as [(regs & pat & E & Hp & _) | (strs & s & E & Hs & _)].
  - rewrite E in Hre. destruct regs; [inversion Hp | discriminate].
  - rewrite E in Htext. destruct strs; [inversion Hs | discriminate].
Qed.

Lemma cause_without_rules_is_silent_witness :
  "empty" ∉ ([] : list string).
Proof.
  apply (cause_without_rules_is_silent (R:=re_fragment) "Timeout"
           [("empty", {| re := Some []; text := None; bug_data := None |})]
           "empty" []).
  - intros data Hd. apply list_elem_of_singleton in Hd. injection Hd as ->.
    split; reflexivity.
  - vm_compute. reflexivity.
Defined.

(** X12. The empty string as a literal matches every log text, the empty
    one too: its cause is in every classification that returns. *)
Theorem empty_literal_always_fires
    {R : PyRe} (output : string) (causes : catalog) (name : string)
    (data : cause_data) (strs l : list string) :
  (name, data) ∈ causes ->
  text data = Some strs ->
  "" ∈ strs ->
  classify output causes = Ok l ->
  name ∈ l.
Proof.
  intros Hin Ht Hs Hl.
  assert (H := classify_spec output causes). rewrite Hl in H.
  destruct H as (_ & _ & Hmem). apply Hmem. exists data.
  split; [exact Hin |]. right. exists strs, "".
  split; [exact Ht |]. split; [exact Hs |]. exists "", output. reflexivity.
Qed.

Lemma empty_literal_always_fires_witness : "any" ∈ ["any"].
Proof.
  apply (empty_literal_always_fires (R:=re_fragment) ""
           [("any", literal_cause "")] "any" (literal_cause "") [""]
           ["any"]).
  - left.
  - reflexivity.
  - left.
  - vm_compute. reflexivity.
Defined.

(** X13. The classification does not depend on the order of the catalog:
    for two catalogs with the same entries, if one classification returns
    then so does the other, with the same names. *)
Theorem classify_order_independent
    {R : PyRe} (output : string) (causes1 causes2 : catalog)
    (l1 : list string) :
  causes1 ≡ₚ causes2 ->
  classify output causes1 = Ok l1 ->
  exists l2, classify output causes2 = Ok l2 /\
             forall x, x ∈ l1 <-> x ∈ l2.
Proof.
  intros Hperm Hl1.
  assert (H1 := classify_spec output causes1). rewrite Hl1 in H1.
  destruct H1 as (Hc1 & _ & Hm1).
  assert (Hc2 : patterns_compile output causes2).
  { intros name data pat Hin. apply (Hc1 name data pat).
    rewrite Hperm. exact Hin. }
  destruct (classify_returns output causes2 Hc2) as [l2 Hl2].
  exists l2. split; [exact Hl2 |].
  assert (H2 := classify_spec output causes2). rewrite Hl2 in H2.
  destruct H2 as (_ & _ & Hm2).
  intros x. rewrite Hm1, Hm2. split; intros (data & Hin & Hf); exists data;
    (split; [| exact Hf]); [rewrite <- Hperm | rewrite Hperm]; exact Hin.
Qed.

Lemma classify_order_independent_witness :
  exists l2,
    classify (R:=re_fragment) "java.lang.OutOfMemoryError"
      [("traceback", regex_cause "Traceback.*Error");
       ("oom", literal_cause "OutOfMemoryError")] = Ok l2 /\
    forall x, x ∈ ["oom"] <-> x ∈ l2.
Proof.
  apply (classify_order_independent (R:=re_fragment)
           "java.lang.OutOfMemoryError" sample_catalog).
  - apply perm_swap.
  - vm_compute. reflexivity.
Defined.

(** ** The command line *)

(** X14. Whatever [-j] is given, the job name [parse_args] passes on is not
    empty and is not one of the alias keys, and resolving it again changes
    nothing; with no [-j], or an empty one, it is [mojo_runner]. With no
    [-t], or an empty one, [hours_ago] is 30 and nothing is parsed. *)
Theorem parse_args_job_name
    (int_of_str : string -> option Z) (a : args) (s : run_settings) :
  parse_args int_of_str a = Parsed s ->
  rs_job_name s <> "" /\
  dict_get (rs_job_name s) job_aliases = None /\
  resolve_alias (rs_job_name s) = rs_job_name s /\
  (str_or (args_job_name a) "" = "" -> rs_job_name s = "mojo_runner") /\
  (str_or (args_hours_ago a) "" = "" -> rs_hours_ago s = 30) /\
  rs_include_success s = args_include_success a.
Proof.
  unfold parse_args.
  assert (Hres : forall n, n <> "" ->
    resolve_alias n <> "" /\
    dict_get (resolve_alias n) job_aliases = None /\
    resolve_alias (resolve_alias n) = resolve_alias n).
  { intros n Hn. unfold resolve_alias. simpl.
    destruct (String.eqb_spec n "mojo") as [-> | H1]; [auto |].
    destruct (String.eqb_spec n "full") as [-> | H2]; [auto |].
    destruct (String.eqb_spec n "lint") as [-> | H3]; [auto |].
    destruct (String.eqb_spec n "single") as [-> | H4]; [auto |].
    simpl.
    rewrite (proj2 (String.eqb_neq n "mojo") H1).
    rewrite (proj2 (String.eqb_neq n "full") H2).
    rewrite (proj2 (String.eqb_neq n "lint") H3).
    rewrite (proj2 (String.eqb_neq n "single") H4).
    auto. }
  assert (Hname : str_or (args_job_name a) "mojo_runner" <> "")
    by (destruct (args_job_name a) as [[| c n] |]; discriminate).
  destruct (Hres _ Hname) as (Hne & Hkey & Hidem).
  destruct (match args_hours_ago a with
            | Some (String _ _ as s0) => int_of_str s0
            | _ => Some 30
            end) as [h |] eqn:Eh; [| discriminate].
  intros E. injection E as <-.
  cbn [rs_job_name rs_hours_ago rs_include_success].
  split; [exact Hne |]. split; [exact Hkey |]. split; [exact Hidem |].
  split; [| split; [| reflexivity]].
  - destruct (args_job_name a) as [[| c n] |]; simpl; try reflexivity.
    discriminate.
  - destruct (args_hours_ago a) as [[| c n] |]; simpl in *;
      try (intros _; congruence). discriminate.
Qed.

Lemma parse_args_job_name_witness :
  "mojo_runner" <> "" /\
  dict_get "mojo_runner" job_aliases = None /\
  resolve_alias "mojo_runner" = "mojo_runner" /\
  (str_or (Some "mojo") "" = "" -> "mojo_runner" = "mojo_runner") /\
  (str_or None "" = "" -> 30 = 30) /\
  false = false.
Proof.
  apply (parse_args_job_name (fun _ => None)
           {| args_job_name := Some "mojo"; args_hours_ago := None;
              args_include_success := false |}
           {| rs_job_name := "mojo_runner"; rs_hours_ago := 30;
              rs_include_success := false |}).
  reflexivity.
Defined.

(** ** The table ends the run *)

Lemma summary_table_last {R : PyRe} w statuses st :
  (forall rows, PrintTable rows ∉ trace st) ->
  let r := display_build_summary w statuses st in
  (r.1 = Ok tt -> exists rows, last (trace r.2) = Some (PrintTable rows)) /\
  (forall rows, PrintTable rows ∈ trace r.2 ->
     r.1 = Ok tt /\ last (trace r.2) = Some (PrintTable rows)).
Proof.
  intros Hno. cbv zeta. rewrite display_build_summary_eq, get_causes_eq.
  assert (Hrows : forall causes st1,
    (forall rows, PrintTable rows ∉ trace st1) ->
    let r := match summary_rows causes (statuses.*2) [header] with
             | Ok rows => (Ok tt, add_events st1 [PrintTable rows])
             | Raise e => (Raise e, st1)
             | Unfinished => (Unfinished, st1)
             end in
    (r.1 = Ok tt -> exists rows, last (trace r.2) = Some (PrintTable rows)) /\
    (forall rows, PrintTable rows ∈ trace r.2 ->
       r.1 = Ok tt /\ last (trace r.2) = Some (PrintTable rows))).
  { intros causes st1 Hno1.
    destruct (summary_rows causes (statuses.*2) [header]) as [rows' | e |];
      cbv zeta; cbn [fst snd].
    - simpl. split; [intros _; exists rows'; apply last_snoc |].
      intros rows Hin. apply elem_of_app in Hin as [Hin | Hin];
        [destruct (Hno1 rows Hin) |].
      apply list_elem_of_singleton in Hin. injection Hin as ->.
      split; [reflexivity | apply last_snoc].
    - split; [discriminate |]. intros rows Hin. destruct (Hno1 rows Hin).
    - split; [discriminate |]. intros rows Hin. destruct (Hno1 rows Hin). }
  assert (Hopen : forall rows,
            PrintTable rows ∉ trace st ++ [OpenFile "causes.yaml"]).
  { intros rows Hin. apply elem_of_app in Hin as [Hin | Hin];
      [exact (Hno rows Hin) |].
    apply list_elem_of_singleton in Hin. discriminate. }
  destruct (causes_cache st) as [c |]; [apply Hrows, Hno |]. cbv zeta.
  destruct (causes_yaml w) as [| | data]; cbn [fst snd].
  - split; [discriminate |]. intros rows Hin. destruct (Hopen rows Hin).
  - split; [discriminate |]. intros rows Hin. destruct (Hopen rows Hin).
  - apply Hrows. exact Hopen.
Qed.

(** X15. The table is the last thing a run does: a run that printed a table
    ended well, with the table as its last event, so that a run that raises
    has printed no table; and a run that ends well has printed a table,
    unless the job has no completed build. *)
Theorem table_ends_run
    {R : PyRe} (w : world) (job_name : string) (hours_ago : Z) (inc : bool) :
  (forall rows,
     PrintTable rows ∈ trace (run w job_name hours_ago inc).2 ->
     (run w job_name hours_ago inc).1 = Ok tt /\
     last (trace (run w job_name hours_ago inc).2) = Some (PrintTable rows))
  /\ ((run w job_name hours_ago inc).1 = Ok tt ->
      report_printed (trace (run w job_name hours_ago inc).2) \/
      exists srv j,
        jenkins_yaml w = Loaded srv /\ srv !! job_name = Some j /\
        lastCompletedBuild j = None).
Proof.
  destruct (run_cases w job_name hours_ago inc) as [(h & srv & Hc) | He].
  2:{ split.
      - intros rows Hin. destruct (early_exit_no_report _ _ _ He).
        exists rows. exact Hin.
      - intros E. apply early_exit_raises in He as [e He]. congruence. }
  assert (Ey : jenkins_yaml w = Loaded srv) by apply Hc.
  - unfold run. rewrite (display_builds_for_job_start w srv h _ _ _ Hc).
    assert (Hst1 : forall rows,
              PrintTable rows ∉ trace (connected_state h srv job_name)).
    { intros rows H. simpl in H.
      repeat (apply elem_of_cons in H as [H | H]; [discriminate |]).
      inversion H. }
    destruct (srv !! job_name) as [j |] eqn:Ej;
      [| split; [intros rows Hin; destruct (Hst1 rows Hin) | discriminate]].
    destruct (lastCompletedBuild j) as [N |] eqn:EN.
    2:{ split; [intros rows Hin; destruct (Hst1 rows Hin) |].
        intros _. right. exists srv, j. auto. }
    set (st1 := connected_state h srv job_name) in *.
    set (T := cutoff w hours_ago).
    destruct (walk_run w srv job_name T inc (walk_bound N) N (now w) [] st1
                eq_refl ltac:(unfold walk_bound; lia))
      as [Hu (evs & (_ & _ & Ht & _) & Hw)].
    unfold mbind, M_bind.
    destruct (walk w (walk_bound N) job_name T inc (now w) N [] st1)
      as [[statuses | e |] st2]; cbn [fst snd] in *.
    + assert (Hno2 : forall rows, PrintTable rows ∉ trace st2).
      { intros rows Hin. rewrite Ht in Hin.
        apply elem_of_app in Hin as [Hin | Hin];
          [exact (Hst1 rows Hin) | exact (walk_events_not_table _ _ Hw Hin)]. }
      destruct (summary_table_last w statuses st2 Hno2) as [Hok Hlast].
      split; [exact Hlast |]. intros E. left.
      destruct (Hok E) as [rows Hrows]. exists rows.
      apply last_Some_elem_of. exact Hrows.
    + split; [| discriminate]. intros rows Hin. rewrite Ht in Hin.
      apply elem_of_app in Hin as [Hin | Hin];
        [destruct (Hst1 rows Hin)
        | destruct (walk_events_not_table _ _ Hw Hin)].
    + contradiction.
Qed.
